(** * CernAtlasSBOM: dependency extraction and the version gate

    A shallow embedding of the parsing and versioning code of the
    repository (the [sbomGenerator.py] variants, [generate_sbom.py],
    [version_sbom.py] and the signature helper shared with
    [backend/app.py]), followed by the properties its specification
    states about them.

    Conventions of the embedding.
    - A Python [str] is a [string] of 8-bit characters; the character
      classes ([\s], [\w], [str.lower], [str.strip]) are the ASCII ones.
    - A Python [dict] is a [gmap], a list is a [list], [None] is [None];
      a [set] of dependencies is the list of its elements.
    - A text file is an [option string]: [None] when the file is absent,
      otherwise its decoded contents.
    - A function that can raise returns a [result]. *)

From Stdlib Require Import ZArith String Ascii DecimalString DecimalZ.
From stdpp Require Import gmap strings list fin_maps sorting.

Local Open Scope string_scope.
Local Open Scope Z_scope.

(** ** Errors *)

Inductive exn := IndexError | ValueError | AttributeError | FileExistsError.

Inductive result (A : Type) :=
| Ok (a : A)
| Raise (e : exn).
Arguments Ok {A} a.
Arguments Raise {A} e.

#[global] Instance result_ret : MRet result := fun A a => Ok a.
#[global] Instance result_bind : MBind result := fun A B f x =>
  match x with Ok a => f a | Raise e => Raise e end.

(** [try: <steps> / except Exception: pass] around steps that update a
    state in place: the updates made before a step raises are kept. *)
Fixpoint try_steps {S} (steps : list (S -> result S)) (st : S) : S :=
  match steps with
  | [] => st
  | step :: rest =>
      match step st with
      | Ok st' => try_steps rest st'
      | Raise _ => st
      end
  end.

(** The same steps with no handler around them. *)
Fixpoint do_steps {S} (steps : list (S -> result S)) (st : S) : result S :=
  match steps with
  | [] => Ok st
  | step :: rest => st' ← step st; do_steps rest st'
  end.

(** ** Python built-ins used by the code *)

Module Py.

Definition code (c : ascii) : N := N_of_ascii c.

Definition nl : ascii := "010".
Definition cr : ascii := "013".
Definition dq : ascii := "034".

(** [str.isspace] on an ASCII character: TAB..CR, FS..US and the space. *)
Definition isspace (c : ascii) : bool :=
  let n := code c in
  ((9 <=? n) && (n <=? 13) || (28 <=? n) && (n <=? 31) || (n =? 32))%N.

(** The C-level [Py_ISSPACE] that [int()] applies to an ASCII string. *)
Definition c_isspace (c : ascii) : bool :=
  let n := code c in ((9 <=? n) && (n <=? 13) || (n =? 32))%N.

Definition isdigit (c : ascii) : bool :=
  let n := code c in ((48 <=? n) && (n <=? 57))%N.

Definition isupper (c : ascii) : bool :=
  let n := code c in ((65 <=? n) && (n <=? 90))%N.

Definition islower (c : ascii) : bool :=
  let n := code c in ((97 <=? n) && (n <=? 122))%N.

Definition isalpha (c : ascii) : bool := isupper c || islower c.

Definition lower_char (c : ascii) : ascii :=
  if isupper c then ascii_of_N (code c + 32) else c.

Fixpoint smap (f : ascii -> ascii) (s : string) : string :=
  match s with
  | EmptyString => EmptyString
  | String c r => String (f c) (smap f r)
  end.

(** [s.lower()] *)
Definition lower : string -> string := smap lower_char.

(** [bool(s)]: a string is truthy when it is not empty. *)
Definition truthy (s : string) : bool :=
  match s with EmptyString => false | _ => true end.

(** [bool(o)] of an optional string. *)
Definition truthy_opt (o : option string) : bool :=
  match o with Some s => truthy s | None => false end.

Fixpoint drop_while (p : ascii -> bool) (s : string) : string :=
  match s with
  | EmptyString => EmptyString
  | String c r => if p c then drop_while p r else s
  end.

Fixpoint drop_while_end (p : ascii -> bool) (s : string) : string :=
  match s with
  | EmptyString => EmptyString
  | String c r =>
      match drop_while_end p r with
      | EmptyString => if p c then EmptyString else String c EmptyString
      | t => String c t
      end
  end.

(** [s.lstrip()], [s.rstrip()], [s.strip()] *)
Definition lstrip : string -> string := drop_while isspace.
Definition rstrip : string -> string := drop_while_end isspace.
Definition strip (s : string) : string := rstrip (lstrip s).

(** [s.startswith(p)] *)
Definition startswith (p s : string) : bool := String.prefix p s.

(** [s[n:]] *)
Fixpoint drop (n : nat) (s : string) : string :=
  match n, s with
  | O, _ => s
  | S n', String _ r => drop n' r
  | S _, EmptyString => EmptyString
  end.

(** [sub in s] *)
Fixpoint contains (sub s : string) : bool :=
  String.prefix sub s ||
  match s with
  | EmptyString => false
  | String _ r => contains sub r
  end.

(** [s.replace(a, b)] for one-character [a] and [b]. *)
Definition replace_char (a b : ascii) : string -> string :=
  smap (fun c => if Ascii.eqb c a then b else c).

(** [s.split()]: the maximal runs of non-whitespace characters. *)
Fixpoint split_ws (s : string) : list string :=
  match s with
  | EmptyString => []
  | String c r =>
      if isspace c then split_ws r
      else
        match r with
        | EmptyString => [String c EmptyString]
        | String c' _ =>
            if isspace c' then String c EmptyString :: split_ws r
            else match split_ws r with
                 | w :: ws => String c w :: ws
                 | [] => [String c EmptyString]
                 end
        end
  end.

(** [s.split(sep)] for a one-character separator: at least one piece. *)
Fixpoint split_char (sep : ascii) (s : string) : list string :=
  match s with
  | EmptyString => [EmptyString]
  | String c r =>
      if Ascii.eqb c sep then EmptyString :: split_char sep r
      else match split_char sep r with
           | w :: ws => String c w :: ws
           | [] => [String c EmptyString]
           end
  end.

(** [s.split(sep, 1)]: the text before the first occurrence of [sep] and
    the text after it; [None] when [sep] does not occur (Python then
    returns the one-element list [[s]]). *)
Fixpoint split_once (sep : string) (s : string) : option (string * string) :=
  if String.prefix sep s then Some (EmptyString, drop (String.length sep) s)
  else match s with
       | EmptyString => None
       | String c r =>
           match split_once sep r with
           | Some (a, b) => Some (String c a, b)
           | None => None
           end
       end.

(** *** [int(s)] in base 10 *)

Definition digit_val (c : ascii) : Z := Z.of_N (code c) - 48.

(** Digits with single underscores between them; [prev_digit] tells
    whether the previous character was a digit. *)
Fixpoint digits_go (acc : Z) (prev_digit : bool) (s : string) : option Z :=
  match s with
  | EmptyString => if prev_digit then Some acc else None
  | String c r =>
      if isdigit c then digits_go (10 * acc + digit_val c) true r
      else if Ascii.eqb c "_" then
             if prev_digit then digits_go acc false r else None
      else None
  end.

Definition unsigned_int (s : string) : option Z := digits_go 0 false s.

Definition c_strip (s : string) : string :=
  drop_while_end c_isspace (drop_while c_isspace s).

(** [int(s)]: [None] stands for [ValueError]. *)
Definition int (s : string) : option Z :=
  match c_strip s with
  | String "+" r => unsigned_int r
  | String "-" r => Z.opp <$> unsigned_int r
  | t => unsigned_int t
  end.

(** [str(x)] inside an f-string, for an optional string. *)
Definition str_opt (o : option string) : string :=
  match o with Some s => s | None => "None" end.

(** [str(n)] of a length and of an integer. *)
Definition str_nat (n : nat) : string := NilZero.string_of_uint (Nat.to_uint n).
Definition str_int (z : Z) : string := NilZero.string_of_int (Z.to_int z).

(** [sep.join(l)] *)
Fixpoint join (sep : string) (l : list string) : string :=
  match l with
  | [] => ""
  | [x] => x
  | x :: rest => x ++ sep ++ join sep rest
  end.

(** A method call on a value that may be [None]. *)
Definition not_none {A} (o : option A) : result A :=
  match o with Some x => Ok x | None => Raise AttributeError end.

(** [max] of a non-empty list of integers, given as head and tail. *)
Definition max_list (x : Z) (l : list Z) : Z := foldl Z.max x l.

(** [l[0]] *)
Definition first {A} (l : list A) : result A :=
  match l with x :: _ => Ok x | [] => Raise IndexError end.

(** [l[i]] *)
Definition index {A} (l : list A) (i : nat) : result A :=
  match l !! i with Some x => Ok x | None => Raise IndexError end.

(** [a, b = s.split(sep, 1)]: unpacking a one-element list raises. *)
Definition unpack_split_once (sep s : string) : result (string * string) :=
  match split_once sep s with Some ab => Ok ab | None => Raise ValueError end.

(** *** Text files *)

(** Universal newlines: CR LF and a lone CR are read as LF. *)
Fixpoint translate_newlines (s : string) : string :=
  match s with
  | EmptyString => EmptyString
  | String c r =>
      if Ascii.eqb c cr then
        match r with
        | String c' r' =>
            if Ascii.eqb c' nl then String nl (translate_newlines r')
            else String nl (translate_newlines r)
        | EmptyString => String nl EmptyString
        end
      else String c (translate_newlines r)
  end.

(** The lines of a text, each with its line feed. *)
Fixpoint lines_of (s : string) : list string :=
  match s with
  | EmptyString => []
  | String c r =>
      if Ascii.eqb c nl then String c EmptyString :: lines_of r
      else match lines_of r with
           | l :: ls => String c l :: ls
           | [] => [String c EmptyString]
           end
  end.

(** [f.read()] and [f.readlines()] (also [for line in f]) on a file
    opened in text mode with raw contents [raw]. *)
Definition read (raw : string) : string := translate_newlines raw.
Definition readlines (raw : string) : list string := lines_of (read raw).

End Py.

(** ** Regular expressions ([re]) *)

(** The fragment of Python's pattern language the patterns of the code are
    written in. [Star true r] is the greedy [r*], [Star false r] the lazy
    [r*?]; [Grp n r] is the [n]-th capturing group; [Bol] and [Eol] are [^]
    and [$] without [re.MULTILINE]. *)
Inductive regex :=
| Eps
| Chr (p : ascii -> bool)
| Cat (r1 r2 : regex)
| Alt (r1 r2 : regex)
| Star (greedy : bool) (r : regex)
| Grp (n : nat) (r : regex)
| Bol
| Eol.

Module Re.

(** The groups set so far, most recent first. *)
Definition caps := list (nat * string).

Section Matcher.
Context {A : Type}.

(** A continuation receives the text just matched, the rest of the
    subject and the groups. *)
Definition cont := string -> string -> caps -> option A.

(** Repetition of [body]: a greedy star first tries one more
    iteration and then to stop, a lazy one the other way round. An
    iteration that matches the empty string is not repeated, so
    [fuel], the length of the subject, bounds the iterations. *)
Fixpoint star_loop (body : bool -> string -> caps -> cont -> option A)
    (greedy : bool) (fuel : nat) (bos : bool) (s : string) (cs : caps)
    (k : cont) : option A :=
  match fuel with
  | O => k "" s cs
  | S fuel' =>
      let again :=
        fun _ : unit =>
          body bos s cs (fun w1 s1 cs1 =>
            if Py.truthy w1
            then star_loop body greedy fuel' false s1 cs1
                   (fun w2 s2 cs2 => k (w1 ++ w2) s2 cs2)
            else None) in
      if greedy then
        match again () with
        | Some a => Some a
        | None => k "" s cs
        end
      else
        match k "" s cs with
        | Some a => Some a
        | None => again ()
        end
  end.

(** Backtracking matcher: [run r bos s cs k] tries the ways [r] can
    match a prefix of [s], in the order the [re] module tries them, and
    answers with the first one the continuation [k] accepts. [bos]
    tells whether [s] starts at the beginning of the subject. *)
Fixpoint run (r : regex) (bos : bool) (s : string) (cs : caps) (k : cont) : option A :=
  match r with
  | Eps => k "" s cs
  | Chr p =>
      match s with
      | String c s' => if p c then k (String c "") s' cs else None
      | EmptyString => None
      end
  | Cat r1 r2 =>
      run r1 bos s cs (fun w1 s1 cs1 =>
        run r2 (bos && negb (Py.truthy w1)) s1 cs1 (fun w2 s2 cs2 =>
          k (w1 ++ w2) s2 cs2))
  | Alt r1 r2 =>
      match run r1 bos s cs k with
      | Some a => Some a
      | None => run r2 bos s cs k
      end
  | Star greedy r1 => star_loop (run r1) greedy (String.length s) bos s cs k
  | Grp n r1 => run r1 bos s cs (fun w s1 cs1 => k w s1 ((n, w) :: cs1))
  | Bol => if bos then k "" s cs else None
  | Eol =>
      match s with
      | EmptyString => k "" s cs
      | String c EmptyString => if Ascii.eqb c Py.nl then k "" s cs else None
      | _ => None
      end
  end.
End Matcher.

(** A match object: the text before the match, the matched text
    ([group(0)]), the text after it, and the groups. *)
Record mobj := Match { before : string; whole : string; after : string; groups : caps }.

(** The text of group [n] in a list of groups. *)
Definition lookup (n : nat) (cs : caps) : option string :=
  snd <$> List.find (fun c => Nat.eqb (fst c) n) cs.

(** [m.group(n)]: [None] when the group took no part in the match. *)
Definition group (n : nat) (m : mobj) : option string := lookup n (groups m).

(** The match of [r] that starts at the head of [s], [pre] being the text
    before it. *)
Definition at_pos (r : regex) (bos : bool) (pre s : string) : option mobj :=
  (fun found : string * string * caps => Match pre found.1.1 found.1.2 found.2)
  <$> run r bos s [] (fun w rest cs => Some (w, rest, cs)).

(** [re.match(r, s)] *)
Definition match_ (r : regex) (s : string) : option mobj := at_pos r true "" s.

(** [re.search(r, s)]: the leftmost position where [r] matches. [pre] is
    the text already passed. *)
Fixpoint search_go (r : regex) (bos : bool) (pre : string) (s : string) : option mobj :=
  match at_pos r bos pre s with
  | Some m => Some m
  | None =>
      match s with
      | EmptyString => None
      | String c s' => search_go r false (pre ++ String c "") s'
      end
  end.
Definition search (r : regex) (s : string) : option mobj := search_go r true "" s.

(** [re.sub(r, '', s)]: every non-overlapping match is deleted. A
    non-empty match is skipped; elsewhere one character is copied. *)
Fixpoint delete_go (fuel : nat) (r : regex) (bos : bool) (s : string) : string :=
  match fuel with
  | O => s
  | S fuel' =>
      let copy :=
        match s with
        | EmptyString => ""
        | String c s' => String c (delete_go fuel' r false s')
        end in
      match at_pos r bos "" s with
      | Some m => if Py.truthy (whole m) then delete_go fuel' r false (after m) else copy
      | None => copy
      end
  end.
Definition delete (r : regex) (s : string) : string :=
  delete_go (S (String.length s)) r true s.

(** *** Pattern syntax *)

Definition lit (c : ascii) : regex := Chr (Ascii.eqb c).
Fixpoint str (s : string) : regex :=
  match s with
  | EmptyString => Eps
  | String c EmptyString => lit c
  | String c s' => Cat (lit c) (str s')
  end.
Definition star (r : regex) : regex := Star true r.          (* r* *)
Definition plus (r : regex) : regex := Cat r (Star true r).  (* r+ *)
Definition plus_lazy (r : regex) : regex := Cat r (Star false r). (* r+? *)
Definition opt (r : regex) : regex := Alt r Eps.             (* r? *)
Fixpoint seq (rs : list regex) : regex :=
  match rs with
  | [] => Eps
  | [r] => r
  | r :: rs' => Cat r (seq rs')
  end.
Fixpoint times (n : nat) (r : regex) : regex :=              (* r{n} *)
  match n with
  | O => Eps
  | 1%nat => r
  | S n' => Cat r (times n' r)
  end.

(** Character classes. *)
Definition any (c : ascii) : bool := negb (Ascii.eqb c Py.nl).        (* . *)
Definition space : ascii -> bool := Py.isspace.                       (* \s *)
Definition digit : ascii -> bool := Py.isdigit.                       (* [0-9] *)
Definition alnum (c : ascii) : bool := Py.isalpha c || Py.isdigit c.  (* [A-Za-z0-9] *)
Definition word (c : ascii) : bool := alnum c || Ascii.eqb c "_".     (* \w *)
Definition one_of (s : string) (c : ascii) : bool :=                  (* [...] *)
  Py.contains (String c "") s.
Definition or (p q : ascii -> bool) (c : ascii) : bool := p c || q c.
Definition none_of (s : string) (c : ascii) : bool := negb (one_of s c). (* [^...] *)

(** [sets n r]: every way [r] can match goes through group [n]. *)
Fixpoint sets (n : nat) (r : regex) : bool :=
  match r with
  | Cat r1 r2 => sets n r1 || sets n r2
  | Alt r1 r2 => sets n r1 && sets n r2
  | Grp m r1 => Nat.eqb m n || sets n r1
  | _ => false
  end.

(** No match of [rx] starts inside [pre] when [pre ++ rest] is searched. *)
Definition no_match_before (rx : regex) (pre rest : string) : Prop :=
  forall p q, pre = p ++ q -> q <> "" ->
    at_pos rx (bool_decide (p = "")) p (q ++ rest) = None.

(** The same, computed: [bos] tells whether [pre] starts the subject. *)
Fixpoint no_match_check (rx : regex) (bos : bool) (pre rest : string) : bool :=
  match pre with
  | EmptyString => true
  | String _ pre' =>
      match at_pos rx bos "" (pre ++ rest) with
      | None => no_match_check rx false pre' rest
      | Some _ => false
      end
  end.
End Re.

(** ** The record model ([Dependency]) *)

Record Dependency := mkDependency {
  name : string;
  version : option string;
  source : string;
  file_path : string
}.

(** [__post_init__] of [generate_sbom.py]: a truthy version is stripped. *)
Definition post_init (d : Dependency) : Dependency :=
  if Py.truthy_opt (version d)
  then mkDependency (name d) (Py.strip <$> version d) (source d) (file_path d)
  else d.

(** [__eq__]: the [(name, version)] tuples are compared. *)
Definition dep_eq (self other : Dependency) : bool :=
  bool_decide ((name self, version self) = (name other, version other)).

Section DependencySet.
(** Python's [hash] on a [(str, Optional[str])] tuple. *)
Variable hash : string * option string -> Z.

(** [__hash__] *)
Definition dep_hash (self : Dependency) : Z := hash (name self, version self).

(** A [set] of dependencies: its elements, oldest first. [s.add(d)] looks
    for an element with the hash of [d] that is [__eq__] to it and leaves
    the set alone when there is one. *)
Definition set_mem (d : Dependency) (s : list Dependency) : bool :=
  existsb (fun e => (dep_hash e =? dep_hash d) && dep_eq e d) s.

Definition set_add (d : Dependency) (s : list Dependency) : list Dependency :=
  if set_mem d s then s else (s ++ [d])%list.

(** The set after a sequence of [add] calls. *)
Definition set_adds (ds : list Dependency) (s : list Dependency) : list Dependency :=
  foldl (fun acc d => set_add d acc) s ds.
End DependencySet.

(** The identity invariant: no two positions hold the same name and version. *)
Definition identity_invariant (s : list Dependency) : Prop :=
  forall i j d1 d2,
    s !! i = Some d1 -> s !! j = Some d2 ->
    name d1 = name d2 -> version d1 = version d2 -> i = j.

(** ** The reconciliation engine: [find_missing_packages]
    ([backend/Athena/sbomGenerator.py]) *)

Definition name_mappings : gmap string string :=
  {[ "nlohmann_json" := "jsonmcpp" ]}.

(** [{k.lower(): v for k, v in lcg_packages.items()}]. When two keys have
    the same lower-case form the surviving value depends on the insertion
    order of the dictionary; the function reads the keys only. *)
Definition lower_keys (lcg_packages : gmap string string) : gmap string string :=
  list_to_map ((fun kv => (Py.lower kv.1, kv.2)) <$> map_to_list lcg_packages).

(** [k in d] *)
Definition dict_has {V} (k : string) (d : gmap string V) : bool :=
  bool_decide (is_Some (d !! k)).

(** One turn of the [for pkg in build_packages] loop. *)
Definition missing_step (lcg_packages lcg_packages_lower : gmap string string)
    (missing : list string) (pkg : string) : list string :=
  if dict_has pkg lcg_packages then missing
  else if dict_has (Py.lower pkg) lcg_packages_lower then missing
  else
    let via_mapping :=
      match name_mappings !! pkg with
      | Some mapped_name =>
          dict_has mapped_name lcg_packages
          || dict_has (Py.lower mapped_name) lcg_packages_lower
      | None => false
      end in
    if via_mapping then missing else (missing ++ [pkg])%list.

Definition find_missing_packages (build_packages : list string)
    (lcg_packages : gmap string string) : list string :=
  let lcg_packages_lower := lower_keys lcg_packages in
  foldl (missing_step lcg_packages lcg_packages_lower) [] build_packages.

(** The test that one turn of the loop makes, as one boolean. *)
Definition matched (lcg : gmap string string) (pkg : string) : bool :=
  dict_has pkg lcg
  || dict_has (Py.lower pkg) (lower_keys lcg)
  || match name_mappings !! pkg with
     | Some mapped_name =>
         dict_has mapped_name lcg || dict_has (Py.lower mapped_name) (lower_keys lcg)
     | None => false
     end.

(** The three matching strategies, as the specification words them. *)
Definition exact_match (pkg : string) (lcg : gmap string string) : Prop :=
  is_Some (lcg !! pkg).
Definition case_insensitive_match (pkg : string) (lcg : gmap string string) : Prop :=
  exists k, is_Some (lcg !! k) /\ Py.lower k = Py.lower pkg.
Definition alias_match (pkg : string) (lcg : gmap string string) : Prop :=
  exists mapped, name_mappings !! pkg = Some mapped /\
    (exact_match mapped lcg \/ case_insensitive_match mapped lcg).

(** ** The manifest document and its signature
    ([get_sbom_signature] of [version_sbom.py] and [app.py]) *)

(** A [{name, value}] property object; a missing key is [None]. *)
Record Property := mkProperty {
  p_name : option string;
  p_value : option string
}.

Record Component := mkComponent {
  c_type : option string;
  c_name : option string;
  c_version : option string;
  c_properties : list Property
}.

Record Metadata := mkMetadata {
  m_timestamp : option string;
  m_tools : list (string * string);
  m_properties : option (list Property)
}.

Record Sbom := mkSbom {
  s_schema : option string;
  s_bomFormat : option string;
  s_specVersion : option string;
  s_serialNumber : option string;
  s_version : option Z;
  s_metadata : option Metadata;
  s_components : option (list Component)
}.

(** [d.get(key, default)] on a field that may be missing. *)
Definition get {A} (field : option A) (default : A) : A :=
  match field with Some x => x | None => default end.

(** Tuples of two strings compare lexicographically. *)
Definition pair_le (a b : string * string) : Prop :=
  (a.1 ≤ b.1)%string /\ (a.1 = b.1 -> (a.2 ≤ b.2)%string).

Definition pair_le_dec (a b : string * string) : Decision (pair_le a b).
Proof. unfold pair_le. apply _. Defined.
#[global] Instance pair_le_decision : RelDecision pair_le := pair_le_dec.

(** [sorted(l)] on a list of such tuples. *)
Definition sorted (l : list (string * string)) : list (string * string) :=
  @merge_sort _ pair_le pair_le_dec l.

(** The dictionary filled by [for prop in properties]. *)
Definition props_dict (properties : list Property) : gmap string string :=
  foldl (fun d prop => <[get (p_name prop) "" := get (p_value prop) ""]> d) ∅ properties.

Definition signature := list (string * list (string * string)).

(** [sbom_data.get('metadata', {}).get('properties', [])] *)
Definition properties_of (sbom_data : Sbom) : list Property :=
  match s_metadata sbom_data with
  | Some metadata => get (m_properties metadata) []
  | None => []
  end.

(** The keys written by the loop over the properties, in order. *)
Definition property_names (properties : list Property) : list string :=
  (fun prop => get (p_name prop) "") <$> properties.

Definition get_sbom_signature (sbom_data : Sbom)
    (build_info : option (gmap string string)) : signature :=
  let components := get (s_components sbom_data) [] in
  let normalized_components :=
    sorted ((fun comp => (get (c_name comp) "", get (c_version comp) "")) <$> components) in
  let properties := properties_of sbom_data in
  let normalized_props := sorted (map_to_list (props_dict properties)) in
  ([("components", normalized_components); ("properties", normalized_props)]
   ++ match build_info with
      | Some info =>
          if bool_decide (info = ∅) then []
          else [("build_info", sorted (map_to_list info))]
      | None => []
      end)%list.

(** The document with another components list, and with another
    [metadata.properties] list. *)
Definition with_components (cs : list Component) (d : Sbom) : Sbom :=
  mkSbom (s_schema d) (s_bomFormat d) (s_specVersion d) (s_serialNumber d)
    (s_version d) (s_metadata d) (Some cs).

Definition with_properties (ps : list Property) (d : Sbom) : Sbom :=
  mkSbom (s_schema d) (s_bomFormat d) (s_specVersion d) (s_serialNumber d)
    (s_version d)
    (Some (match s_metadata d with
           | Some m => mkMetadata (m_timestamp m) (m_tools m) (Some ps)
           | None => mkMetadata None [] (Some ps)
           end))
    (s_components d).

(** Two documents that differ at most in [metadata.timestamp]. *)
Definition same_but_timestamp (d1 d2 : Sbom) : Prop :=
  s_schema d1 = s_schema d2 /\ s_bomFormat d1 = s_bomFormat d2 /\
  s_specVersion d1 = s_specVersion d2 /\ s_serialNumber d1 = s_serialNumber d2 /\
  s_version d1 = s_version d2 /\ s_components d1 = s_components d2 /\
  match s_metadata d1, s_metadata d2 with
  | Some m1, Some m2 => m_tools m1 = m_tools m2 /\ m_properties m1 = m_properties m2
  | None, None => True
  | _, _ => False
  end.

(** ** The version gate: numbering of version directories *)

(** An entry of [Path.iterdir()]: its name and whether it is a directory. *)
Record dirent := Dirent { d_name : string; d_is_dir : bool }.

(** [int(item.name[1:])] for an entry the loops accept, [None] for an
    entry they pass over. *)
Definition version_num (item : dirent) : option Z :=
  if d_is_dir item && Py.startswith "v" (d_name item)
  then Py.int (Py.drop 1 (d_name item))
  else None.

(** The [for item in sboms_path.iterdir()] loop of
    [get_next_version_number]: the numbers appended to [version_dirs]. *)
Fixpoint version_dirs (items : list dirent) : list Z :=
  match items with
  | [] => []
  | item :: rest =>
      match version_num item with
      | Some n => n :: version_dirs rest
      | None => version_dirs rest
      end
  end.

(** [get_next_version_number] ([version_sbom.py], [app.py]); [None] is an
    absent [SBOMs] directory. *)
Definition get_next_version_number (sboms : option (list dirent)) : Z :=
  match sboms with
  | None => 1
  | Some items =>
      match version_dirs items with
      | [] => 1
      | n :: ns => Py.max_list n ns + 1
      end
  end.

(** What the specification calls the parsed numeric suffixes. *)
Definition numeric_suffix (items : list dirent) (n : Z) : Prop :=
  exists item s,
    item ∈ items /\ d_is_dir item = true /\
    d_name item = String "v" s /\ Py.int s = Some n.

(** ** Source parsers *)

(** Patterns that several of the generators share. *)
Module Pat.
Import Re.

Definition ident : ascii -> bool := or alnum (one_of "_").        (* [A-Za-z0-9_] *)
Definition ident_dash : ascii -> bool := or alnum (one_of "_-").  (* [A-Za-z0-9_\-] *)
Definition dotnum : ascii -> bool := or digit (one_of ".").       (* [0-9.] *)
Definition vchars : ascii -> bool := or alnum (one_of "._-").     (* [0-9A-Za-z\._\-] *)

(** [^(<id>+)\s*:\s*(.* )$] for a class [id] of name characters (in
    these comments a blank keeps a star apart from a closing
    parenthesis, and Q stands for the double quote). *)
Definition colon_line (id : ascii -> bool) : regex :=
  seq [Bol; Grp 1 (plus (Chr id)); star (Chr space); lit ":"; star (Chr space);
       Grp 2 (star (Chr any)); Eol].

(** [<prefix>([0-9.]+)<suffix>] *)
Definition versioned (prefix suffix : string) : regex :=
  seq [str prefix; Grp 1 (plus (Chr dotnum)); str suffix].

(** [The C compiler identification is (.+)] and its like. *)
Definition labelled (label : string) : regex :=
  seq [str label; Grp 1 (plus (Chr any))].

(** [LCG release QLCG_([^Q]+)Q for platform: (.+)] *)
Definition lcg_release : regex :=
  seq [str "LCG release "; lit Py.dq; str "LCG_";
       Grp 1 (plus (Chr (none_of (String Py.dq ""))));
       lit Py.dq; str " for platform: "; Grp 2 (plus (Chr any))].

(** [--\s+\+\s+External/(.+)] *)
Definition external_pkg : regex :=
  seq [str "--"; plus (Chr space); lit "+"; plus (Chr space); str "External/";
       Grp 1 (plus (Chr any))].

(** [\|\s*<label>\s*\|\s*(.+?)\s*\|], a row of the build-information
    table of the narrative report. *)
Definition table_row (label : string) : regex :=
  seq [lit "|"; star (Chr space); str label; star (Chr space); lit "|"; star (Chr space);
       Grp 1 (plus_lazy (Chr any)); star (Chr space); lit "|"].

(** The four generic tar-ball patterns, in the order they are tried. *)
Definition generic_patterns : list regex :=
  [ (* /sources/[^/]+-([0-9A-Za-z\._\-]+)\.tar\.gz *)
    seq [str "/sources/"; plus (Chr (none_of "/")); lit "-";
         Grp 1 (plus (Chr vchars)); str ".tar.gz"];
    (* [-_/]v?([0-9]+\.[0-9]+\.[0-9A-Za-z\._\-]+)\.tar\.gz *)
    seq [Chr (one_of "-_/"); opt (lit "v");
         Grp 1 (seq [plus (Chr digit); lit "."; plus (Chr digit); lit "."; plus (Chr vchars)]);
         str ".tar.gz"];
    (* [-_/]v?([0-9]+\.[0-9A-Za-z\._\-]+)\.tar\.gz *)
    seq [Chr (one_of "-_/"); opt (lit "v");
         Grp 1 (seq [plus (Chr digit); lit "."; plus (Chr vchars)]);
         str ".tar.gz"];
    (* ([0-9]{6,})\.tar\.gz *)
    seq [Grp 1 (Cat (times 6 (Chr digit)) (star (Chr digit))); str ".tar.gz"] ].
End Pat.

(** The first pattern of [rxs] that is found in [content], with its
    first group: the [for rx in ...: m = re.search(rx, content)] loops. *)
Fixpoint first_found (rxs : list regex) (content : string) : option (option string) :=
  match rxs with
  | [] => None
  | rx :: rest =>
      match Re.search rx content with
      | Some m => Some (Re.group 1 m)
      | None => first_found rest content
      end
  end.

(** [version_raw.split()[0] if version_raw else "undefined"] *)
Definition first_token_or_undefined (version_raw : string) : result string :=
  if Py.truthy version_raw then Py.first (Py.split_ws version_raw) else Ok "undefined".

(** *** [src/sbomGenerator.py] (StatAnalysis) *)
Module StatAnalysis.
Section Generator.
Variable hash : string * option string -> Z.

(** One turn of the loop of [parse_py_deps]. *)
Definition py_line (line : string) (dependencies : list Dependency)
    : result (list Dependency) :=
  let line := Py.strip line in
  if negb (Py.truthy line) then Ok dependencies
  else if Py.contains "==" line then
    nv ← Py.unpack_split_once "==" line;
    Ok (set_add hash (mkDependency (Py.strip nv.1) (Some (Py.strip nv.2)) "pyDep.txt" "")
          dependencies)
  else Ok (set_add hash (mkDependency (Py.strip line) None "pyDep.txt" "") dependencies).

Definition parse_py_deps (py_file : option string) (dependencies : list Dependency)
    : result (list Dependency) :=
  match py_file with
  | None => Ok dependencies
  | Some raw => do_steps (py_line <$> Py.readlines raw) dependencies
  end.

(** One turn of the loop of [parse_cpp_deps]. *)
Definition cpp_line (line : string) (dependencies : list Dependency)
    : result (list Dependency) :=
  let line := Py.strip line in
  match Re.match_ (Pat.colon_line Pat.ident) line with
  | None => Ok dependencies
  | Some m =>
      name ← Py.not_none (Re.group 1 m);
      version_raw ← Py.not_none (Re.group 2 m);
      let version_raw := Py.strip version_raw in
      version ← first_token_or_undefined version_raw;
      Ok (set_add hash (mkDependency name (Some version) "cppDep.txt" "") dependencies)
  end.

Definition parse_cpp_deps (cpp_file : option string) (dependencies : list Dependency)
    : result (list Dependency) :=
  match cpp_file with
  | None => Ok dependencies
  | Some raw => do_steps (cpp_line <$> Py.readlines raw) dependencies
  end.
End Generator.
End StatAnalysis.

(** *** [src/generate_sbom.py] *)
Module GenerateSbom.
Import Re.

(** [^([A-Za-z0-9_-]+)(?:\[[^\]]*\])?([=~<>!]+)(.+)$] *)
Definition package_pattern : regex :=
  seq [Bol; Grp 1 (plus (Chr Pat.ident_dash));
       opt (seq [lit "["; star (Chr (none_of "]")); lit "]"]);
       Grp 2 (plus (Chr (one_of "=~<>!"))); Grp 3 (plus (Chr any)); Eol].

(** [\s*#.*$] *)
Definition trailing_comment : regex :=
  seq [star (Chr space); lit "#"; star (Chr any); Eol].

Section Generator.
Variable hash : string * option string -> Z.

(** One turn of the loop of [parse_requirements_file]; [rel] is the
    path of the file relative to the root directory. *)
Definition requirement_line (rel : string) (line : string)
    (dependencies : list Dependency) : result (list Dependency) :=
  let line := Py.strip line in
  if negb (Py.truthy line) || Py.startswith "#" line then Ok dependencies
  else
    match Re.match_ package_pattern line with
    | Some m =>
        package_name ← Py.not_none (group 1 m);
        operator ← Py.not_none (group 2 m);
        g3 ← Py.not_none (group 3 m);
        let version_spec := Py.strip g3 in
        let version_spec :=
          if Py.truthy version_spec
          then Py.strip (Re.delete trailing_comment version_spec)
          else version_spec in
        let dep :=
          post_init (mkDependency package_name
                       (if Py.truthy version_spec then Some (operator ++ version_spec)
                        else None)
                       "requirements.txt" rel) in
        Ok (set_add hash dep dependencies)
    | None =>
        piece ← Py.first (Py.split_char "#" line);
        let package_name := Py.strip piece in
        if Py.truthy package_name
        then Ok (set_add hash
                   (post_init (mkDependency package_name None "requirements.txt" rel))
                   dependencies)
        else Ok dependencies
    end.

(** The whole body sits in [try: ... except Exception]. *)
Definition parse_requirements_file (rel : string) (file : option string)
    (dependencies : list Dependency) : list Dependency :=
  match file with
  | None => dependencies
  | Some raw =>
      try_steps (requirement_line rel <$> Py.split_char Py.nl (Py.read raw)) dependencies
  end.
End Generator.
End GenerateSbom.

(** *** [src/AnalysisBase/sbomGenerator.py] *)
Module AnalysisBase.
Import Re.

(** [/sources/boost_([0-9_]+)\.tar\.gz;] *)
Definition boost_pattern : regex :=
  seq [str "/sources/boost_"; Grp 1 (plus (Chr (or digit (one_of "_")))); str ".tar.gz;"].

(** The [deps] table of [parse_cmakelists]: directory, prefix, pattern. *)
Definition deps : list (string * string * regex) :=
  [ ("Boost", "boost_", boost_pattern);
    ("Eigen", "eigen-", Pat.versioned "/sources/eigen-" ".tar.gz;");
    ("Root", "root_v", Pat.versioned "/ROOT/root_v" ".source.tar.gz;");
    ("XRootD", "xrootd-", Pat.versioned "/sources/xrootd-" ".tar.gz;");
    ("dcap", "dcap-", Pat.versioned "/sources/dcap-" "-");
    ("Davix", "davix-", Pat.versioned "/sources/davix-" ".tar.gz;");
    ("TBB", "oneTBB-", Pat.versioned "/sources/oneTBB-" ".tar.gz;");
    ("nlohmann_json", "json-", Pat.versioned "/sources/json-" ".tar.gz;") ].

(** The [for line in f] loop over one [CMakeLists.txt]: the line written
    to [cppDep.txt] for the first line the pattern is found in. *)
Fixpoint scan_lines (dep : string) (rx : regex) (lines : list string)
    : result (list string) :=
  match lines with
  | [] => Ok []
  | line :: rest =>
      match Re.search rx line with
      | Some m =>
          let version := group 1 m in
          version ←
            (if bool_decide (dep = "Boost")
             then v ← Py.not_none version; Ok (Some (Py.replace_char "_" "." v))
             else Ok version);
          Ok [dep ++ ": " ++ Py.str_opt version ++ String Py.nl ""]
      | None => scan_lines dep rx rest
      end
  end.

(** [parse_cmakelists]: [cmake dep] is the text of [<cwd>/<dep>/CMakeLists.txt]
    when that is a file; the result is what is appended to [cppDep.txt]. *)
Fixpoint parse_cmakelists_go (cmake : string -> option string)
    (table : list (string * string * regex)) : result (list string) :=
  match table with
  | [] => Ok []
  | (dep, prefix, rx) :: rest =>
      match cmake dep with
      | None => parse_cmakelists_go cmake rest
      | Some raw =>
          written ← scan_lines dep rx (Py.readlines raw);
          more ← parse_cmakelists_go cmake rest;
          Ok (written ++ more)%list
      end
  end.
Definition parse_cmakelists (cmake : string -> option string) : result (list string) :=
  parse_cmakelists_go cmake deps.

Section Generator.
Variable hash : string * option string -> Z.

(** One turn of the loop of [parse_py_deps]. *)
Definition py_line (line : string) (dependencies : list Dependency)
    : result (list Dependency) :=
  let line := Py.strip line in
  match Re.match_ (Pat.colon_line Pat.ident) line with
  | None => Ok dependencies
  | Some m =>
      name ← Py.not_none (group 1 m);
      version_raw ← Py.not_none (group 2 m);
      version ← first_token_or_undefined version_raw;
      Ok (set_add hash (mkDependency name (Some version) "pyDep.txt" "") dependencies)
  end.

Definition parse_py_deps (py_file : option string) (dependencies : list Dependency)
    : result (list Dependency) :=
  match py_file with
  | None => Ok dependencies
  | Some raw => do_steps (py_line <$> Py.readlines raw) dependencies
  end.

(** One turn of the loop of [parse_cpp_deps]. *)
Definition cpp_line (line : string) (dependencies : list Dependency)
    : result (list Dependency) :=
  let line := Py.strip line in
  match Re.match_ (Pat.colon_line Pat.ident) line with
  | None => Ok dependencies
  | Some m =>
      name ← Py.not_none (group 1 m);
      version_raw ← Py.not_none (group 2 m);
      let version_raw := Py.strip version_raw in
      version ← first_token_or_undefined version_raw;
      Ok (set_add hash (mkDependency name (Some version) "cppDep.txt" "") dependencies)
  end.

Definition parse_cpp_deps (cpp_file : option string) (dependencies : list Dependency)
    : result (list Dependency) :=
  match cpp_file with
  | None => Ok dependencies
  | Some raw => do_steps (cpp_line <$> Py.readlines raw) dependencies
  end.
End Generator.
End AnalysisBase.

(** *** [src/backend/AnalysisBase/sbomGenerator.py] *)
Module BackendAnalysisBase.
Import Re.

(** [boost_([0-9_]+)\.tar\.gz] *)
Definition boost_pattern : regex :=
  seq [str "boost_"; Grp 1 (plus (Chr (or digit (one_of "_")))); str ".tar.gz"].

(** The [patterns] table of [parse_cmakelists]. *)
Definition patterns : gmap string (list regex) :=
  list_to_map
  [ ("HDF5", [ (* ATLAS_HDF5_VERSION\s*Q([^Q]+)Q *)
               seq [str "ATLAS_HDF5_VERSION"; star (Chr space); lit Py.dq;
                    Grp 1 (plus (Chr (none_of (String Py.dq "")))); lit Py.dq];
               (* HDF5[-_]?([0-9.]+)\.tar\.gz *)
               seq [str "HDF5"; opt (Chr (one_of "-_")); Grp 1 (plus (Chr Pat.dotnum));
                    str ".tar.gz"] ]);
    ("BAT", [ (* BAT[-_/]?([0-9]+(?:\.[0-9]+){1,})\.tar\.gz *)
              seq [str "BAT"; opt (Chr (one_of "-_/"));
                   Grp 1 (Cat (plus (Chr digit)) (plus (Cat (lit ".") (plus (Chr digit)))));
                   str ".tar.gz"];
              (* /v[0-9]+/BAT-([0-9.]+)\.tar\.gz *)
              seq [str "/v"; plus (Chr digit); str "/BAT-"; Grp 1 (plus (Chr Pat.dotnum));
                   str ".tar.gz"] ]);
    ("Blas", [Pat.versioned "OpenBLAS-" ".tar.gz"]);
    ("Boost", [boost_pattern]);
    ("Davix", [Pat.versioned "davix-" ".tar.gz"]);
    ("dcap", [Pat.versioned "dcap-" "-"; Pat.versioned "dcap-" ".tar"]);
    ("Eigen", [Pat.versioned "eigen-" ".tar.gz"]);
    ("lwtnn", [ (* lwtnn[/\\]v?([0-9.]+)\.tar\.gz *)
                seq [str "lwtnn"; Chr (one_of "/\"); opt (lit "v");
                     Grp 1 (plus (Chr Pat.dotnum)); str ".tar.gz"];
                (* externals/lwtnn/v?([0-9.]+)\.tar\.gz *)
                seq [str "externals/lwtnn/"; opt (lit "v");
                     Grp 1 (plus (Chr Pat.dotnum)); str ".tar.gz"];
                Pat.versioned "v" ".tar.gz" ]);
    ("FastJet", [Pat.versioned "fastjet-" ".tar.gz"]);
    ("FastJetContrib", [Pat.versioned "fjcontrib-" ".tar.gz";
                        Pat.versioned "fastjetcontrib-" ".tar.gz"]);
    ("GoogleTest", [Pat.versioned "googletest-" ".tar.gz"]);
    ("KLFitter", [ (* KLFitter[/\\]v?([0-9.]+)\.tar\.gz *)
                   seq [str "KLFitter"; Chr (one_of "/\"); opt (lit "v");
                        Grp 1 (plus (Chr Pat.dotnum)); str ".tar.gz"];
                   Pat.versioned "KLFitter-" ".tar.gz" ]);
    ("Lhapdf", [Pat.versioned "LHAPDF-" ".tar.gz"]);
    ("LibXml2", [Pat.versioned "libxml2-" ".tar.gz"]);
    ("onnxruntime", [ (* onnxruntime[-\w]*-([0-9.]+)\.(?:tgz|tar\.gz) *)
                      seq [str "onnxruntime"; star (Chr (or word (one_of "-"))); lit "-";
                           Grp 1 (plus (Chr Pat.dotnum)); lit ".";
                           Alt (str "tgz") (str "tar.gz")] ]);
    ("nlohmann_json", [Pat.versioned "json-" ".tar.gz"]);
    ("Python", [ Pat.versioned "libffi-" ".tar.gz";
                 (* Python\s+([0-9.]+) *)
                 seq [str "Python"; plus (Chr space); Grp 1 (plus (Chr Pat.dotnum))] ]);
    ("ROOT", [ Pat.versioned "root_v" ".source.tar.gz";
               (* ROOT[/\\]root_v([0-9.]+)\.source\.tar\.gz *)
               seq [str "ROOT"; Chr (one_of "/\"); str "root_v";
                    Grp 1 (plus (Chr Pat.dotnum)); str ".source.tar.gz"] ]);
    ("SQLite", [ (* sqlite-autoconf-([0-9]+)\.tar\.gz *)
                 seq [str "sqlite-autoconf-"; Grp 1 (plus (Chr digit)); str ".tar.gz"] ]);
    ("TBB", [Pat.versioned "oneTBB-" ".tar.gz"]);
    ("XRootD", [Pat.versioned "xrootd-" ".tar.gz"]) ].

(** The key under which [dep] is looked up in [patterns]. *)
Definition dep_key_of (dep : string) : string :=
  if bool_decide (Py.lower dep = "root") then "ROOT"
  else if bool_decide (Py.lower dep = "nlohmann_json")
          || bool_decide (Py.lower dep = "nlohmann-json") then "nlohmann_json"
  else if bool_decide (Py.lower dep = "blas") then "Blas"
  else dep.

(** The generic per-package part of the loop of [parse_cmakelists], for
    a package other than PyModules and PyAnalysis whose manifest has
    text [content]: the entry to record, if a version was found. *)
Definition package_entry (dep : string) (content : string) : result (option string) :=
  let dep_key := dep_key_of dep in
  let regex_list := default [] (patterns !! dep_key) in
  let found_version : option string :=
    if Py.truthy content
    then match first_found regex_list content with Some v => v | None => None end
    else None in
  let found_version :=
    if negb (Py.truthy_opt found_version) && Py.truthy content
    then match first_found Pat.generic_patterns content with
         | Some v => v
         | None => found_version
         end
    else found_version in
  if Py.truthy_opt found_version then
    v ← Py.not_none found_version;
    let v := if bool_decide (dep_key = "Boost") then Py.replace_char "_" "." v else v in
    Ok (Some (dep ++ ": " ++ v))
  else Ok None.

(** [if entry not in existing_entries: outf.write(entry + NL); ...]: the
    text written and the entries known afterwards. *)
Definition record_entry (entry : string) (existing_entries : gset string)
    : list string * gset string :=
  if bool_decide (entry ∈ existing_entries) then ([], existing_entries)
  else ([entry ++ String Py.nl ""], {[entry]} ∪ existing_entries).

Section Generator.
Variable hash : string * option string -> Z.
(** [str(self.py_file)] and [str(self.cpp_file)] *)
Variables py_path cpp_path : string.

(** One turn of the loops of [parse_py_deps] and [parse_cpp_deps]. *)
Definition py_line (line : string) (dependencies : list Dependency)
    : result (list Dependency) :=
  let line := Py.strip line in
  if negb (Py.truthy line) then Ok dependencies
  else
    match Re.match_ (Pat.colon_line Pat.ident_dash) line with
    | None => Ok dependencies
    | Some m =>
        name ← Py.not_none (group 1 m);
        version_raw ← Py.not_none (group 2 m);
        version ← first_token_or_undefined version_raw;
        Ok (set_add hash (mkDependency name (Some version) py_path "") dependencies)
    end.

Definition parse_py_deps (py_file : option string) (dependencies : list Dependency)
    : result (list Dependency) :=
  match py_file with
  | None => Ok dependencies
  | Some raw => do_steps (py_line <$> Py.readlines raw) dependencies
  end.

Definition cpp_line (line : string) (dependencies : list Dependency)
    : result (list Dependency) :=
  let line := Py.strip line in
  if negb (Py.truthy line) then Ok dependencies
  else
    match Re.match_ (Pat.colon_line Pat.ident_dash) line with
    | None => Ok dependencies
    | Some m =>
        name ← Py.not_none (group 1 m);
        version_raw ← Py.not_none (group 2 m);
        let version_raw := Py.strip version_raw in
        version ← first_token_or_undefined version_raw;
        Ok (set_add hash (mkDependency name (Some version) cpp_path "") dependencies)
    end.

Definition parse_cpp_deps (cpp_file : option string) (dependencies : list Dependency)
    : result (list Dependency) :=
  match cpp_file with
  | None => Ok dependencies
  | Some raw => do_steps (cpp_line <$> Py.readlines raw) dependencies
  end.
End Generator.

(** The steps inside the [try] of [parse_build_info]. Group 1 is part of
    every match of these patterns, so [not_none] never raises here. *)
Definition build_info_steps (lines : list string)
    : list (gmap string string -> result (gmap string string)) :=
  [ (fun info =>
       if (0 <? length lines)%nat then
         c_line ← Py.index lines 0;
         match Re.search (Pat.labelled "The C compiler identification is ") (Py.strip c_line) with
         | Some m => v ← Py.not_none (group 1 m); Ok (<["C Compiler" := v]> info)
         | None => Ok info
         end
       else Ok info);
    (fun info =>
       if (1 <? length lines)%nat then
         cxx_line ← Py.index lines 1;
         match Re.search (Pat.labelled "The CXX compiler identification is ") (Py.strip cxx_line) with
         | Some m => v ← Py.not_none (group 1 m); Ok (<["CXX Compiler" := v]> info)
         | None => Ok info
         end
       else Ok info);
    (fun info =>
       if (24 <? length lines)%nat then
         platform_line ← Py.index lines 24;
         match Re.search (Pat.labelled "Using platform name: ") (Py.strip platform_line) with
         | Some m => v ← Py.not_none (group 1 m); Ok (<["Platform" := v]> info)
         | None => Ok info
         end
       else Ok info) ].

Definition parse_build_info (build_txt : option string) : gmap string string :=
  match build_txt with
  | None => ∅
  | Some raw => try_steps (build_info_steps (Py.readlines raw)) ∅
  end.
End BackendAnalysisBase.

(** *** [src/backend/Athena/sbomGenerator.py] *)
Module Athena.
Import Re.

(** The dictionary [result] of [parse_build_info]: its six keys are
    always present. *)
Record BuildInfo := mkBuildInfo {
  lcg_version : option string;
  platform : option string;
  packages : list string;
  C_Compiler : option string;
  CXX_Compiler : option string;
  Platform : option string
}.

Definition empty_info : BuildInfo := mkBuildInfo None None [] None None None.

(** [for line in lines: ... if m: ...; break]: the first line, stripped,
    in which [rx] is found. *)
Fixpoint first_line_match (rx : regex) (lines : list string) : option mobj :=
  match lines with
  | [] => None
  | line :: rest =>
      match Re.search rx (Py.strip line) with
      | Some m => Some m
      | None => first_line_match rx rest
      end
  end.

(** The loop over the package filtering rules; [pkgs] is
    [result['packages']]. *)
Fixpoint package_rules (lines : list string) (in_package_section : bool)
    (pkgs : list string) : result (list string) :=
  match lines with
  | [] => Ok pkgs
  | line :: rest =>
      let line := Py.strip line in
      if Py.contains "Package filtering rules read:" line
      then package_rules rest true pkgs
      else if in_package_section then
        if Py.startswith "-- Configuring" line
           || (bool_decide (line = "") && bool_decide (pkgs ≠ []))
        then Ok pkgs
        else
          match Re.search Pat.external_pkg line with
          | Some m =>
              g ← Py.not_none (group 1 m);
              package_rules rest in_package_section (pkgs ++ [Py.strip g])%list
          | None =>
              if Py.startswith "--   -" line then Ok pkgs
              else package_rules rest in_package_section pkgs
          end
      else package_rules rest in_package_section pkgs
  end.

(** The steps inside the [try] of [parse_build_info]. *)
Definition build_info_steps (lines : list string) : list (BuildInfo -> result BuildInfo) :=
  [ (fun r =>
       if (0 <? length lines)%nat then
         c_line ← Py.index lines 0;
         match Re.search (Pat.labelled "The C compiler identification is ") (Py.strip c_line) with
         | Some m =>
             Ok (mkBuildInfo (lcg_version r) (platform r) (packages r)
                   (group 1 m) (CXX_Compiler r) (Platform r))
         | None => Ok r
         end
       else Ok r);
    (fun r =>
       if (1 <? length lines)%nat then
         cxx_line ← Py.index lines 1;
         match Re.search (Pat.labelled "The CXX compiler identification is ") (Py.strip cxx_line) with
         | Some m =>
             Ok (mkBuildInfo (lcg_version r) (platform r) (packages r)
                   (C_Compiler r) (group 1 m) (Platform r))
         | None => Ok r
         end
       else Ok r);
    (fun r =>
       match first_line_match Pat.lcg_release lines with
       | Some m =>
           Ok (mkBuildInfo (group 1 m) (group 2 m) (packages r)
                 (C_Compiler r) (CXX_Compiler r) (Platform r))
       | None => Ok r
       end);
    (fun r =>
       match first_line_match (Pat.labelled "Using platform name: ") lines with
       | Some m =>
           Ok (mkBuildInfo (lcg_version r) (platform r) (packages r)
                 (C_Compiler r) (CXX_Compiler r) (group 1 m))
       | None => Ok r
       end);
    (fun r =>
       pkgs ← package_rules lines false (packages r);
       Ok (mkBuildInfo (lcg_version r) (platform r) pkgs
             (C_Compiler r) (CXX_Compiler r) (Platform r))) ].

Definition parse_build_info (build_txt : option string) : BuildInfo :=
  match build_txt with
  | None => empty_info
  | Some raw => try_steps (build_info_steps (Py.readlines raw)) empty_info
  end.

(** [sorted(self.dependencies, key=lambda x: x.name.lower())]; the order
    among equal keys is that of the iteration over the set. *)
Definition by_lower_name (a b : Dependency) : Prop :=
  (Py.lower (name a) ≤ Py.lower (name b))%string.
Definition by_lower_name_dec (a b : Dependency) : Decision (by_lower_name a b).
Proof. unfold by_lower_name. apply _. Defined.
Definition sorted_deps (deps : list Dependency) : list Dependency :=
  @merge_sort _ by_lower_name by_lower_name_dec deps.

(** [generate_markdown_report]; [now] is the formatted current time. *)
Definition generate_markdown_report (athena_version : string)
    (build_info : option BuildInfo) (dependencies : list Dependency) (now : string)
    : string :=
  let nls := String Py.nl "" in
  let md :=
    ([ "# Athena SBOM Report" +:+ nls;
       "**Generated on:** " +:+ now;
       "**Total dependencies:** " +:+ Py.str_nat (length dependencies) +:+ nls ]
     ++ match build_info with
        | Some info =>
            [ "## Build Information" +:+ nls;
              "| Component | Version/Specification |";
              "|-----------|-----------------------|";
              "| C Compiler | " +:+ Py.str_opt (C_Compiler info) +:+ " |";
              "| CXX Compiler | " +:+ Py.str_opt (CXX_Compiler info) +:+ " |";
              "| Platform | " +:+ Py.str_opt (Platform info) +:+ " |";
              "| LCG Version | " +:+ Py.str_opt (lcg_version info) +:+ " |";
              "" ]
        | None => []
        end
     ++ [ "## Source Versions" +:+ nls;
          "| Source | Version |";
          "|--------|---------|";
          "| Athena | " +:+ athena_version +:+ " |" +:+ nls ]
     ++ match dependencies with
        | [] => []
        | _ =>
            [ "## All Dependencies" +:+ nls;
              "| Package | Version |";
              "|---------|---------|" ]
            ++ ((fun dep =>
                   "| " +:+ name dep +:+ " | "
                   +:+ (if Py.truthy_opt (version dep) then Py.str_opt (version dep)
                       else "undefined") +:+ " |") <$> sorted_deps dependencies)
            ++ [ "" ]
        end)%list in
  Py.join nls md.

Section Generator.
Variable hash : string * option string -> Z.
(** [str(self.cpp_file)] *)
Variable cpp_path : string.

(** One turn of the loop of [parse_cpp_deps]. *)
Definition cpp_line (line : string) (dependencies : list Dependency)
    : result (list Dependency) :=
  let line := Py.strip line in
  if negb (Py.truthy line) then Ok dependencies
  else
    match Re.match_ (Pat.colon_line Pat.ident_dash) line with
    | None => Ok dependencies
    | Some m =>
        name ← Py.not_none (group 1 m);
        version_raw ← Py.not_none (group 2 m);
        version ← first_token_or_undefined version_raw;
        Ok (set_add hash (mkDependency name (Some version) cpp_path "") dependencies)
    end.

Definition parse_cpp_deps (cpp_file : option string) (dependencies : list Dependency)
    : result (list Dependency) :=
  match cpp_file with
  | None => Ok dependencies
  | Some raw => do_steps (cpp_line <$> Py.readlines raw) dependencies
  end.
End Generator.
End Athena.

(** *** [src/backend/Athena/version_sbom.py] and
        [src/backend/StatAnalysis/version_sbom.py] *)

(** The files of one entry of the [SBOMs] directory. *)
Record vdir := mkVdir { v_json : option Sbom; v_md : option string }.

(** The working directory of a project. *)
Record workdir := mkWorkdir {
  new_json : option Sbom;             (* <project>-sbom.json *)
  new_md : option string;             (* <project>-sbom.md *)
  build_txt : option string;          (* externalBuild.txt *)
  sboms : list (dirent * vdir)        (* SBOMs/, in iteration order *)
}.

Inductive outcome :=
| NoManifest                (* the new manifest is missing: exit status 1 *)
| Duplicate (v : Z)         (* identical to version v: nothing created *)
| Saved (v : Z).            (* a new version directory was filled *)

Module VersionSbom.
Import Re.

(** The steps inside the [try] of [parse_build_info_from_markdown]. *)
Definition markdown_steps (content : string)
    : list (gmap string string -> result (gmap string string)) :=
  (fun lk (build_info : gmap string string) =>
     match Re.search (Pat.table_row lk.1) content with
     | Some m => v ← Py.not_none (group 1 m); Ok (<[lk.2 := Py.strip v]> build_info)
     | None => Ok build_info
     end)
  <$> [ ("C Compiler", "C Compiler"); ("CXX Compiler", "CXX Compiler");
        ("Platform", "Platform"); ("LCG Version", "lcg_version") ].

Definition parse_build_info_from_markdown (md_file : option string)
    : gmap string string :=
  match md_file with
  | None => ∅
  | Some raw => try_steps (markdown_steps (Py.read raw)) ∅
  end.

(** The steps inside the [try] of [parse_build_info_from_file]. *)
Definition file_steps (lines : list string)
    : list (gmap string string -> result (gmap string string)) :=
  (BackendAnalysisBase.build_info_steps lines
   ++ [ (fun info =>
           match Athena.first_line_match Pat.lcg_release lines with
           | Some m =>
               v1 ← Py.not_none (group 1 m);
               v2 ← Py.not_none (group 2 m);
               Ok (<["platform" := v2]> (<["lcg_version" := v1]> info))
           | None => Ok info
           end) ])%list.

Definition parse_build_info_from_file (build_txt : option string)
    : gmap string string :=
  match build_txt with
  | None => ∅
  | Some raw => try_steps (file_steps (Py.readlines raw)) ∅
  end.

(** The scan for the most recent version in [main]: the running maximum
    starts at 0 and an entry replaces it only when its number is larger. *)
Fixpoint most_recent (items : list (dirent * vdir)) (max_version : Z)
    (most_recent_dir : option vdir) : Z * option vdir :=
  match items with
  | [] => (max_version, most_recent_dir)
  | item :: rest =>
      match version_num item.1 with
      | Some n =>
          if max_version <? n
          then most_recent rest n (Some item.2)
          else most_recent rest max_version most_recent_dir
      | None => most_recent rest max_version most_recent_dir
      end
  end.

(** [version_dir.mkdir(exist_ok=True)] followed by the two renames. *)
Fixpoint commit (vname : string) (files : vdir) (items : list (dirent * vdir))
    : result (list (dirent * vdir)) :=
  match items with
  | [] => Ok [(Dirent vname true, files)]
  | item :: rest =>
      if bool_decide (d_name item.1 = vname) then
        if d_is_dir item.1
        then Ok ((item.1,
                  mkVdir (v_json files)
                    (match v_md files with Some md => Some md | None => v_md item.2 end))
                 :: rest)
        else Raise FileExistsError
      else rest' ← commit vname files rest; Ok (item :: rest')
  end.

(** [main], with the two places where the scripts of the two projects
    differ as parameters: the build information of the new manifest and
    the one derived from the report stored with a version. *)
Definition main_with (new_build_info : workdir -> option (gmap string string))
    (recent_build_info : option string -> option (gmap string string))
    (w : workdir) : result (outcome * workdir) :=
  match new_json w with
  | None => Ok (NoManifest, w)
  | Some new_sbom_data =>
      let new_signature := get_sbom_signature new_sbom_data (new_build_info w) in
      let '(max_version, most_recent_dir) := most_recent (sboms w) 0 None in
      let is_duplicate :=
        match most_recent_dir with
        | Some dir =>
            match v_json dir with
            | Some recent_sbom_data =>
                bool_decide
                  (get_sbom_signature recent_sbom_data (recent_build_info (v_md dir))
                   = new_signature)
            | None => false
            end
        | None => false
        end in
      if is_duplicate
      then Ok (Duplicate max_version, mkWorkdir None None (build_txt w) (sboms w))
      else
        let next_version := max_version + 1 in
        items ← commit ("v" ++ Py.str_int next_version)
                  (mkVdir (Some new_sbom_data) (new_md w)) (sboms w);
        Ok (Saved next_version, mkWorkdir None None (build_txt w) items)
  end.

(** [main] of [Athena/version_sbom.py] *)
Definition main : workdir -> result (outcome * workdir) :=
  main_with (fun w => Some (parse_build_info_from_file (build_txt w)))
            (fun md => Some (parse_build_info_from_markdown md)).

(** [main] of [StatAnalysis/version_sbom.py] *)
Definition main_stat : workdir -> result (outcome * workdir) :=
  main_with (fun _ => None) (fun _ => None).
End VersionSbom.

(** *** One full generation for Athena

    [generate] of the Athena generator followed by [main] of its
    [version_sbom.py]. The dependency set [deps] that the generator has
    collected and the manifest [doc] the CycloneDX encoder writes for it
    are taken as given; [now] is the time of the run. *)
Definition athena_generate (doc : Sbom) (deps : list Dependency) (now : string)
    (w : workdir) : workdir :=
  let build_info := Athena.parse_build_info (build_txt w) in
  if negb (Py.truthy_opt (Athena.lcg_version build_info))
     || negb (Py.truthy_opt (Athena.platform build_info))
  then w
  else mkWorkdir (Some doc)
         (Some (Athena.generate_markdown_report "24.0" (Some build_info) deps now))
         (build_txt w) (sboms w).

Definition athena_run (doc : Sbom) (deps : list Dependency) (now : string)
    (w : workdir) : result (outcome * workdir) :=
  VersionSbom.main (athena_generate doc deps now w).

(** The version directories of a working directory. *)
Definition version_names (w : workdir) : list string :=
  (fun item => d_name item.1) <$> filter (fun item => d_is_dir item.1 = true) (sboms w).

(** ** Notions used in the statements *)

(** A text without line feed, and a text whose only line feed, if any, is
    its last character. *)
Fixpoint no_nl (s : string) : bool :=
  match s with
  | EmptyString => true
  | String c r => negb (Ascii.eqb c Py.nl) && no_nl r
  end.

Fixpoint nl_last (s : string) : bool :=
  match s with
  | EmptyString => true
  | String c EmptyString => true
  | String c r => negb (Ascii.eqb c Py.nl) && nl_last r
  end.

(** The longest prefix of characters in a class. *)
Fixpoint take_while (p : ascii -> bool) (s : string) : string :=
  match s with
  | EmptyString => EmptyString
  | String c r => if p c then String c (take_while p r) else EmptyString
  end.

(** Every group set in [cs] is set in [cs']. *)
Definition extends (cs cs' : Re.caps) : Prop :=
  forall n, is_Some (Re.lookup n cs) -> is_Some (Re.lookup n cs').

(** What a successful run of a matcher [body] tells: the continuation was
    entered after a prefix of the subject, with the groups set before and
    those that [always] names. *)
Definition sound_body {A} (body : bool -> string -> Re.caps -> @Re.cont A -> option A)
    (always : nat -> bool) : Prop :=
  forall bos s cs k a,
    body bos s cs k = Some a ->
    exists w s' cs',
      s = w ++ s' /\ k w s' cs' = Some a /\ extends cs cs'
      /\ (forall n, always n = true -> is_Some (Re.lookup n cs')).


(** The lines of a text file, from the lines without their line feeds. *)
Definition unlines (ls : list string) : string :=
  Py.join (String Py.nl "") ls ++ String Py.nl "".

(** The name and version of each record. *)
Definition keys (deps : list Dependency) : list (string * option string) :=
  (fun d => (name d, version d)) <$> deps.

(** The pinned-requirement input of the specification, and the records
    the specification expects from it. *)
Definition pinned_input : string :=
  unlines ["numpy==1.26.4"; "requests>=2.0"; "# comment"; ""].

Definition expected_pinned (records : list (string * option string)) : Prop :=
  records ≡ₚ [("numpy", Some "1.26.4"); ("requests", Some ">=2.0")]
  \/ records ≡ₚ [("numpy", Some "1.26.4"); ("requests", None)].

(** The Boost line of the specification. *)
Definition boost_source : string := "/sources/boost_1_82_0.tar.gz;".

(** A build log of Athena: the compilers on its first two lines, the
    platform name on line 25 and the LCG release after it. *)
Definition athena_log : string :=
  unlines
    ([ "-- The C compiler identification is GNU 13.1.0";
       "-- The CXX compiler identification is GNU 13.1.0" ]
     ++ replicate 22 "-- Looking for pthread.h - found"
     ++ [ "-- Using platform name: x86_64-el9-gcc13-opt";
          "-- LCG release " +:+ String Py.dq "LCG_106b_ATLAS_1" +:+ String Py.dq ""
          +:+ " for platform: x86_64-el9-gcc13-opt";
          "-- Package filtering rules read:";
          "--   + External/Acts";
          "--   - .*";
          "-- Configuring done" ])%list.

(** The dependencies collected on that log and the manifest written for
    them. *)
Definition athena_deps : list Dependency :=
  [ mkDependency "zlib" (Some "1.2.13") "LCG Website" "";
    mkDependency "Acts" (Some "32.0.2") "AtlasExternals" "" ].

Definition athena_doc (timestamp : string) : Sbom :=
  mkSbom (Some "http://cyclonedx.org/schema/bom-1.4.schema.json")
    (Some "CycloneDX") (Some "1.4") None (Some 1)
    (Some (mkMetadata (Some timestamp) [] (Some [mkProperty (Some "Athena") (Some "24.0")])))
    (Some [ mkComponent (Some "library") (Some "Acts") (Some "32.0.2") [];
            mkComponent (Some "library") (Some "zlib") (Some "1.2.13") [] ]).

(** ** Further notions and functions *)

(** The [(name, version)] tuples of the components of a document, in
    the order of the document. *)
Definition component_pairs (sbom_data : Sbom) : list (string * string) :=
  (fun comp => (get (c_name comp) "", get (c_version comp) ""))
  <$> get (s_components sbom_data) [].

(** The build information that [if build_info:] lets through: [None] and
    the empty dictionary are both falsy. *)
Definition effective_build_info (build_info : option (gmap string string))
    : option (gmap string string) :=
  match build_info with
  | Some info => if bool_decide (info = ∅) then None else Some info
  | None => None
  end.

(** [matches r bos w s]: the pattern [r] can match the text [w] when the
    rest of the subject after it is [s]; [bos] tells whether [w] starts
    at the beginning of the subject. *)
Inductive matches : regex -> bool -> string -> string -> Prop :=
| matches_eps bos s : matches Eps bos "" s
| matches_chr (p : ascii -> bool) c bos s :
    p c = true -> matches (Chr p) bos (String c "") s
| matches_cat r1 r2 bos w1 w2 s :
    matches r1 bos w1 (w2 ++ s) ->
    matches r2 (bos && negb (Py.truthy w1)) w2 s ->
    matches (Cat r1 r2) bos (w1 ++ w2) s
| matches_alt_l r1 r2 bos w s : matches r1 bos w s -> matches (Alt r1 r2) bos w s
| matches_alt_r r1 r2 bos w s : matches r2 bos w s -> matches (Alt r1 r2) bos w s
| matches_star_stop greedy r bos s : matches (Star greedy r) bos "" s
| matches_star_more greedy r bos w1 w2 s :
    Py.truthy w1 = true ->
    matches r bos w1 (w2 ++ s) ->
    matches (Star greedy r) false w2 s ->
    matches (Star greedy r) bos (w1 ++ w2) s
| matches_grp n r bos w s : matches r bos w s -> matches (Grp n r) bos w s
| matches_bol s : matches Bol true "" s
| matches_eol bos s : s = "" \/ s = String Py.nl "" -> matches Eol bos "" s.

(** Every group in [cs] holds a text that [P] accepts for its number. *)
Definition caps_ok (P : nat -> string -> Prop) (cs : Re.caps) : Prop :=
  forall n w, (n, w) ∈ cs -> P n w.

(** Every group of [r] can only capture texts that [P] accepts. *)
Fixpoint groups_ok (P : nat -> string -> Prop) (r : regex) : Prop :=
  match r with
  | Cat r1 r2 | Alt r1 r2 => groups_ok P r1 /\ groups_ok P r2
  | Star _ r1 => groups_ok P r1
  | Grp n r1 => (forall bos w s, matches r1 bos w s -> P n w) /\ groups_ok P r1
  | _ => True
  end.

(** What a successful run of a matcher [body] for the pattern [r] tells. *)
Definition matching_body {A} (P : nat -> string -> Prop) (r : regex)
    (body : bool -> string -> Re.caps -> @Re.cont A -> option A) : Prop :=
  forall bos s cs k a,
    body bos s cs k = Some a ->
    exists w s' cs',
      s = w ++ s' /\ matches r bos w s' /\ k w s' cs' = Some a
      /\ (caps_ok P cs -> caps_ok P cs').

(** All the characters of a text are in a class. *)
Fixpoint all_chars (p : ascii -> bool) (s : string) : bool :=
  match s with
  | EmptyString => true
  | String c r => p c && all_chars p r
  end.

(** A token: a text that is not empty and holds no whitespace. *)
Definition token (s : string) : Prop :=
  s <> "" /\ all_chars (fun c => negb (Py.isspace c)) s = true.

(** A record as the readers of [pyDep.txt] and [cppDep.txt] make them:
    a name of characters of the class [id], a version that is a token,
    and the source [src]. *)
Definition well_formed (id : ascii -> bool) (src : string) (d : Dependency) : Prop :=
  name d <> "" /\ all_chars id (name d) = true
  /\ (exists v, version d = Some v /\ token v)
  /\ source d = src /\ file_path d = "".

(** Any character but the vertical bar that separates the cells of a
    table of the report. *)
Definition nobar (c : ascii) : bool := negb (Ascii.eqb c "|").

(** The text of a run of table cells, each after its bar. *)
Fixpoint cells_text (cells : list string) : string :=
  match cells with
  | [] => ""
  | a :: rest => "|" ++ a ++ cells_text rest
  end.

(** A value that a row of the build-information table can hold and
    give back: on one line, without a bar, and not blank. *)
Definition clean_value (v : string) : Prop :=
  all_chars (fun c => nobar c && Re.any c && negb (Ascii.eqb c Py.cr)) v = true
  /\ Py.strip v <> "".

(** The value after [label] on line [i] of a build log, if that line
    exists and holds the label. *)
Definition labelled_at (label : string) (lines : list string) (i : nat) : option string :=
  line ← lines !! i;
  m ← Re.search (Pat.labelled label) (Py.strip line);
  Re.group 1 m.

(** Group [n] of the first line of a build log in which [rx] is found. *)
Definition first_line_group (rx : regex) (n : nat) (lines : list string) : option string :=
  m ← Athena.first_line_match rx lines; Re.group n m.

(** [d[key] = v] when a value was found. *)
Definition opt_insert (key : string) (o : option string) (d : gmap string string)
    : gmap string string :=
  match o with Some v => <[key := v]> d | None => d end.

(** *** [extract_python_version_and_update_cppdep]
        ([src/AnalysisBase/sbomGenerator.py] and
        [src/backend/AnalysisBase/sbomGenerator.py]) *)
Module PythonVersion.
Import Re.

(** [Python (\d+\.\d+\.\d+)] *)
Definition pattern : regex :=
  seq [str "Python ";
       Grp 1 (seq [plus (Chr digit); lit "."; plus (Chr digit); lit "."; plus (Chr digit)])].

(** [([Pp]ython)\s*[:\s]*([0-9]+\.[0-9]+(?:\.[0-9]+)?)] *)
Definition backend_pattern : regex :=
  seq [Grp 1 (Cat (Chr (one_of "Pp")) (str "ython"));
       star (Chr space); star (Chr (or (one_of ":") space));
       Grp 2 (seq [plus (Chr digit); lit "."; plus (Chr digit);
                   opt (Cat (lit ".") (plus (Chr digit)))])].

(** The loop over [pyDep.txt]: the group of the first line that passes
    the test [accept] and in which [rx] is found. *)
Fixpoint find_version (accept : string -> bool) (rx : regex) (n : nat)
    (lines : list string) : option string :=
  match lines with
  | [] => None
  | line :: rest =>
      if accept line then
        match search rx line with
        | Some m => group n m
        | None => find_version accept rx n rest
        end
      else find_version accept rx n rest
  end.

(** The loop over [cppDep.txt]. *)
Definition already_present (version : string) (cppdep : option string) : bool :=
  match cppdep with
  | Some raw =>
      existsb (fun line => Py.startswith ("Python: " ++ version) (Py.strip line))
        (Py.readlines raw)
  | None => false
  end.

(** [open(path, "a").write(text)]: the file afterwards. *)
Definition append_text (file : option string) (text : string) : option string :=
  match file with
  | Some raw => Some (raw ++ text)
  | None => Some text
  end.

(** The part after the version was looked for: [cppDep.txt] afterwards. *)
Definition update_cppdep (version : option string) (cppdep : option string)
    : option string :=
  match version with
  | Some v =>
      if Py.truthy v then
        if already_present v cppdep then cppdep
        else append_text cppdep ("Python: " ++ v ++ String Py.nl "")
      else cppdep
  | None => cppdep
  end.

(** The method of [src/AnalysisBase/sbomGenerator.py]. *)
Definition extract_python_version_and_update_cppdep (pydep cppdep : option string)
    : option string :=
  match pydep with
  | None => cppdep
  | Some raw =>
      update_cppdep
        (find_version (Py.startswith "Python 3.") pattern 1 (Py.readlines raw)) cppdep
  end.

(** The method of [src/backend/AnalysisBase/sbomGenerator.py]. *)
Definition backend_extract_python_version_and_update_cppdep
    (pydep cppdep : option string) : option string :=
  match pydep with
  | None => cppdep
  | Some raw =>
      update_cppdep
        (find_version (fun line => Py.startswith "python" (Py.lower line))
           backend_pattern 2 (Py.readlines raw)) cppdep
  end.
End PythonVersion.

(** A text that is empty or ends with a line feed. *)
Fixpoint nl_terminated (s : string) : bool :=
  match s with
  | EmptyString => true
  | String c EmptyString => Ascii.eqb c Py.nl
  | String _ r => nl_terminated r
  end.

(** Every character class of [r] lies within [p]. *)
Fixpoint chars_in (p : ascii -> bool) (r : regex) : Prop :=
  match r with
  | Chr q => forall c, q c = true -> p c = true
  | Cat r1 r2 | Alt r1 r2 => chars_in p r1 /\ chars_in p r2
  | Star _ r1 | Grp _ r1 => chars_in p r1
  | _ => True
  end.

(** *** The report of [src/backend/AnalysisBase/sbomGenerator.py] and
        the duplicate check of [create_sbom] in [src/backend/app.py] *)
Module App.
Import Re.

(** A row of the build-information table, written when the key is in
    the dictionary. *)
Definition info_row (label : string) (build_info : gmap string string) : list string :=
  match build_info !! label with
  | Some v => ["| " +:+ label +:+ " | " +:+ v +:+ " |"]
  | None => []
  end.

(** [generate_markdown_report] of the AnalysisBase generator; [now] is
    the formatted current time. *)
Definition generate_markdown_report (analysisbase_version externals_version : string)
    (build_info : option (gmap string string)) (dependencies : list Dependency)
    (now : string) : string :=
  let nls := String Py.nl "" in
  let md :=
    ([ "# AnalysisBase SBOM Report" +:+ nls;
       "**Generated on:** " +:+ now;
       "**Total dependencies:** " +:+ Py.str_nat (length dependencies) +:+ nls ]
     ++ match build_info with
        | Some info =>
            if bool_decide (info = ∅) then []
            else
              [ "## Build Information" +:+ nls;
                "| Component | Version/Specification |";
                "|-----------|-----------------------|" ]
              ++ info_row "C Compiler" info
              ++ info_row "CXX Compiler" info
              ++ info_row "Platform" info
              ++ [ "" ]
        | None => []
        end
     ++ [ "## Source Versions" +:+ nls;
          "| Source | Version |";
          "|--------|---------|";
          "| AnalysisBase | " +:+ analysisbase_version +:+ " |";
          "| AnalysisBaseExternals | " +:+ externals_version +:+ " |" +:+ nls ]
     ++ match dependencies with
        | [] => []
        | _ =>
            [ "## All Dependencies" +:+ nls;
              "| Package | Version |";
              "|---------|---------|" ]
            ++ ((fun dep =>
                   "| " +:+ name dep +:+ " | "
                   +:+ (if Py.truthy_opt (version dep) then Py.str_opt (version dep)
                       else "undefined") +:+ " |") <$> Athena.sorted_deps dependencies)
            ++ [ "" ]
        end)%list in
  Py.join nls md.

(** The build information [create_sbom] reads back from the report
    stored with the most recent manifest: [None] when there is no
    report, otherwise the dictionary filled inside the [try]. *)
Definition recent_build_info (md_file : option string) : option (gmap string string) :=
  match md_file with
  | None => None
  | Some raw =>
      Some (try_steps
              ((fun label (info : gmap string string) =>
                  match search (Pat.table_row label) (Py.read raw) with
                  | Some m => v ← Py.not_none (group 1 m); Ok (<[label := Py.strip v]> info)
                  | None => Ok info
                  end)
               <$> ["C Compiler"; "CXX Compiler"; "Platform"]) ∅)
  end.

(** The duplicate test of [create_sbom] for AnalysisBase: the new
    manifest with the build information of the log against the most
    recent stored manifest with the build information of its report. *)
Definition is_duplicate (new_sbom_data : Sbom) (build_info : option (gmap string string))
    (most_recent : option vdir) : bool :=
  match most_recent with
  | Some dir =>
      match v_json dir with
      | Some recent_sbom_data =>
          bool_decide (get_sbom_signature recent_sbom_data (recent_build_info (v_md dir))
                       = get_sbom_signature new_sbom_data build_info)
      | None => false
      end
  | None => false
  end.
End App.

(** A record as [parse_requirements_file] makes them: a stripped name
    that is not empty and, when there is a version, a stripped text
    that begins with a comparison operator. *)
Definition requirement_record (rel : string) (d : Dependency) : Prop :=
  name d <> "" /\ Py.strip (name d) = name d
  /\ (version d = None
      \/ exists c r, version d = Some (String c r)
           /\ Re.one_of "=~<>!" c = true /\ Py.strip (String c r) = String c r)
  /\ source d = "requirements.txt" /\ file_path d = rel.

(** *** [parse_python_packages_1]
        ([src/backend/AnalysisBase/sbomGenerator.py]) *)
Module PythonPackages.
Import Re.

(** [^([A-Za-z0-9_\-]+)==([^\s]+)] *)
Definition pinned_pattern : regex :=
  seq [Bol; Grp 1 (plus (Chr Pat.ident_dash)); str "==";
       Grp 2 (plus (Chr (fun c => negb (space c))))].

(** One turn of the loop over a requirement file; both groups take part
    in every match, so [m.groups()] is a pair of strings. *)
Definition pinned_line (line : string) (found : gset (string * string))
    : result (gset (string * string)) :=
  let line := Py.strip line in
  if negb (Py.truthy line) || Py.startswith "#" line then Ok found
  else
    match match_ pinned_pattern line with
    | None => Ok found
    | Some m =>
        pkgname ← Py.not_none (group 1 m);
        pkgver ← Py.not_none (group 2 m);
        Ok ({[ (pkgname, pkgver) ]} ∪ found)
    end.

(** The loop over [req_files]: a file that is absent is passed over,
    and so is the rest of a file on an exception. *)
Definition scan_requirements (req_files : list (option string)) : gset (string * string) :=
  foldl (fun found rf =>
           match rf with
           | None => found
           | Some raw => try_steps (pinned_line <$> Py.readlines raw) found
           end) ∅ req_files.

(** The lines written for [sorted(found)]. *)
Definition written (found : list (string * string)) : string :=
  foldr (fun nv rest => nv.1 ++ ": " ++ nv.2 ++ String Py.nl rest) "" found.

(** [pyDep.txt] after the call, from the two requirement files of the
    working directory. *)
Definition parse_python_packages_1 (requirements_analysisbase requirements : option string)
    (pydep : option string) : option string :=
  let found := scan_requirements [requirements_analysisbase; requirements] in
  if bool_decide (found = ∅) then pydep
  else PythonVersion.append_text pydep (written (sorted (elements found))).
End PythonPackages.

(** The record read from a line of [pyDep.txt]. *)
Definition py_record (py_path : string) (nv : string * string) : Dependency :=
  mkDependency nv.1 (Some nv.2) py_path "".

(** *** [_load_package_filters]
        ([src/backend/AnalysisBase/sbomGenerator.py]) *)
Module PackageFilters.

(** The list returned when no filter file is found or read. *)
Definition fallback : list string :=
  [ "HDF5"; "BAT"; "Blas"; "Boost"; "Davix"; "dcap"; "Eigen"; "lwtnn";
    "FastJet"; "FastJetContrib"; "GoogleTest"; "KLFitter"; "Lhapdf";
    "LibXml2"; "onnxruntime"; "nlohmann_json"; "PyAnalysis"; "PyModules";
    "Python"; "ROOT"; "SQLite"; "TBB"; "XRootD" ].

(** One turn of the loop over the chosen file. *)
Definition filter_line (raw : string) (deps : list string) : result (list string) :=
  let line := Py.strip raw in
  if negb (Py.truthy line) then Ok deps
  else if Py.startswith "+" line && Py.contains "External/" line then
    piece ← match Py.split_once "External/" line with
            | Some pieces => Ok pieces.2
            | None => Raise IndexError
            end;
    let after := Py.strip piece in
    pkg ← Py.first (Py.split_ws after);
    if Py.truthy pkg then Ok (deps ++ [pkg])%list else Ok deps
  else Ok deps.

Section Files.
(** The regular files by path, and the three candidate paths that
    follow [filters_path]: in the working directory, in the project
    directory beside it, and beside the module. *)
Variable isfile : string -> option string.
Variables cwd_filters project_filters module_filters : string.

Definition candidates (filters_path : option string) : list string :=
  ((if Py.truthy_opt filters_path then [Py.str_opt filters_path] else [])
   ++ [cwd_filters; project_filters; module_filters])%list.

(** The first candidate that is a file. *)
Fixpoint chosen (candidates : list string) : option string :=
  match candidates with
  | [] => None
  | c :: rest => match isfile c with Some raw => Some raw | None => chosen rest end
  end.

Definition _load_package_filters (filters_path : option string) : list string :=
  match chosen (candidates filters_path) with
  | None => fallback
  | Some raw =>
      match do_steps (filter_line <$> Py.readlines raw) [] with
      | Ok deps => deps
      | Raise _ => fallback
      end
  end.
End Files.
End PackageFilters.

(** What a line of a filter file contributes: nothing, a package name,
    or the failure of a rule with nothing after its [External/]. *)
Inductive rule := NoRule | Package (pkg : string) | Dangling.

Definition rule_of (raw : string) : rule :=
  let line := Py.strip raw in
  if Py.startswith "+" line && Py.contains "External/" line then
    match Py.split_once "External/" line with
    | Some (_, after) =>
        match Py.split_ws (Py.strip after) with
        | pkg :: _ => Package pkg
        | [] => Dangling
        end
    | None => NoRule
    end
  else NoRule.

Definition packages_of (lines : list string) : list string :=
  omap (fun raw => match rule_of raw with Package pkg => Some pkg | _ => None end) lines.

(** The line that opens the package filtering rules of a build log. *)
Definition rules_header : string := "Package filtering rules read:".

(** A rule that keeps an external package: two dashes, blanks, a plus,
    blanks, and [External/] before the text [g] that ends the line. *)
Definition external_rule (line g : string) : Prop :=
  exists sp1 sp2,
    Py.strip line = "--" ++ sp1 ++ "+" ++ sp2 ++ "External/" ++ g
    /\ sp1 <> "" /\ all_chars Re.space sp1 = true
    /\ sp2 <> "" /\ all_chars Re.space sp2 = true
    /\ g <> "" /\ Py.contains rules_header (Py.strip line) = false.

(** A line at which the loop over the rules stops; [some_found] tells
    whether a package was read before. *)
Definition closes_rules (some_found : bool) (line : string) : Prop :=
  Py.contains rules_header (Py.strip line) = false
  /\ (Py.startswith "-- Configuring" (Py.strip line) = true
      \/ (Py.strip line = "" /\ some_found = true)
      \/ (Re.search Pat.external_pkg (Py.strip line) = None
          /\ Py.startswith "--   -" (Py.strip line) = true)).

(** The 256 characters. *)
Definition all_ascii : list ascii := ascii_of_nat <$> seq 0 256.

(** [r] matches no empty text. *)
Fixpoint nonempty_rx (r : regex) : bool :=
  match r with
  | Chr _ => true
  | Cat r1 r2 => nonempty_rx r1 || nonempty_rx r2
  | Alt r1 r2 => nonempty_rx r1 && nonempty_rx r2
  | Grp _ r1 => nonempty_rx r1
  | _ => false
  end.

(** Every character class of [r] is free of whitespace. *)
Fixpoint spaceless_rx (r : regex) : bool :=
  match r with
  | Chr q => forallb (fun c => implb (q c) (negb (Py.isspace c))) all_ascii
  | Cat r1 r2 | Alt r1 r2 => spaceless_rx r1 && spaceless_rx r2
  | Star _ r1 | Grp _ r1 => spaceless_rx r1
  | _ => true
  end.

(** Every group of [r] captures a token. *)
Fixpoint token_groups (r : regex) : bool :=
  match r with
  | Cat r1 r2 | Alt r1 r2 => token_groups r1 && token_groups r2
  | Star _ r1 => token_groups r1
  | Grp _ r1 => nonempty_rx r1 && spaceless_rx r1 && token_groups r1
  | _ => true
  end.

(** *** [parse_atlasexternals_packages]
        ([src/backend/Athena/sbomGenerator.py]) *)
Module AtlasExternals.
Import Re.

(** [<name>[-_/]?([0-9.]+)\.tar\.gz] *)
Definition dashed (name : string) : regex :=
  seq [str name; opt (Chr (one_of "-_/")); Grp 1 (plus (Chr Pat.dotnum)); str ".tar.gz"].

(** The [patterns] table. *)
Definition patterns : gmap string (list regex) :=
  list_to_map
  [ ("Acts", [dashed "Acts"; dashed "acts"]);
    ("CLHEP", [dashed "CLHEP"; dashed "clhep"]);
    ("Coin3D", [dashed "Coin3D"; dashed "coin3d"]);
    ("COOL", [dashed "COOL"; dashed "cool"]);
    ("CORAL", [dashed "CORAL"; dashed "coral"]);
    ("Gaudi", [dashed "Gaudi"; dashed "gaudi"]);
    ("Geant4", [dashed "Geant4"; dashed "geant4"]);
    ("GeoModel", [dashed "GeoModel"; dashed "geomodel"]);
    ("GoogleTest", [Pat.versioned "googletest-" ".tar.gz"; dashed "GoogleTest"]);
    ("lwtnn", [ (* lwtnn[/\\]v?([0-9.]+)\.tar\.gz *)
                seq [str "lwtnn"; Chr (one_of "/\"); opt (lit "v");
                     Grp 1 (plus (Chr Pat.dotnum)); str ".tar.gz"];
                (* externals/lwtnn/v?([0-9.]+)\.tar\.gz *)
                seq [str "externals/lwtnn/"; opt (lit "v");
                     Grp 1 (plus (Chr Pat.dotnum)); str ".tar.gz"] ]);
    ("onnxruntime", [ (* onnxruntime[-\w]*-([0-9.]+)\.(?:tgz|tar\.gz) *)
                      seq [str "onnxruntime"; star (Chr (or word (one_of "-"))); lit "-";
                           Grp 1 (plus (Chr Pat.dotnum)); lit ".";
                           Alt (str "tgz") (str "tar.gz")] ]);
    ("nlohmann_json", [Pat.versioned "json-" ".tar.gz"; dashed "nlohmann_json"]);
    ("PyModules", []) ].

Section Generator.
Variable hash : string * option string -> Z.
(** [os.path.join(pkg_dir, rf)] for a package and a file name. *)
Variable rfpath : string -> string -> string.

(** One turn of the loop over a requirement file of PyModules. *)
Definition requirement_line (path : string) (line : string)
    (dependencies : list Dependency) : result (list Dependency) :=
  let line := Py.strip line in
  if negb (Py.truthy line) || Py.startswith "#" line then Ok dependencies
  else
    match match_ PythonPackages.pinned_pattern line with
    | Some m =>
        pkgname ← Py.not_none (group 1 m);
        pkgver ← Py.not_none (group 2 m);
        Ok (set_add hash (mkDependency pkgname (Some pkgver) "PyModules" path) dependencies)
    | None => Ok dependencies
    end.

(** The version found for a package in the text of its manifest. *)
Definition found_version (pkg : string) (content : string) : option string :=
  let regex_list := default [] (patterns !! pkg) in
  let found_version : option string :=
    match first_found regex_list content with Some v => v | None => None end in
  if negb (Py.truthy_opt found_version)
  then match first_found Pat.generic_patterns content with
       | Some v => v
       | None => found_version
       end
  else found_version.

(** The text of the manifest of a package directory, which is given by
    its files, by name relative to it: [CMakeLists.txt], or else
    [cmake/CMakeLists.txt]. *)
Definition manifest (pkg_dir : string -> option string) : option string :=
  match pkg_dir "CMakeLists.txt" with
  | Some content => Some content
  | None => pkg_dir "cmake/CMakeLists.txt"
  end.

(** One turn of the loop over [missing_packages]. The state is the
    dictionary [packages] and the set of dependencies. *)
Definition package_step (external : string -> option (string -> option string))
    (pkg : string) (st : gmap string string * list Dependency)
    : gmap string string * list Dependency :=
  match external pkg with
  | None => st
  | Some pkg_dir =>
      match manifest pkg_dir with
      | None => st
      | Some content =>
          if bool_decide (pkg = "PyModules") then
            (st.1,
             foldl (fun dependencies rf =>
                      match pkg_dir rf with
                      | Some raw =>
                          try_steps (requirement_line (rfpath pkg rf) <$> Py.readlines raw)
                            dependencies
                      | None => dependencies
                      end)
               st.2 ["requirements.txt.in"; "requirements_athena.txt.in"])
          else
            match found_version pkg content with
            | Some v => if Py.truthy v then (<[pkg := v]> st.1, st.2) else st
            | None => st
            end
      end
  end.

(** [external] is [None] when [AtlasExternals/External] is no
    directory; the result is [packages] and the set of dependencies
    afterwards. *)
Definition parse_atlasexternals_packages
    (external : option (string -> option (string -> option string)))
    (missing_packages : list string) (dependencies : list Dependency)
    : gmap string string * list Dependency :=
  match external with
  | None => (∅, dependencies)
  | Some external =>
      foldl (fun st pkg => package_step external pkg st) (∅, dependencies) missing_packages
  end.
End Generator.
End AtlasExternals.

(** What one turn stores in [packages]. *)
Definition stored (external : string -> option (string -> option string)) (pkg : string)
    : option string :=
  pkg_dir ← external pkg;
  content ← AtlasExternals.manifest pkg_dir;
  if bool_decide (pkg = "PyModules") then None
  else v ← AtlasExternals.found_version pkg content; if Py.truthy v then Some v else None.

(** * Properties *)

(** ** Version numbering *)

Lemma startswith_v s : Py.startswith "v" s = true <-> exists r, s = String "v" r.
Proof.
  unfold Py.startswith. destruct s as [|c r]; [split; [done | intros [? ?]; done]|].
  change (String.prefix "v" (String c r))
    with (if ascii_dec "v" c then String.prefix "" r else false).
  destruct (ascii_dec "v" c) as [<-|Hne].
  - destruct r; (split; [eauto | done]).
  - split; [done | intros [r' [= Hc Hr]]; by destruct Hne].
Qed.

Lemma version_num_spec item n :
  version_num item = Some n <->
  d_is_dir item = true /\ exists s, d_name item = String "v" s /\ Py.int s = Some n.
Proof.
  unfold version_num. destruct item as [nm isd]; simpl.
  destruct isd; simpl; [|split; [done | intros [? _]; done]].
  destruct (Py.startswith "v" nm) eqn:Hsw.
  - apply startswith_v in Hsw as [r ->]. simpl. split.
    + intros H. split; [done|]. by exists r.
    + by intros (_ & s & [= <-] & H).
  - split; [done|]. intros (_ & s & -> & _).
    assert (Py.startswith "v" (String "v" s) = true) by (apply startswith_v; eauto).
    congruence.
Qed.

Lemma elem_of_version_dirs items n :
  n ∈ version_dirs items <-> numeric_suffix items n.
Proof.
  unfold numeric_suffix. induction items as [|item rest IH]; simpl.
  - split; [by intros ?%elem_of_nil | by intros (? & ? & ?%elem_of_nil & _)].
  - destruct (version_num item) as [m|] eqn:Hvn.
    + rewrite elem_of_cons, IH. split.
      * intros [->|(it & s & Hin & Hrest)].
        -- apply version_num_spec in Hvn as (Hd & s & Hs & Hi).
           exists item, s. rewrite elem_of_cons. auto.
        -- exists it, s. rewrite elem_of_cons. auto.
      * intros (it & s & [->|Hin]%elem_of_cons & Hd & Hs & Hi).
        -- left. assert (version_num item = Some n) as Hn
             by (apply version_num_spec; eauto).
           congruence.
        -- right. eauto 6.
    + rewrite IH. split.
      * intros (it & s & Hin & Hrest). exists it, s. rewrite elem_of_cons. auto.
      * intros (it & s & [->|Hin]%elem_of_cons & Hd & Hs & Hi).
        -- assert (version_num item = Some n) as Hn
             by (apply version_num_spec; eauto).
           congruence.
        -- eauto 6.
Qed.

Lemma max_list_ge x l : x <= Py.max_list x l /\ forall y, y ∈ l -> y <= Py.max_list x l.
Proof.
  unfold Py.max_list. revert x. induction l as [|z l IH]; intros x; simpl.
  - split; [lia | by intros ? ?%elem_of_nil].
  - destruct (IH (Z.max x z)) as [H1 H2]. split; [lia|].
    intros y [->|Hin]%elem_of_cons; [lia | auto].
Qed.

Lemma max_list_elem x l : Py.max_list x l ∈ x :: l.
Proof.
  unfold Py.max_list. revert x. induction l as [|z l IH]; intros x; simpl.
  - apply list_elem_of_here.
  - specialize (IH (Z.max x z)).
    apply elem_of_cons in IH as [Heq|Hin].
    + rewrite Heq. destruct (Z.max_spec x z) as [[_ ->]|[_ ->]].
      * apply list_elem_of_further, list_elem_of_here.
      * apply list_elem_of_here.
    + by do 2 apply list_elem_of_further.
Qed.

(** C4. [get_next_version_number] answers 1 when the versions directory is
    absent or holds no directory named v followed by a number that [int]
    parses; otherwise it answers one more than the largest parsed suffix,
    entries with another suffix being ignored; for v1, v2 and v7 it
    answers 8. *)
Theorem next_version_number_spec :
  get_next_version_number None = 1
  /\ (forall items, (forall n, ~ numeric_suffix items n) ->
        get_next_version_number (Some items) = 1)
  /\ (forall items n, numeric_suffix items n ->
        numeric_suffix items (get_next_version_number (Some items) - 1)
        /\ n <= get_next_version_number (Some items) - 1)
  /\ get_next_version_number
       (Some [Dirent "v1" true; Dirent "v2" true; Dirent "v7" true]) = 8.
Proof.
  split; [done|]. split; [|split; [|done]].
  - intros items Hnone. simpl.
    destruct (version_dirs items) as [|n ns] eqn:Hvd; [done|].
    exfalso. apply (Hnone n), elem_of_version_dirs. rewrite Hvd. apply list_elem_of_here.
  - intros items n Hn. apply elem_of_version_dirs in Hn. simpl.
    destruct (version_dirs items) as [|m ms] eqn:Hvd; [by apply elem_of_nil in Hn|].
    replace (Py.max_list m ms + 1 - 1) with (Py.max_list m ms) by lia. split.
    + apply elem_of_version_dirs. rewrite Hvd. apply max_list_elem.
    + destruct (max_list_ge m ms) as [H1 H2].
      apply elem_of_cons in Hn as [->|Hin]; auto.
Qed.

Lemma next_version_number_spec_witness :
  let items := [Dirent "v1" true; Dirent "notes" true; Dirent "v7" true; Dirent "v9" false] in
  numeric_suffix items 1
  /\ numeric_suffix items (get_next_version_number (Some items) - 1)
  /\ 1 <= get_next_version_number (Some items) - 1.
Proof.
  intros items.
  assert (numeric_suffix items 1) as H.
  { exists (Dirent "v1" true), "1". split; [apply list_elem_of_here | done]. }
  split; [exact H|].
  exact (proj1 (proj2 (proj2 next_version_number_spec)) items 1 H).
Defined.

(** C10. [get_next_version_number] takes every directory named v followed
    by a string that [int] parses, signed numbers included: a versions
    directory whose only entry is the directory v-3 gives -2, so the next
    version number can be zero or negative. *)
Theorem next_version_number_signed :
  (forall s n, Py.int s = Some n ->
     get_next_version_number (Some [Dirent (String "v" s) true]) = n + 1)
  /\ Py.int "-3" = Some (-3)
  /\ Py.int "+5" = Some 5
  /\ get_next_version_number (Some [Dirent "v-3" true]) = -2
  /\ get_next_version_number (Some [Dirent "v-1" true]) = 0.
Proof.
  split; [|done].
  intros s n Hs. simpl.
  assert (version_num (Dirent (String "v" s) true) = Some n) as ->
    by (apply version_num_spec; eauto).
  done.
Qed.

Lemma next_version_number_signed_witness :
  Py.int "-12" = Some (-12)
  /\ get_next_version_number (Some [Dirent "v-12" true]) = -12 + 1.
Proof.
  split; [reflexivity|].
  exact (proj1 next_version_number_signed "-12" (-12) eq_refl).
Defined.

(** ** The identity of dependencies *)

Lemma dep_eq_spec d1 d2 :
  dep_eq d1 d2 = true <-> name d1 = name d2 /\ version d1 = version d2.
Proof.
  unfold dep_eq. rewrite bool_decide_eq_true. split.
  - by intros [= -> ->].
  - by intros [-> ->].
Qed.

Lemma dep_eq_hash hash d1 d2 :
  dep_eq d1 d2 = true -> dep_hash hash d1 = dep_hash hash d2.
Proof. intros [Hn Hv]%dep_eq_spec. unfold dep_hash. by rewrite Hn, Hv. Qed.

Lemma set_mem_spec hash d s :
  set_mem hash d s = true <->
  exists e, e ∈ s /\ name e = name d /\ version e = version d.
Proof.
  unfold set_mem. rewrite existsb_exists. split.
  - intros (e & Hin & [_ Heq%dep_eq_spec]%andb_true_iff).
    exists e. by rewrite list_elem_of_In.
  - intros (e & Hin & Hn & Hv). exists e. rewrite <- list_elem_of_In. split; [done|].
    assert (dep_eq e d = true) as Heq by (by apply dep_eq_spec).
    rewrite Heq, (dep_eq_hash hash e d Heq). by rewrite Z.eqb_refl.
Qed.

Lemma set_add_invariant hash d s :
  identity_invariant s -> identity_invariant (set_add hash d s).
Proof.
  intros Hs. unfold set_add. destruct (set_mem hash d s) eqn:Hmem; [done|].
  assert (forall e, e ∈ s -> ~ (name e = name d /\ version e = version d)) as Hfresh.
  { intros e Hin Heq. assert (set_mem hash d s = true) as Ht
      by (apply set_mem_spec; exists e; tauto).
    congruence. }
  intros i j d1 d2 Hi Hj Hn Hv.
  apply lookup_app_Some in Hi as [Hi|[Hli Hi]];
    apply lookup_app_Some in Hj as [Hj|[Hlj Hj]].
  - by apply (Hs i j d1 d2).
  - apply list_lookup_singleton_Some in Hj as [_ <-].
    destruct (Hfresh d1); [by eapply list_elem_of_lookup_2 | done].
  - apply list_lookup_singleton_Some in Hi as [_ <-].
    destruct (Hfresh d2); [by eapply list_elem_of_lookup_2 | done].
  - apply list_lookup_singleton_Some in Hi as [Hi _].
    apply list_lookup_singleton_Some in Hj as [Hj _]. lia.
Qed.

Lemma set_adds_invariant hash ds s :
  identity_invariant s -> identity_invariant (set_adds hash ds s).
Proof.
  unfold set_adds. revert s. induction ds as [|d ds IH]; intros s Hs; simpl; [done|].
  by apply IH, set_add_invariant.
Qed.

(** C8. Two dependency records are equal exactly when their names and
    versions are equal, whatever their source and file path; equal records
    have equal hashes; so a dependency set never holds two entries with the
    same name and version, while one name may be held at two versions as
    two records; every [add] keeps it so. *)
Theorem dependency_identity (hash : string * option string -> Z) :
  (forall d1 d2, dep_eq d1 d2 = true <-> name d1 = name d2 /\ version d1 = version d2)
  /\ (forall n v s1 f1 s2 f2,
        dep_eq (mkDependency n v s1 f1) (mkDependency n v s2 f2) = true)
  /\ (forall d1 d2, dep_eq d1 d2 = true -> dep_hash hash d1 = dep_hash hash d2)
  /\ identity_invariant []
  /\ (forall d s, identity_invariant s -> identity_invariant (set_add hash d s))
  /\ (forall ds, identity_invariant (set_adds hash ds []))
  /\ (forall n v1 v2 s1 f1 s2 f2, v1 <> v2 ->
        set_adds hash [mkDependency n v1 s1 f1; mkDependency n v2 s2 f2] []
        = [mkDependency n v1 s1 f1; mkDependency n v2 s2 f2])
  /\ (forall n v s1 f1 s2 f2,
        set_adds hash [mkDependency n v s1 f1; mkDependency n v s2 f2] []
        = [mkDependency n v s1 f1]).
Proof.
  split; [apply dep_eq_spec|].
  split; [intros; by apply dep_eq_spec|].
  split; [apply dep_eq_hash|].
  split; [by intros i j d1 d2 ?|].
  split; [intros d s; apply set_add_invariant|].
  split; [intros ds; by apply set_adds_invariant; intros i j d1 d2 ?|].
  split.
  - intros n v1 v2 s1 f1 s2 f2 Hne. unfold set_adds, set_add. simpl.
    assert (dep_eq (mkDependency n v1 s1 f1) (mkDependency n v2 s2 f2) = false) as ->.
    { apply not_true_is_false. intros [_ Hv]%dep_eq_spec. simpl in Hv. done. }
    by rewrite andb_false_r.
  - intros n v s1 f1 s2 f2. unfold set_adds, set_add. simpl.
    assert (dep_eq (mkDependency n v s1 f1) (mkDependency n v s2 f2) = true) as Heq
      by (by apply dep_eq_spec).
    rewrite Heq. unfold dep_hash. simpl. by rewrite Z.eqb_refl.
Qed.

Lemma dependency_identity_witness :
  let hash : string * option string -> Z := fun k => Z.of_nat (String.length k.1) in
  let a := mkDependency "ROOT" (Some "6.28") "LCG Website" "" in
  let b := mkDependency "ROOT" (Some "6.30") "cppDep.txt" "" in
  identity_invariant [a]
  /\ identity_invariant (set_add hash b [a])
  /\ set_adds hash [a; b] [] = [a; b].
Proof.
  intros hash a b.
  assert (identity_invariant [a]) as Ha.
  { intros [|i] [|j] d1 d2 Hi Hj _ _; simpl in *; done. }
  split; [exact Ha|]. split.
  - exact (proj1 (proj2 (proj2 (proj2 (proj2 (dependency_identity hash))))) b [a] Ha).
  - apply (proj1 (proj2 (proj2 (proj2 (proj2 (proj2 (proj2 (dependency_identity hash)))))))).
    discriminate.
Defined.

(** ** Missing packages *)

Lemma dict_has_spec {V} k (d : gmap string V) : dict_has k d = true <-> is_Some (d !! k).
Proof. unfold dict_has. by rewrite bool_decide_eq_true. Qed.

Lemma lower_keys_spec lcg x :
  is_Some (lower_keys lcg !! x) <-> exists k, is_Some (lcg !! k) /\ Py.lower k = x.
Proof.
  unfold lower_keys. rewrite <- not_eq_None_Some, <- not_elem_of_list_to_map.
  rewrite <- list_fmap_compose. split.
  - intros Hin. apply dec_stable in Hin.
    apply list_elem_of_fmap in Hin as ([k v] & -> & Hkv).
    apply elem_of_map_to_list in Hkv. exists k. simpl. by rewrite Hkv.
  - intros (k & [v Hv] & <-) Hnot. apply Hnot.
    apply list_elem_of_fmap. exists (k, v). split; [done|].
    by apply elem_of_map_to_list.
Qed.

Lemma matched_spec lcg pkg :
  matched lcg pkg = true <->
  exact_match pkg lcg \/ case_insensitive_match pkg lcg \/ alias_match pkg lcg.
Proof.
  unfold matched, exact_match, case_insensitive_match, alias_match.
  rewrite !orb_true_iff, !dict_has_spec, lower_keys_spec.
  split.
  - intros [[H|H]|H]; [by left | by right; left | right; right].
    destruct (name_mappings !! pkg) as [mapped|] eqn:Hm; [|done].
    exists mapped. split; [done|].
    apply orb_true_iff in H as [H|H].
    + left. by apply dict_has_spec.
    + right. apply dict_has_spec in H. by apply lower_keys_spec.
  - intros [H|[H|(mapped & Hm & H)]]; [by left; left | by left; right | right].
    rewrite Hm. apply orb_true_iff. destruct H as [H|H].
    + left. by apply dict_has_spec.
    + right. apply dict_has_spec. by apply lower_keys_spec.
Qed.

Lemma missing_step_matched lcg missing pkg :
  missing_step lcg (lower_keys lcg) missing pkg
  = if matched lcg pkg then missing else (missing ++ [pkg])%list.
Proof.
  unfold missing_step, matched.
  destruct (dict_has pkg lcg); [done|].
  destruct (dict_has (Py.lower pkg) (lower_keys lcg)); [done|].
  simpl. by destruct (name_mappings !! pkg).
Qed.

Lemma missing_fold lcg missing build_packages :
  foldl (missing_step lcg (lower_keys lcg)) missing build_packages
  = (missing ++ filter (fun pkg => matched lcg pkg = false) build_packages)%list.
Proof.
  revert missing. induction build_packages as [|pkg rest IH]; intros missing; simpl.
  - by rewrite app_nil_r.
  - rewrite IH, missing_step_matched, filter_cons.
    destruct (matched lcg pkg) eqn:Hm.
    + by rewrite decide_False by done.
    + rewrite decide_True by done. by rewrite <- app_assoc.
Qed.

(** C7. An expected package is classified as missing exactly when none of
    the three strategies matches it: the exact key, the key compared without
    regard to case, or the alias table (the alias tried exactly and without
    regard to case); a name that one of them matches is not in the missing
    list. The list keeps the order of the expected packages. *)
Theorem find_missing_packages_spec (build_packages : list string)
    (lcg_packages : gmap string string) :
  find_missing_packages build_packages lcg_packages
  = filter (fun pkg => matched lcg_packages pkg = false) build_packages
  /\ forall pkg,
       pkg ∈ find_missing_packages build_packages lcg_packages <->
       pkg ∈ build_packages
       /\ ~ (exact_match pkg lcg_packages
             \/ case_insensitive_match pkg lcg_packages
             \/ alias_match pkg lcg_packages).
Proof.
  assert (find_missing_packages build_packages lcg_packages
          = filter (fun pkg => matched lcg_packages pkg = false) build_packages) as Heq
    by apply (missing_fold lcg_packages []).
  split; [exact Heq|]. intros pkg.
  rewrite Heq, list_elem_of_filter, <- matched_spec, not_true_iff_false. tauto.
Qed.

(** ** The signature *)

#[local] Instance pair_le_trans : Transitive pair_le.
Proof.
  intros a b c [Hab1 Hab2] [Hbc1 Hbc2]. split.
  - by etrans.
  - intros Hac. assert (a.1 = b.1) as Heq.
    { apply (anti_symm String.le); [done|]. by rewrite Hac. }
    etrans; [by apply Hab2|]. apply Hbc2. congruence.
Qed.

#[local] Instance pair_le_antisymm : AntiSymm (=) pair_le.
Proof.
  intros [a1 a2] [b1 b2] [H1 H2] [H3 H4]. simpl in *.
  assert (a1 = b1) as -> by (by apply (anti_symm String.le)).
  f_equal. apply (anti_symm String.le); auto.
Qed.

#[local] Instance pair_le_total : Total pair_le.
Proof.
  intros [a1 a2] [b1 b2]. unfold pair_le. simpl.
  destruct (decide (a1 = b1)) as [->|Hne].
  - destruct (total String.le a2 b2); [left | right]; done.
  - destruct (total String.le a1 b1); [left | right]; (split; [done|]); congruence.
Qed.

Lemma sorted_permutation l1 l2 : l1 ≡ₚ l2 -> sorted l1 = sorted l2.
Proof.
  intros Hp. unfold sorted.
  apply (Sorted_unique pair_le); try apply Sorted_merge_sort; try apply _.
  by rewrite !merge_sort_Permutation.
Qed.

Lemma props_dict_fold (properties : list Property) (d : gmap string string) :
  foldl (fun d prop => <[get (p_name prop) "" := get (p_value prop) ""]> d) d properties
  = list_to_map (reverse ((fun prop => (get (p_name prop) "", get (p_value prop) ""))
                            <$> properties)) ∪ d.
Proof.
  revert d. induction properties as [|p ps IH]; intros d; simpl.
  - by rewrite (left_id ∅ (∪)).
  - rewrite IH, reverse_cons, list_to_map_app. simpl.
    rewrite <- (assoc (∪)). f_equal.
    rewrite insert_empty. by rewrite <- insert_union_singleton_l.
Qed.

Lemma props_dict_permutation ps ps' :
  NoDup (property_names ps) -> ps ≡ₚ ps' -> props_dict ps = props_dict ps'.
Proof.
  intros Hnd Hp. unfold props_dict. rewrite !props_dict_fold. f_equal.
  apply list_to_map_proper.
  - rewrite fmap_reverse, <- list_fmap_compose, reverse_Permutation. exact Hnd.
  - by rewrite !reverse_Permutation, Hp.
Qed.

(** C3. Two manifests that differ only in their generation timestamp have
    the same signature, whatever build information is passed along: the
    timestamp has no influence on the fingerprint. *)
Theorem signature_ignores_timestamp (d1 d2 : Sbom)
    (build_info : option (gmap string string)) :
  same_but_timestamp d1 d2 ->
  get_sbom_signature d1 build_info = get_sbom_signature d2 build_info.
Proof.
  intros (_ & _ & _ & _ & _ & Hc & Hm).
  unfold get_sbom_signature, properties_of. rewrite Hc.
  destruct (s_metadata d1) as [m1|], (s_metadata d2) as [m2|]; try done.
  destruct Hm as [_ ->]. done.
Qed.

Lemma signature_ignores_timestamp_witness :
  let meta t := mkMetadata (Some t) [] (Some [mkProperty (Some "Athena") (Some "24.0")]) in
  let doc t := mkSbom None (Some "CycloneDX") (Some "1.4") None (Some 1) (Some (meta t))
                 (Some [mkComponent (Some "library") (Some "zlib") (Some "1.3") []]) in
  same_but_timestamp (doc "2025-01-01T02:00:00") (doc "2025-01-02T02:00:00")
  /\ get_sbom_signature (doc "2025-01-01T02:00:00") None
     = get_sbom_signature (doc "2025-01-02T02:00:00") None.
Proof.
  intros meta doc.
  assert (same_but_timestamp (doc "2025-01-01T02:00:00") (doc "2025-01-02T02:00:00")) as H
    by (repeat split).
  split; [exact H|].
  exact (signature_ignores_timestamp _ _ None H).
Defined.

(** C2, as the claim states it, fails: two properties with one name and
    different values give different signatures in their two orders, since
    the later one overwrites the earlier one in the dictionary. *)
Lemma signature_property_order_counterexample :
  let ps := [mkProperty (Some "Athena") (Some "24.0"); mkProperty (Some "Athena") (Some "25.0")] in
  let ps' := [mkProperty (Some "Athena") (Some "25.0"); mkProperty (Some "Athena") (Some "24.0")] in
  let d := mkSbom None None None None None (Some (mkMetadata None [] (Some ps))) (Some []) in
  ps ≡ₚ ps'
  /\ properties_of d = ps
  /\ get_sbom_signature d None
     = [("components", []); ("properties", [("Athena", "25.0")])]
  /\ get_sbom_signature (with_properties ps' d) None
     = [("components", []); ("properties", [("Athena", "24.0")])]
  /\ get_sbom_signature (with_properties ps' d) None <> get_sbom_signature d None.
Proof.
  intros ps ps' d. split; [apply Permutation_swap|].
  split; [done|]. split; [by vm_compute|]. split; [by vm_compute|].
  by vm_compute.
Qed.

(** C2, amended. For every manifest, every permutation of its components
    and every permutation of its properties, the signature is the one of
    the manifest itself (with the same build information), provided no two
    of the properties have the same name. *)
Theorem signature_order_independent (d : Sbom) (cs' : list Component)
    (ps' : list Property) (build_info : option (gmap string string)) :
  get (s_components d) [] ≡ₚ cs' ->
  properties_of d ≡ₚ ps' ->
  NoDup (property_names (properties_of d)) ->
  get_sbom_signature (with_components cs' (with_properties ps' d)) build_info
  = get_sbom_signature d build_info.
Proof.
  intros Hc Hp Hnd. unfold get_sbom_signature. simpl.
  f_equal; [|f_equal].
  - f_equal. apply sorted_permutation. by rewrite Hc.
  - f_equal. replace (properties_of (with_components cs' (with_properties ps' d))) with ps'
      by (unfold properties_of; simpl; by destruct (s_metadata d)).
    by rewrite (props_dict_permutation _ _ Hnd Hp).
Qed.

Lemma signature_order_independent_witness :
  let ps := [mkProperty (Some "AnalysisBase") (Some "24.0");
             mkProperty (Some "AnalysisBaseExternals") (Some "24.2.42")] in
  let ps' := [mkProperty (Some "AnalysisBaseExternals") (Some "24.2.42");
              mkProperty (Some "AnalysisBase") (Some "24.0")] in
  let cs := [mkComponent None (Some "zlib") (Some "1.3") [];
             mkComponent None (Some "Boost") (Some "1.82.0") []] in
  let cs' := [mkComponent None (Some "Boost") (Some "1.82.0") [];
              mkComponent None (Some "zlib") (Some "1.3") []] in
  let d := mkSbom None None None None None (Some (mkMetadata None [] (Some ps))) (Some cs) in
  get (s_components d) [] ≡ₚ cs'
  /\ properties_of d ≡ₚ ps'
  /\ NoDup (property_names (properties_of d))
  /\ get_sbom_signature (with_components cs' (with_properties ps' d)) None
     = get_sbom_signature d None.
Proof.
  intros ps ps' cs cs' d.
  assert (get (s_components d) [] ≡ₚ cs') as Hc by apply Permutation_swap.
  assert (properties_of d ≡ₚ ps') as Hp by apply Permutation_swap.
  assert (NoDup (property_names (properties_of d))) as Hnd.
  { apply (bool_decide_unpack _). by vm_compute. }
  split; [exact Hc|]. split; [exact Hp|]. split; [exact Hnd|].
  exact (signature_order_independent d cs' ps' None Hc Hp Hnd).
Defined.

(** ** Strings *)

Lemma sapp_cons (c : ascii) (a b : string) : String c a ++ b = String c (a ++ b).
Proof. done. Qed.

Lemma sapp_nil_r (s : string) : s ++ "" = s.
Proof. induction s as [|c s IH]; [done|]. by rewrite sapp_cons, IH. Qed.

Lemma sapp_assoc (a b c : string) : (a ++ b) ++ c = a ++ (b ++ c).
Proof. induction a as [|x a IH]; [done|]. by rewrite !sapp_cons, IH. Qed.

Lemma no_nl_app a b : no_nl (a ++ b) = no_nl a && no_nl b.
Proof.
  induction a as [|x a IH]; [done|]. rewrite sapp_cons. simpl.
  by rewrite IH, andb_assoc.
Qed.

Lemma take_drop_while p s : take_while p s ++ Py.drop_while p s = s.
Proof.
  induction s as [|c s IH]; [done|]. cbn [take_while Py.drop_while].
  destruct (p c); [by rewrite sapp_cons, IH | done].
Qed.

Lemma drop_while_head p s :
  Py.drop_while p s = "" \/ exists c r, Py.drop_while p s = String c r /\ p c = false.
Proof.
  induction s as [|c s IH]; simpl; [by left|].
  destruct (p c) eqn:Hc; [done|]. right. eauto.
Qed.

Lemma drop_while_end_head p c r :
  p c = false -> exists t, Py.drop_while_end p (String c r) = String c t.
Proof. intros Hc. simpl. rewrite Hc. destruct (Py.drop_while_end p r); eauto. Qed.

Lemma strip_head s :
  Py.strip s = "" \/ exists c r, Py.strip s = String c r /\ Py.isspace c = false.
Proof.
  unfold Py.strip, Py.lstrip, Py.rstrip.
  destruct (drop_while_head Py.isspace s) as [->|(c & r & -> & Hc)]; [by left|].
  right. destruct (drop_while_end_head Py.isspace c r Hc) as [t ->]. eauto.
Qed.

Lemma drop_while_nl_last p s : nl_last s = true -> nl_last (Py.drop_while p s) = true.
Proof.
  induction s as [|c s IH]; [done|]. intros H. simpl.
  destruct (p c); [|done]. apply IH. simpl in H.
  destruct s; [done|]. by apply andb_true_iff in H as [_ H].
Qed.

Lemma rstrip_no_nl s : nl_last s = true -> no_nl (Py.rstrip s) = true.
Proof.
  unfold Py.rstrip. induction s as [|c s IH]; [done|]. intros H.
  cbn [Py.drop_while_end]. destruct s as [|c' s].
  - simpl. destruct (Py.isspace c) eqn:Hsp; [done|]. simpl.
    destruct (Ascii.eqb_spec c Py.nl) as [->|]; [done|]. done.
  - cbn [nl_last] in H. apply andb_true_iff in H as [Hc H]. specialize (IH H).
    destruct (Py.drop_while_end Py.isspace (String c' s)) eqn:Hd.
    + destruct (Py.isspace c); simpl; [done|]. by rewrite Hc.
    + simpl. rewrite Hc. exact IH.
Qed.

Lemma strip_no_nl s : nl_last s = true -> no_nl (Py.strip s) = true.
Proof. intros H. by apply rstrip_no_nl, drop_while_nl_last. Qed.

Lemma lines_of_nl_last s l : l ∈ Py.lines_of s -> nl_last l = true.
Proof.
  revert l. induction s as [|c s IH]; intros l; simpl; [by intros ?%elem_of_nil|].
  destruct (Ascii.eqb_spec c Py.nl) as [->|Hne].
  - intros [->|Hin]%elem_of_cons; [done | by apply IH].
  - destruct (Py.lines_of s) as [|l0 ls] eqn:Hls.
    + by intros ->%list_elem_of_singleton.
    + intros [->|Hin]%elem_of_cons.
      * assert (nl_last l0 = true) as H0 by (apply IH; apply list_elem_of_here).
        simpl. destruct l0; [done|].
        apply andb_true_iff. split; [|done].
        by apply negb_true_iff, Ascii.eqb_neq.
      * apply IH. by apply list_elem_of_further.
Qed.

Lemma readline_no_nl raw line : line ∈ Py.readlines raw -> no_nl (Py.strip line) = true.
Proof. intros H. by apply strip_no_nl, (lines_of_nl_last (Py.read raw)). Qed.



Lemma split_once_contains sep s :
  Py.contains sep s = true -> exists ab, Py.split_once sep s = Some ab.
Proof.
  induction s as [|c s IH]; cbn [Py.contains Py.split_once].
  - destruct (String.prefix sep ""); [eauto | done].
  - destruct (String.prefix sep (String c s)); [eauto|].
    rewrite orb_false_l. intros [[a b] ->]%IH. eauto.
Qed.

(** ** The matcher *)

Lemma lookup_cons n m w cs :
  Re.lookup n ((m, w) :: cs) = if Nat.eqb m n then Some w else Re.lookup n cs.
Proof. unfold Re.lookup. simpl. by destruct (Nat.eqb m n). Qed.

Lemma extends_refl cs : extends cs cs.
Proof. by intros n. Qed.

Lemma extends_trans cs1 cs2 cs3 : extends cs1 cs2 -> extends cs2 cs3 -> extends cs1 cs3.
Proof. intros H1 H2 n Hn. auto. Qed.

(** The zero-width cases: the continuation is entered at once. *)
Ltac sound_here s cs :=
  exists "", s, cs; split_and!; [done | done | apply extends_refl | done].

Section Soundness.
Context {A : Type}.
Implicit Types (k : @Re.cont A) (a : A).

Lemma star_loop_sound (body : bool -> string -> Re.caps -> @Re.cont A -> option A)
    (always : nat -> bool) (greedy : bool) :
  sound_body body always ->
  forall fuel, sound_body (A := A) (Re.star_loop body greedy fuel) (fun _ => false).
Proof.
  intros Hbody fuel. induction fuel as [|fuel IH]; intros bos s cs k a H.
  - simpl in H. sound_here s cs.
  - simpl in H.
    assert (k "" s cs = Some a
            \/ body bos s cs (fun w1 s1 cs1 =>
                 if Py.truthy w1
                 then Re.star_loop body greedy fuel false s1 cs1
                        (fun w2 s2 cs2 => k (w1 ++ w2) s2 cs2)
                 else None) = Some a) as [Hstop|Hmore].
    { destruct greedy.
      - destruct (body bos s cs _) eqn:Hb; [right; congruence | by left].
      - destruct (k "" s cs) eqn:Hk; [left; congruence | by right]. }
    + sound_here s cs.
    + apply Hbody in Hmore as (w1 & s1 & cs1 & -> & Hk1 & Hle1 & _).
      destruct (Py.truthy w1); [|done].
      apply IH in Hk1 as (w2 & s2 & cs2 & -> & Hk2 & Hle2 & _).
      exists (w1 ++ w2), s2, cs2. rewrite sapp_assoc.
      split_and!; [done | done | by eapply extends_trans | done].
Qed.

Lemma run_sound r : sound_body (A := A) (Re.run r) (fun n => Re.sets n r).
Proof.
  induction r as [|p|r1 IH1 r2 IH2|r1 IH1 r2 IH2|greedy r IH|m r IH| |];
    intros bos s cs k a H; simpl in H.
  - sound_here s cs.
  - destruct s as [|c s]; [done|]. destruct (p c); [|done].
    exists (String c ""), s, cs. split_and!; [done | done | apply extends_refl | done].
  - apply IH1 in H as (w1 & s1 & cs1 & -> & H & Hle1 & Hs1).
    apply IH2 in H as (w2 & s2 & cs2 & -> & H & Hle2 & Hs2).
    exists (w1 ++ w2), s2, cs2. rewrite sapp_assoc.
    split_and!; [done | done | by eapply extends_trans |].
    intros n [Hn|Hn]%orb_true_iff; auto.
  - destruct (Re.run r1 bos s cs k) eqn:H1.
    + injection H as ->. apply IH1 in H1 as (w & s' & cs' & ? & ? & ? & Hs).
      exists w, s', cs'. split_and!; [done..|].
      intros n [Hn _]%andb_true_iff. auto.
    + apply IH2 in H as (w & s' & cs' & ? & ? & ? & Hs).
      exists w, s', cs'. split_and!; [done..|].
      intros n [_ Hn]%andb_true_iff. auto.
  - by apply (star_loop_sound _ _ greedy IH) in H.
  - apply IH in H as (w & s' & cs' & -> & H & Hle & Hs).
    exists w, s', ((m, w) :: cs'). split_and!; [done | done | |].
    + intros n Hn. rewrite lookup_cons. destruct (Nat.eqb m n); [eauto | auto].
    + intros n Hn. rewrite lookup_cons. destruct (Nat.eqb m n) eqn:Hmn; [eauto|].
      apply orb_true_iff in Hn as [Hn|Hn]; [congruence | auto].
  - destruct bos; [|done]. sound_here s cs.
  - destruct s as [|c [|c' s]]; [sound_here EmptyString cs | | done].
    destruct (Ascii.eqb c Py.nl); [|done]. sound_here (String c "") cs.
Qed.

Lemma star_loop_greedy_S (body : bool -> string -> Re.caps -> @Re.cont A -> option A)
    fuel bos s cs k :
  Re.star_loop body true (S fuel) bos s cs k
  = match body bos s cs (fun w1 s1 cs1 =>
            if Py.truthy w1
            then Re.star_loop body true fuel false s1 cs1
                   (fun w2 s2 cs2 => k (w1 ++ w2) s2 cs2)
            else None) with
    | Some a => Some a
    | None => k "" s cs
    end.
Proof. done. Qed.

Lemma run_chr p bos s cs k :
  Re.run (Chr p) bos s cs k
  = match s with
    | String c s' => if p c then k (String c "") s' cs else None
    | EmptyString => None
    end.
Proof. done. Qed.

Lemma run_cat r1 r2 bos s cs k :
  Re.run (Cat r1 r2) bos s cs k
  = Re.run r1 bos s cs (fun w1 s1 cs1 =>
      Re.run r2 (bos && negb (Py.truthy w1)) s1 cs1 (fun w2 s2 cs2 => k (w1 ++ w2) s2 cs2)).
Proof. done. Qed.

Lemma run_grp n r bos s cs k :
  Re.run (Grp n r) bos s cs k
  = Re.run r bos s cs (fun w s1 cs1 => k w s1 ((n, w) :: cs1)).
Proof. done. Qed.

Lemma run_star greedy r bos s cs k :
  Re.run (Star greedy r) bos s cs k
  = Re.star_loop (Re.run r) greedy (String.length s) bos s cs k.
Proof. done. Qed.

(** A greedy repetition of one character class stops after the longest
    run of such characters when the continuation accepts there. *)
Lemma star_chr_greedy p s : forall fuel bos cs k a,
  (String.length s <= fuel)%nat ->
  k (take_while p s) (Py.drop_while p s) cs = Some a ->
  Re.star_loop (Re.run (Chr p)) true fuel bos s cs k = Some a.
Proof.
  induction s as [|c s IH]; intros fuel bos cs k a Hfuel Hk.
  - simpl in Hk. destruct fuel; [done|].
    by rewrite star_loop_greedy_S, run_chr, Hk.
  - destruct fuel as [|fuel]; [simpl in Hfuel; lia|].
    simpl in Hk. rewrite star_loop_greedy_S, run_chr. destruct (p c) eqn:Hc.
    + cbn [Py.truthy].
      rewrite (IH fuel false cs (fun w2 s2 cs2 => k (String c "" ++ w2) s2 cs2) a);
        [done | simpl in Hfuel; lia | done].
    + by rewrite Hk.
Qed.
End Soundness.

Lemma at_pos_groups rx bos pre s m n :
  Re.at_pos rx bos pre s = Some m -> Re.sets n rx = true -> is_Some (Re.group n m).
Proof.
  unfold Re.at_pos. intros H Hn.
  destruct (Re.run rx bos s [] _) as [[[w s'] cs']|] eqn:Hrun; [|done].
  injection H as <-.
  apply run_sound in Hrun as (w0 & s0 & cs0 & _ & [= _ _ <-] & _ & Hs).
  by apply Hs.
Qed.

Lemma match_groups rx s m n :
  Re.match_ rx s = Some m -> Re.sets n rx = true -> is_Some (Re.group n m).
Proof. apply at_pos_groups. Qed.

Lemma search_go_inv rx s : forall bos pre m,
  Re.search_go rx bos pre s = Some m ->
  exists b p q, s = p ++ q /\ Re.at_pos rx b (pre ++ p) q = Some m.
Proof.
  induction s as [|c s IH]; intros bos pre m H; simpl in H.
  - destruct (Re.at_pos rx bos pre "") eqn:Hat; [|done].
    exists bos, "", "". split; [done|]. rewrite sapp_nil_r. congruence.
  - destruct (Re.at_pos rx bos pre (String c s)) eqn:Hat.
    + exists bos, "", (String c s). split; [done|]. rewrite sapp_nil_r. congruence.
    + apply IH in H as (b & p & q & -> & H).
      exists b, (String c p), q. split; [done|].
      by rewrite sapp_assoc in H.
Qed.

Lemma search_groups rx s m n :
  Re.search rx s = Some m -> Re.sets n rx = true -> is_Some (Re.group n m).
Proof.
  intros H Hn. apply search_go_inv in H as (b & p & q & _ & H).
  by apply (at_pos_groups _ _ _ _ _ _ H).
Qed.


(** ** Lines of the form [name: version] *)





(** ** Totality of the parsers *)
















(** ** The pinned-requirement input *)

(** The hash only speeds the search up: the set does not depend on it. *)
Lemma set_add_any_hash hash1 hash2 d s : set_add hash1 d s = set_add hash2 d s.
Proof.
  unfold set_add.
  assert (forall hash, set_mem hash d s = existsb (fun e => dep_eq e d) s) as Hm.
  { intros hash. unfold set_mem. induction s as [|e s IH]; simpl; [done|].
    rewrite IH. f_equal. destruct (dep_eq e d) eqn:He; [|by rewrite andb_false_r].
    by rewrite (dep_eq_hash hash e d He), Z.eqb_refl. }
  by rewrite (Hm hash1), (Hm hash2).
Qed.

Lemma try_steps_ext {S X} (f g : X -> S -> result S) (l : list X) :
  (forall x st, f x st = g x st) ->
  forall st, try_steps (f <$> l) st = try_steps (g <$> l) st.
Proof.
  intros Hfg. induction l as [|x l IH]; intros st; simpl; [done|].
  rewrite Hfg. destruct (g x st); [apply IH | done].
Qed.

Lemma requirement_line_any_hash hash1 hash2 rel line deps :
  GenerateSbom.requirement_line hash1 rel line deps
  = GenerateSbom.requirement_line hash2 rel line deps.
Proof.
  unfold GenerateSbom.requirement_line.
  destruct (_ || _); [done|].
  destruct (Re.match_ _ _) as [m|].
  - destruct (Re.group 1 m); [|done]. destruct (Re.group 2 m); [|done].
    destruct (Re.group 3 m); [|done]. simpl.
    by rewrite (set_add_any_hash hash1 hash2).
  - destruct (Py.first _); [|done]. simpl. destruct (Py.truthy _); [|done].
    by rewrite (set_add_any_hash hash1 hash2).
Qed.

(** C5, as the claim states it, fails on both parsers: the requirement
    parser of [generate_sbom.py] keeps the operator in the version, and
    the one of [sbomGenerator.py] takes a line without [==] whole as a
    name. *)
Lemma pinned_requirements_counterexample :
  let hash : string * option string -> Z := fun _ => 0 in
  let r1 := GenerateSbom.parse_requirements_file hash "requirements.txt"
              (Some pinned_input) [] in
  keys r1 = [("numpy", Some "==1.26.4"); ("requests", Some ">=2.0")]
  /\ ~ expected_pinned (keys r1)
  /\ exists r2,
       StatAnalysis.parse_py_deps hash (Some pinned_input) [] = Ok r2
       /\ keys r2 = [("numpy", Some "1.26.4"); ("requests>=2.0", None); ("# comment", None)]
       /\ ~ expected_pinned (keys r2).
Proof.
  intros hash r1.
  assert (keys r1 = [("numpy", Some "==1.26.4"); ("requests", Some ">=2.0")]) as H1
    by (by vm_compute).
  split; [exact H1|]. split.
  - rewrite H1. intros [Hp|Hp];
      assert (("numpy", Some "1.26.4") ∈ [("numpy", Some "==1.26.4"); ("requests", Some ">=2.0")])
        as Hin by (rewrite Hp; apply list_elem_of_here);
      rewrite !elem_of_cons, elem_of_nil in Hin; by destruct Hin as [[=]|[[=]|[]]].
  - eexists. split; [by vm_compute|]. split; [by vm_compute|].
    intros [Hp|Hp]; by apply Permutation_length in Hp.
Qed.

(** C5, amended. On the pinned-requirement input the parser of
    [generate_sbom.py] yields exactly two records, numpy with version
    ==1.26.4 and requests with version >=2.0, the operator being part of
    the version; the comment line and the blank line yield none. The
    parser of [sbomGenerator.py] records numpy with version 1.26.4 for the
    first line, a record without version named by the whole second line,
    and nothing for the blank line. *)
Theorem pinned_requirements (hash : string * option string -> Z) (rel : string) :
  GenerateSbom.parse_requirements_file hash rel (Some pinned_input) []
  = [ mkDependency "numpy" (Some "==1.26.4") "requirements.txt" rel;
      mkDependency "requests" (Some ">=2.0") "requirements.txt" rel ]
  /\ (forall deps,
        GenerateSbom.requirement_line hash rel "# comment" deps = Ok deps
        /\ GenerateSbom.requirement_line hash rel "" deps = Ok deps)
  /\ (forall deps,
        StatAnalysis.py_line hash (unlines ["numpy==1.26.4"]) deps
        = Ok (set_add hash (mkDependency "numpy" (Some "1.26.4") "pyDep.txt" "") deps)
        /\ StatAnalysis.py_line hash (unlines ["requests>=2.0"]) deps
           = Ok (set_add hash (mkDependency "requests>=2.0" None "pyDep.txt" "") deps)
        /\ StatAnalysis.py_line hash (unlines [""]) deps = Ok deps).
Proof.
  split; [|split].
  - unfold GenerateSbom.parse_requirements_file.
    rewrite (try_steps_ext _ (GenerateSbom.requirement_line (fun _ => 0) rel))
      by (intros; apply requirement_line_any_hash).
    by vm_compute.
  - intros deps. split; by vm_compute.
  - intros deps. split_and!; by vm_compute.
Qed.

(** ** The Boost version *)

Lemma at_pos_none_pre rx bos pre pre' s :
  Re.at_pos rx bos pre s = None -> Re.at_pos rx bos pre' s = None.
Proof. unfold Re.at_pos. by destruct (Re.run rx bos s [] _). Qed.

Lemma no_match_check_sound rx rest pre : forall bos acc,
  Re.no_match_check rx bos pre rest = true ->
  forall p q, pre = p ++ q -> q <> "" ->
    Re.at_pos rx (bos && bool_decide (p = "")) (acc ++ p) (q ++ rest) = None.
Proof.
  induction pre as [|c pre IH]; intros bos acc Hc p q Hpq Hq.
  - destruct p; [destruct (Hq (eq_sym Hpq)) | done].
  - cbn [Re.no_match_check] in Hc.
    destruct (Re.at_pos rx bos "" (String c pre ++ rest)) eqn:Hat; [done|].
    destruct p as [|c' p].
    + change (String c pre = q) in Hpq. subst q. rewrite andb_true_r.
      by eapply at_pos_none_pre.
    + rewrite sapp_cons in Hpq. injection Hpq as <- Hpq.
      rewrite andb_false_r.
      specialize (IH false (acc ++ String c "") Hc p q Hpq Hq).
      by eapply at_pos_none_pre.
Qed.

Lemma no_match_check_before rx pre rest :
  Re.no_match_check rx true pre rest = true -> Re.no_match_before rx pre rest.
Proof. intros H p q Hpq Hq. by apply (no_match_check_sound rx rest pre true "" H p q). Qed.

(** The search passes over a prefix inside which no match starts. *)
Lemma search_go_skip rx rest pre : forall bos acc,
  (forall p q, pre = p ++ q -> q <> "" ->
     Re.at_pos rx (bos && bool_decide (p = "")) p (q ++ rest) = None) ->
  Re.search_go rx bos acc (pre ++ rest)
  = Re.search_go rx (bos && bool_decide (pre = "")) (acc ++ pre) rest.
Proof.
  induction pre as [|c pre IH]; intros bos acc H.
  - by rewrite andb_true_r, sapp_nil_r.
  - rewrite sapp_cons. cbn [Re.search_go]. rewrite <- sapp_cons.
    rewrite (at_pos_none_pre rx bos "" acc (String c pre ++ rest)).
    + rewrite (IH false (acc ++ String c "")).
      * by rewrite andb_false_r, sapp_assoc.
      * intros p q Hpq Hq. specialize (H (String c p) q).
        rewrite andb_false_r in H. eapply at_pos_none_pre. apply H; [|done].
        by rewrite sapp_cons, Hpq.
    + specialize (H "" (String c pre) eq_refl). rewrite andb_true_r in H. by apply H.
Qed.

Lemma search_skip rx pre rest :
  Re.no_match_before rx pre rest ->
  Re.search rx (pre ++ rest) = Re.search_go rx (bool_decide (pre = "")) pre rest.
Proof.
  intros H. unfold Re.search. by rewrite (search_go_skip rx rest pre true "").
Qed.

(** A match further on is found, if none is found before. *)
Lemma search_go_some rx rest pre : forall bos acc,
  (forall b a, is_Some (Re.search_go rx b a rest)) ->
  is_Some (Re.search_go rx bos acc (pre ++ rest)).
Proof.
  induction pre as [|c pre IH]; intros bos acc H; [apply H|].
  rewrite sapp_cons. cbn [Re.search_go].
  destruct (Re.at_pos rx bos acc _); [done | by apply IH].
Qed.

Lemma truthy_app a b : Py.truthy (a ++ b) = Py.truthy a || Py.truthy b.
Proof. by destruct a. Qed.

Lemma backend_boost_search pre post :
  Re.no_match_before BackendAnalysisBase.boost_pattern pre (boost_source ++ post) ->
  exists before,
    Re.search BackendAnalysisBase.boost_pattern (pre ++ boost_source ++ post)
    = Some (Re.Match before "boost_1_82_0.tar.gz" (";" ++ post) [(1%nat, "1_82_0")]).
Proof.
  intros H. rewrite (search_skip _ _ _ H).
  generalize (bool_decide (pre = "")). intros b. eexists. vm_compute. reflexivity.
Qed.

Lemma base_boost_search pre post :
  Re.no_match_before AnalysisBase.boost_pattern pre (boost_source ++ post) ->
  exists before,
    Re.search AnalysisBase.boost_pattern (pre ++ boost_source ++ post)
    = Some (Re.Match before "/sources/boost_1_82_0.tar.gz;" post [(1%nat, "1_82_0")]).
Proof.
  intros H. rewrite (search_skip _ _ _ H).
  generalize (bool_decide (pre = "")). intros b. eexists. vm_compute. reflexivity.
Qed.

(** C6, as the claim states it, fails: a text that holds the Boost line of
    the specification after another Boost tar-ball gives the version of the
    earlier one, the search taking the leftmost match. *)
Lemma boost_version_counterexample :
  let content := "URL /sources/boost_1_70_0.tar.gz; " ++ unlines [""]
                 ++ "URL http://cern.ch/sources/boost_1_82_0.tar.gz; " in
  Py.contains boost_source content = true
  /\ Re.group 1 <$> Re.search BackendAnalysisBase.boost_pattern content
     = Some (Some "1_70_0")
  /\ BackendAnalysisBase.package_entry "Boost" content = Ok (Some "Boost: 1.70.0")
  /\ AnalysisBase.parse_cmakelists
       (fun dep => if bool_decide (dep = "Boost") then Some content else None)
     = Ok [unlines ["Boost: 1.70.0"]].
Proof. intros content. split_and!; by vm_compute. Qed.

(** C6, amended. In every build-manifest text that holds the Boost line of
    the specification the Boost pattern matches; when no match of the
    pattern starts before that line (for the line-by-line variant: no
    earlier line matches and no match starts earlier on the line), group 1
    is 1_82_0 and the version recorded for Boost, underscores turned into
    dots, is 1.82.0. *)
Theorem boost_version_leftmost (pre post : string) :
  (exists m, Re.search BackendAnalysisBase.boost_pattern (pre ++ boost_source ++ post) = Some m)
  /\ (exists m, Re.search AnalysisBase.boost_pattern (pre ++ boost_source ++ post) = Some m)
  /\ (Re.no_match_before BackendAnalysisBase.boost_pattern pre (boost_source ++ post) ->
      Re.group 1 <$> Re.search BackendAnalysisBase.boost_pattern (pre ++ boost_source ++ post)
      = Some (Some "1_82_0")
      /\ BackendAnalysisBase.package_entry "Boost" (pre ++ boost_source ++ post)
         = Ok (Some "Boost: 1.82.0"))
  /\ (forall before after,
        Forall (fun line => Re.search AnalysisBase.boost_pattern line = None) before ->
        Re.no_match_before AnalysisBase.boost_pattern pre (boost_source ++ post) ->
        Re.group 1 <$> Re.search AnalysisBase.boost_pattern (pre ++ boost_source ++ post)
        = Some (Some "1_82_0")
        /\ AnalysisBase.scan_lines "Boost" AnalysisBase.boost_pattern
             (before ++ [pre +:+ boost_source +:+ post] ++ after)%list
           = Ok [unlines ["Boost: 1.82.0"]])
  /\ Py.replace_char "_" "." "1_82_0" = "1.82.0".
Proof.
  split; [|split; [|split; [|split; [|done]]]].
  - apply (search_go_some _ (boost_source ++ post) pre true "").
    intros b a. eexists. by vm_compute.
  - apply (search_go_some _ (boost_source ++ post) pre true "").
    intros b a. eexists. by vm_compute.
  - intros H. destruct (backend_boost_search pre post H) as [bf Hs].
    split; [by rewrite Hs|].
    unfold BackendAnalysisBase.package_entry. cbv zeta.
    replace (BackendAnalysisBase.patterns !! BackendAnalysisBase.dep_key_of "Boost")
      with (Some [BackendAnalysisBase.boost_pattern]) by (by vm_compute).
    rewrite truthy_app.
    replace (Py.truthy (boost_source ++ post)) with true by done.
    rewrite orb_true_r.
    assert (first_found [BackendAnalysisBase.boost_pattern] (pre ++ boost_source ++ post)
            = Some (Some "1_82_0")) as Hff by (simpl; by rewrite Hs).
    cbn [default]. unfold id. rewrite Hff. by vm_compute.
  - intros before after Hbefore H. destruct (base_boost_search pre post H) as [bf Hs].
    split; [by rewrite Hs|].
    induction Hbefore as [|line before Hline _ IH]; simpl.
    + rewrite Hs. by vm_compute.
    + by rewrite Hline.
Qed.

Lemma boost_version_leftmost_witness :
  let pre := "set( BOOST_SOURCE URL http://cern.ch/lcgpackages/tarFiles" in
  let post := unlines ["URL_MD5 0123456789abcdef )"] in
  Re.no_match_before BackendAnalysisBase.boost_pattern pre (boost_source ++ post)
  /\ Re.group 1 <$> Re.search BackendAnalysisBase.boost_pattern (pre ++ boost_source ++ post)
     = Some (Some "1_82_0")
  /\ BackendAnalysisBase.package_entry "Boost" (pre ++ boost_source ++ post)
     = Ok (Some "Boost: 1.82.0").
Proof.
  intros pre post.
  assert (Re.no_match_before BackendAnalysisBase.boost_pattern pre (boost_source ++ post))
    as H by (apply no_match_check_before; by vm_compute).
  split; [exact H|].
  exact (proj1 (proj2 (proj2 (boost_version_leftmost pre post))) H).
Defined.

(** ** Two generations in a row *)

(** C1 at a concrete input. With the build log [athena_log] and nothing
    else changing between the runs, the first generation for Athena saves
    v1 and the second saves v2 instead of reporting a duplicate: the build
    information read from the log has the key platform, the one read back
    from the report of v1 cannot have it, so the two signatures differ. *)
Theorem athena_second_run_saves_again :
  let w0 := mkWorkdir None None (Some athena_log) [] in
  let new_info := VersionSbom.parse_build_info_from_file (Some athena_log) in
  exists w1 w2 md1,
    athena_run (athena_doc "2025-01-01T02:00:00") athena_deps "2025-01-01 02:00:00" w0
    = Ok (Saved 1, w1)
    /\ athena_run (athena_doc "2025-01-02T02:00:00") athena_deps "2025-01-02 02:00:00" w1
       = Ok (Saved 2, w2)
    /\ version_names w1 = ["v1"]
    /\ version_names w2 = ["v1"; "v2"]
    /\ (v_md <$> (snd <$> sboms w1)) = [Some md1]
    /\ sorted (map_to_list new_info)
       = [ ("C Compiler", "GNU 13.1.0"); ("CXX Compiler", "GNU 13.1.0");
           ("Platform", "x86_64-el9-gcc13-opt"); ("lcg_version", "106b_ATLAS_1");
           ("platform", "x86_64-el9-gcc13-opt") ]
    /\ sorted (map_to_list (VersionSbom.parse_build_info_from_markdown (Some md1)))
       = [ ("C Compiler", "GNU 13.1.0"); ("CXX Compiler", "GNU 13.1.0");
           ("Platform", "x86_64-el9-gcc13-opt"); ("lcg_version", "106b_ATLAS_1") ].
Proof.
  intros w0 new_info. do 3 eexists.
  split; [by vm_compute|]. split; [by vm_compute|].
  split; [by vm_compute|]. split; [by vm_compute|].
  split; [by vm_compute|]. split; by vm_compute.
Qed.

(** The script of StatAnalysis, which passes no build information, does
    report the second of two identical runs as a duplicate. *)
Lemma stat_second_run_duplicate (doc : Sbom) (md : option string) (txt : option string) :
  exists w1,
    VersionSbom.main_stat (mkWorkdir (Some doc) md txt []) = Ok (Saved 1, w1)
    /\ VersionSbom.main_stat (mkWorkdir (Some doc) md txt (sboms w1))
       = Ok (Duplicate 1, mkWorkdir None None txt (sboms w1))
    /\ version_names w1 = ["v1"].
Proof.
  eexists. split; [reflexivity|]. split; [|reflexivity].
  unfold VersionSbom.main_stat, VersionSbom.main_with. simpl.
  by rewrite bool_decide_eq_true_2.
Qed.

(** *** Every log that lets the generation through *)

Lemma try_steps_invariant {S} (P : S -> Prop) (steps : list (S -> result S)) :
  Forall (fun step => forall st st', P st -> step st = Ok st' -> P st') steps ->
  forall st, P st -> P (try_steps steps st).
Proof.
  induction 1 as [|step steps Hstep _ IH]; intros st Hst; simpl; [done|].
  destruct (step st) as [st'|] eqn:Hs; [|done]. apply IH. by eapply Hstep.
Qed.

Lemma try_steps_app {S} (l1 l2 : list (S -> result S)) (st : S) :
  Forall (fun step => forall st, exists st', step st = Ok st') l1 ->
  try_steps (l1 ++ l2) st = try_steps l2 (try_steps l1 st).
Proof.
  intros H. revert st. induction H as [|step l1 Hstep _ IH]; intros st; simpl; [done|].
  destruct (Hstep st) as [st' ->]. apply IH.
Qed.

Lemma index_guarded {X} (l : list X) (i : nat) :
  (i <? length l)%nat = true -> exists x, Py.index l i = Ok x.
Proof.
  intros H%Nat.ltb_lt. unfold Py.index.
  destruct (lookup_lt_is_Some_2 l i H) as [x ->]. eauto.
Qed.

(** A labelled line, read from position [i] of the log into key [key]. *)
Lemma labelled_step_total (lines : list string) (i : nat) (label key : string)
    (info : gmap string string) :
  exists info',
    (if (i <? length lines)%nat then
       line ← Py.index lines i;
       match Re.search (Pat.labelled label) (Py.strip line) with
       | Some m => v ← Py.not_none (Re.group 1 m); Ok (<[key := v]> info)
       | None => Ok info
       end
     else Ok info) = Ok info'.
Proof.
  destruct (i <? length lines)%nat eqn:Hi; [|eauto].
  destruct (index_guarded lines i Hi) as [line ->]. simpl.
  destruct (Re.search _ _) as [m|] eqn:Hs; [|eauto].
  assert (Re.sets 1 (Pat.labelled label) = true) as Hsets
    by (unfold Pat.labelled; cbn [Re.seq Re.sets]; by rewrite orb_true_r).
  destruct (search_groups _ _ _ 1%nat Hs Hsets) as [v ->]. simpl. eauto.
Qed.

Lemma backend_steps_total lines :
  Forall (fun step : gmap string string -> result (gmap string string) =>
            forall st, exists st', step st = Ok st')
    (BackendAnalysisBase.build_info_steps lines).
Proof.
  unfold BackendAnalysisBase.build_info_steps.
  repeat (apply Forall_cons; split; [intros st; apply labelled_step_total|]).
  by apply Forall_nil.
Qed.

(** The generation goes on only if the release line was found. *)
Lemma athena_lcg_found raw :
  Py.truthy_opt (Athena.lcg_version (Athena.parse_build_info (Some raw))) = true ->
  exists m, Athena.first_line_match Pat.lcg_release (Py.readlines raw) = Some m.
Proof.
  intros H.
  destruct (Athena.first_line_match Pat.lcg_release (Py.readlines raw)) as [m|] eqn:Hm;
    [eauto|].
  exfalso.
  assert (Athena.lcg_version (Athena.parse_build_info (Some raw)) = None) as Hnone.
  { unfold Athena.parse_build_info.
    apply (try_steps_invariant (fun r => Athena.lcg_version r = None)); [|done].
    unfold Athena.build_info_steps. rewrite Hm.
    repeat (apply Forall_cons; split;
            [intros st st' Hst Hstep;
             repeat match type of Hstep with
                    | context [if ?b then _ else _] => destruct b
                    | context [Py.index ?l ?i] => destruct (Py.index l i); simpl in Hstep
                    | context [Re.search ?r ?s] => destruct (Re.search r s)
                    | context [Athena.first_line_match ?r ?l] =>
                        destruct (Athena.first_line_match r l)
                    | context [Athena.package_rules ?l ?b ?p] =>
                        destruct (Athena.package_rules l b p); simpl in Hstep
                    end;
             try discriminate; injection Hstep as <-; exact Hst|]).
    by apply Forall_nil. }
  by rewrite Hnone in H.
Qed.

Lemma first_line_match_groups rx lines m n :
  Athena.first_line_match rx lines = Some m -> Re.sets n rx = true ->
  is_Some (Re.group n m).
Proof.
  intros H Hn. induction lines as [|line rest IH]; [done|]. simpl in H.
  destruct (Re.search rx (Py.strip line)) eqn:Hs; [|by apply IH].
  injection H as ->. by apply (search_groups _ _ _ n Hs).
Qed.

Lemma file_info_platform raw :
  Py.truthy_opt (Athena.lcg_version (Athena.parse_build_info (Some raw))) = true ->
  is_Some (VersionSbom.parse_build_info_from_file (Some raw) !! "platform").
Proof.
  intros [m Hm]%athena_lcg_found.
  unfold VersionSbom.parse_build_info_from_file, VersionSbom.file_steps.
  rewrite try_steps_app by apply backend_steps_total.
  simpl. rewrite Hm.
  destruct (first_line_match_groups _ _ _ 1%nat Hm) as [v1 ->]; [done|].
  destruct (first_line_match_groups _ _ _ 2%nat Hm) as [v2 ->]; [done|].
  simpl. rewrite lookup_insert_eq. eauto.
Qed.

Lemma markdown_info_no_platform md :
  VersionSbom.parse_build_info_from_markdown md !! "platform" = None.
Proof.
  destruct md as [raw|]; [|done]. unfold VersionSbom.parse_build_info_from_markdown.
  apply (try_steps_invariant (fun info : gmap string string => info !! "platform" = None));
    [|done].
  unfold VersionSbom.markdown_steps. simpl.
  repeat (apply Forall_cons; split;
          [intros st st' Hst Hstep;
           destruct (Re.search _ _) as [m|]; [|by injection Hstep as <-];
           destruct (Re.group 1 m); [|done]; simpl in Hstep;
           injection Hstep as <-; by rewrite lookup_insert_ne|]).
  by apply Forall_nil.
Qed.

(** Build information with the key platform and build information without
    it never give the same signature. *)
Lemma signature_platform_differs d1 d2 (recent new : gmap string string) :
  recent !! "platform" = None -> is_Some (new !! "platform") ->
  get_sbom_signature d1 (Some recent) <> get_sbom_signature d2 (Some new).
Proof.
  intros Hr [v Hn] Heq. unfold get_sbom_signature in Heq.
  apply app_inj_1 in Heq as [_ Heq]; [|done].
  assert (new <> ∅) as Hne by (intros ->; by rewrite lookup_empty in Hn).
  rewrite (bool_decide_eq_false_2 (new = ∅)) in Heq by done.
  destruct (bool_decide (recent = ∅)); [done|].
  injection Heq as Heq.
  assert (recent = new) as ->; [|congruence].
  apply map_to_list_inj.
  transitivity (sorted (map_to_list recent));
    [symmetry; apply merge_sort_Permutation|].
  rewrite Heq. apply merge_sort_Permutation.
Qed.

(** The same for every input: whenever the generation for Athena goes
    through, two runs in a row on the same build log, starting with no
    stored version, save v1 and then v2; the second run is never reported
    as a duplicate, whatever the two manifests are. *)
Theorem athena_two_runs_two_versions (log : string) (doc1 doc2 : Sbom)
    (deps : list Dependency) (now1 now2 : string) :
  Py.truthy_opt (Athena.lcg_version (Athena.parse_build_info (Some log))) = true ->
  Py.truthy_opt (Athena.platform (Athena.parse_build_info (Some log))) = true ->
  exists w1 w2,
    athena_run doc1 deps now1 (mkWorkdir None None (Some log) []) = Ok (Saved 1, w1)
    /\ athena_run doc2 deps now2 w1 = Ok (Saved 2, w2)
    /\ version_names w2 = ["v1"; "v2"].
Proof.
  intros Hl Hp. unfold athena_run, athena_generate. simpl build_txt.
  rewrite Hl, Hp. simpl negb. simpl orb. cbv iota.
  eexists. eexists. split; [reflexivity|]. simpl build_txt. rewrite Hl, Hp.
  simpl negb. simpl orb. cbv iota.
  unfold VersionSbom.main, VersionSbom.main_with. simpl new_json. cbv iota.
  change (VersionSbom.most_recent _ 0 None) with (1, Some (mkVdir (Some doc1)
    (Some (Athena.generate_markdown_report "24.0"
             (Some (Athena.parse_build_info (Some log))) deps now1)))).
  cbv iota beta. simpl v_json. simpl v_md. simpl build_txt. cbv iota.
  rewrite bool_decide_eq_false_2.
  - split; reflexivity.
  - apply signature_platform_differs;
      [apply markdown_info_no_platform | by apply file_info_platform].
Qed.

Lemma athena_two_runs_two_versions_witness :
  Py.truthy_opt (Athena.lcg_version (Athena.parse_build_info (Some athena_log))) = true
  /\ exists w1 w2,
       athena_run (athena_doc "t1") athena_deps "t1"
         (mkWorkdir None None (Some athena_log) []) = Ok (Saved 1, w1)
       /\ athena_run (athena_doc "t2") athena_deps "t2" w1 = Ok (Saved 2, w2)
       /\ version_names w2 = ["v1"; "v2"].
Proof.
  split; [reflexivity|].
  exact (athena_two_runs_two_versions athena_log (athena_doc "t1") (athena_doc "t2")
           athena_deps "t1" "t2" eq_refl eq_refl).
Defined.

(** ** Version directories and the version gate *)

Lemma digits_go_acc d : forall p b,
  d <> Decimal.Nil \/ b = true ->
  Py.digits_go (Z.pos p) b (NilEmpty.string_of_uint d) = Some (Z.pos (Pos.of_uint_acc d p)).
Proof.
  induction d; intros p b Hb; cbn [NilEmpty.string_of_uint Py.digits_go Pos.of_uint_acc];
    try (change (Py.isdigit _) with true; cbn match; unfold Py.digit_val; cbn [Py.code];
         match goal with |- Py.digits_go ?a _ _ = Some (Z.pos (Pos.of_uint_acc _ ?q)) =>
           replace a with (Z.pos q) by (unfold Py.code; simpl N_of_ascii; lia) end;
         apply IHd; by right).
  destruct Hb as [? | ->]; done.
Qed.

Lemma digits_go_uint d : forall b,
  d <> Decimal.Nil \/ b = true ->
  Py.digits_go 0 b (NilEmpty.string_of_uint d) = Some (Z.of_N (Pos.of_uint d)).
Proof.
  induction d; intros b Hb; cbn [NilEmpty.string_of_uint Py.digits_go Pos.of_uint];
    try (change (Py.isdigit _) with true; cbn match; unfold Py.digit_val; cbn [Py.code]).
  1: by destruct Hb as [? | ->].
  1: apply IHd; by right.
  all: match goal with |- Py.digits_go ?a _ _ = Some (Z.of_N (N.pos (Pos.of_uint_acc _ ?q))) =>
         replace a with (Z.pos q) by (unfold Py.code; simpl N_of_ascii; lia) end;
       apply digits_go_acc; by right.
Qed.

Lemma string_of_uint_digits d :
  forall c, In c (list_ascii_of_string (NilEmpty.string_of_uint d)) -> Py.isdigit c = true.
Proof.
  induction d; cbn [NilEmpty.string_of_uint list_ascii_of_string In]; intros c Hc;
    try done; destruct Hc as [<-|Hc]; auto.
Qed.

Lemma to_uint_not_nil p : Pos.to_uint p <> Decimal.Nil.
Proof.
  intros H. pose proof (DecimalPos.Unsigned.of_to p) as Hp. rewrite H in Hp. done.
Qed.

Lemma drop_while_end_id p s :
  (forall c, In c (list_ascii_of_string s) -> p c = false) -> Py.drop_while_end p s = s.
Proof.
  induction s as [|c r IH]; [done|]. intros H. cbn [Py.drop_while_end].
  rewrite IH by (intros; apply H; by right).
  destruct r; [|done]. by rewrite (H c) by by left.
Qed.

Lemma isdigit_not_space c : Py.isdigit c = true -> Py.c_isspace c = false.
Proof. by destruct c as [[] [] [] [] [] [] [] []]. Qed.

Lemma int_of_uint d :
  d <> Decimal.Nil ->
  Py.int (NilEmpty.string_of_uint d) = Some (Z.of_N (Pos.of_uint d))
  /\ Py.int (String "-" (NilEmpty.string_of_uint d)) = Some (- Z.of_N (Pos.of_uint d)).
Proof.
  intros Hd. pose proof (string_of_uint_digits d) as Hdig.
  pose proof (digits_go_uint d false (or_introl Hd)) as Hgo.
  unfold Py.int, Py.c_strip.
  destruct (NilEmpty.string_of_uint d) as [|c r] eqn:Hs; [by destruct d|].
  assert (Hc : Py.isdigit c = true) by (apply Hdig; by left).
  assert (Hnot : forall x, In x (list_ascii_of_string (String c r)) -> Py.c_isspace x = false)
    by (intros x Hx; apply isdigit_not_space, Hdig, Hx).
  split.
  - cbn [Py.drop_while]. rewrite (isdigit_not_space c Hc), drop_while_end_id by done.
    assert (c <> "+"%char /\ c <> "-"%char) as [H1 H2] by (split; intros ->; done).
    unfold Py.unsigned_int.
    destruct c as [[] [] [] [] [] [] [] []]; try done.
  - cbn [Py.drop_while]. change (Py.c_isspace "-") with false. cbn match.
    rewrite drop_while_end_id.
    + unfold Py.unsigned_int. by rewrite Hgo.
    + intros x [<-|Hx]; [done|]. by apply Hnot.
Qed.

Lemma int_str_int z : Py.int (Py.str_int z) = Some z.
Proof.
  unfold Py.str_int. pose proof (DecimalZ.of_to z) as Hz.
  destruct z as [|p|p]; [done| |];
    cbn [Z.to_int NilZero.string_of_int Z.of_int] in *; unfold Z.of_uint in Hz;
    pose proof (to_uint_not_nil p) as Hp;
    replace (NilZero.string_of_uint (Pos.to_uint p))
      with (NilEmpty.string_of_uint (Pos.to_uint p)) by (by destruct (Pos.to_uint p));
    destruct (int_of_uint _ Hp) as [H1 H2].
  - by rewrite H1, Hz.
  - rewrite H2. f_equal. lia.
Qed.

Lemma version_num_str_int n : version_num (Dirent ("v" ++ Py.str_int n) true) = Some n.
Proof.
  change ("v" ++ Py.str_int n) with (String "v" (Py.str_int n)).
  unfold version_num. cbn [d_is_dir d_name andb Py.drop].
  replace (Py.startswith "v" (String "v" (Py.str_int n))) with true
    by (unfold Py.startswith; cbn; by destruct (Py.str_int n)).
  apply int_str_int.
Qed.

Lemma version_dirs_app l1 l2 : version_dirs (l1 ++ l2) = (version_dirs l1 ++ version_dirs l2)%list.
Proof. induction l1 as [|item l1 IH]; [done|]. cbn. destruct (version_num item); by rewrite IH. Qed.

Lemma max_list_app x l y : Py.max_list x (l ++ [y])%list = Z.max (Py.max_list x l) y.
Proof. unfold Py.max_list. by rewrite foldl_app. Qed.

Lemma max_list_max a b l : Py.max_list (Z.max a b) l = Z.max a (Py.max_list b l).
Proof.
  revert b. induction l as [|y l IH]; intros b; [done|].
  unfold Py.max_list in *. cbn. by rewrite <- IH, <- Z.max_assoc.
Qed.

(** X1. The name that [main] gives a version directory reads back as its
    number: for every integer [n], the scan of [get_next_version_number]
    parses the directory name v + str(n) to [n], as [int(str(n))] is [n]. *)
Theorem version_dir_name_round_trip (n : Z) :
  version_num (Dirent ("v" ++ Py.str_int n) true) = Some n
  /\ Py.int (Py.str_int n) = Some n.
Proof. split; [apply version_num_str_int | apply int_str_int]. Qed.

(** X2. The number [n] that [get_next_version_number] returns is fresh: no
    directory of the listing bears the name v + str(n), and once a
    directory of that name is added the function returns [n + 1]. *)
Theorem next_version_number_fresh (items : list dirent) :
  let n := get_next_version_number (Some items) in
  (forall item, item ∈ items -> d_is_dir item = true -> d_name item <> "v" ++ Py.str_int n)
  /\ get_next_version_number (Some (items ++ [Dirent ("v" +:+ Py.str_int n) true])%list) = n + 1.
Proof.
  intros n. split.
  - intros item Hin Hdir Hname.
    assert (Hn : n ∈ version_dirs items).
    { apply elem_of_version_dirs. exists item, (Py.str_int n).
      split_and!; [done | done | done | apply int_str_int]. }
    subst n. unfold get_next_version_number in Hn.
    destruct (version_dirs items) as [|x l]; [by apply elem_of_nil in Hn|].
    destruct (max_list_ge x l) as [Hx Hl].
    apply elem_of_cons in Hn as [Hn | Hn]; [lia|]. apply Hl in Hn. lia.
  - unfold get_next_version_number at 1. rewrite version_dirs_app.
    cbn [version_dirs]. rewrite version_num_str_int.
    subst n. unfold get_next_version_number.
    destruct (version_dirs items) as [|x l]; [done|].
    cbn [app]. rewrite max_list_app. lia.
Qed.

Lemma next_version_number_fresh_witness :
  let items := [Dirent "v1" true; Dirent "v3" true; Dirent "v4" false] in
  get_next_version_number (Some items) = 4
  /\ Dirent "v3" true ∈ items /\ d_name (Dirent "v3" true) <> "v4"
  /\ get_next_version_number (Some (items ++ [Dirent "v4" true])%list) = 5.
Proof.
  intros items. destruct (next_version_number_fresh items) as [Hfresh Hnext].
  split; [reflexivity|]. split; [apply elem_of_cons; right; by left|].
  split; [|exact Hnext].
  apply (Hfresh (Dirent "v3" true)); [apply elem_of_cons; right; by left | reflexivity].
Defined.

Lemma most_recent_max items : forall m d,
  (VersionSbom.most_recent items m d).1 = Py.max_list m (version_dirs (fst <$> items)).
Proof.
  induction items as [|item items IH]; intros m d; [done|].
  cbn [VersionSbom.most_recent fmap list_fmap version_dirs].
  destruct (version_num item.1) as [n|]; [|apply IH].
  unfold Py.max_list. cbn [foldl]. destruct (Z.ltb_spec m n); rewrite IH; unfold Py.max_list;
    f_equal; lia.
Qed.

(** X3. The version that [main] computes with its own scan (the largest
    parsed suffix above 0, plus one) is the number of
    [get_next_version_number] on the same listing whenever that one is
    positive, and 1 otherwise: the scan of [main] ignores negative
    suffixes. *)
Theorem main_version_vs_next_version_number (items : list (dirent * vdir)) :
  (VersionSbom.most_recent items 0 None).1 + 1
  = Z.max 1 (get_next_version_number (Some (fst <$> items))).
Proof.
  rewrite most_recent_max. unfold get_next_version_number.
  destruct (version_dirs _) as [|n ns]; [done|].
  change (Py.max_list 0 (n :: ns)) with (Py.max_list (Z.max 0 n) ns).
  rewrite max_list_max. lia.
Qed.

Lemma most_recent_ge items : forall m d,
  m <= (VersionSbom.most_recent items m d).1
  /\ forall item n, item ∈ items -> version_num item.1 = Some n ->
       n <= (VersionSbom.most_recent items m d).1.
Proof.
  induction items as [|x items IH]; intros m d.
  - split; [done|]. intros ? ? Hin. by apply elem_of_nil in Hin.
  - cbn [VersionSbom.most_recent].
    destruct (version_num x.1) as [k|] eqn:Hk.
    + destruct (Z.ltb_spec m k) as [Hlt|Hge].
      * destruct (IH k (Some x.2)) as [H1 H2]. split; [lia|].
        intros item n [->|Hin]%elem_of_cons Hn; [|by eapply H2].
        rewrite Hk in Hn. injection Hn as ->. done.
      * destruct (IH m d) as [H1 H2]. split; [done|].
        intros item n [->|Hin]%elem_of_cons Hn; [|by eapply H2].
        rewrite Hk in Hn. injection Hn as ->. lia.
    + destruct (IH m d) as [H1 H2]. split; [done|].
      intros item n [->|Hin]%elem_of_cons Hn; [|by eapply H2]. congruence.
Qed.

Lemma most_recent_app l1 l2 m d :
  VersionSbom.most_recent (l1 ++ l2) m d
  = VersionSbom.most_recent l2 (VersionSbom.most_recent l1 m d).1
      (VersionSbom.most_recent l1 m d).2.
Proof.
  revert m d. induction l1 as [|x l1 IH]; intros m d; [done|].
  cbn [app VersionSbom.most_recent].
  destruct (version_num x.1) as [k|]; [destruct (m <? k)|]; apply IH.
Qed.

Lemma commit_fresh vname files items :
  (forall item, item ∈ items -> d_name item.1 = vname -> d_is_dir item.1 = false) ->
  forall items', VersionSbom.commit vname files items = Ok items' ->
    items' = (items ++ [(Dirent vname true, files)])%list.
Proof.
  induction items as [|x items IH]; intros Hfresh items' Hc; cbn in Hc.
  - by injection Hc as <-.
  - case_bool_decide as Hname.
    + rewrite (Hfresh x) in Hc by (done || by left). done.
    + destruct (VersionSbom.commit vname files items) as [r|e] eqn:Hr; [|done].
      cbn in Hc. injection Hc as <-. cbn. f_equal. apply IH; [|done].
      intros item Hin. apply Hfresh. by right.
Qed.



(** No version directory bears the name of the next version. *)
Lemma next_name_fresh (items : list (dirent * vdir)) item :
  item ∈ items ->
  d_name item.1 = "v" ++ Py.str_int ((VersionSbom.most_recent items 0 None).1 + 1) ->
  d_is_dir item.1 = false.
Proof.
  intros Hin Hname. destruct (d_is_dir item.1) eqn:Hdir; [|done].
  destruct (most_recent_ge items 0 None) as [_ Hge].
  specialize (Hge item ((VersionSbom.most_recent items 0 None).1 + 1) Hin).
  assert (version_num item.1 = Some ((VersionSbom.most_recent items 0 None).1 + 1)) as Hn.
  { rewrite <- (version_num_str_int ((VersionSbom.most_recent items 0 None).1 + 1)).
    unfold version_num. cbn [d_is_dir d_name]. by rewrite Hdir, Hname. }
  specialize (Hge Hn). lia.
Qed.

Lemma main_saved_shape
    (new_build_info : workdir -> option (gmap string string))
    (recent_build_info : option string -> option (gmap string string))
    (w w1 : workdir) (v : Z) :
  VersionSbom.main_with new_build_info recent_build_info w = Ok (Saved v, w1) ->
  exists doc,
    new_json w = Some doc
    /\ v = (VersionSbom.most_recent (sboms w) 0 None).1 + 1
    /\ 1 <= v
    /\ (forall item n, item ∈ sboms w -> version_num item.1 = Some n -> n < v)
    /\ sboms w1
       = (sboms w ++ [(Dirent ("v" ++ Py.str_int v) true, mkVdir (Some doc) (new_md w))])%list
    /\ new_json w1 = None /\ new_md w1 = None /\ build_txt w1 = build_txt w.
Proof.
  unfold VersionSbom.main_with. intros Hmain.
  destruct (new_json w) as [doc|] eqn:Hdoc; [|done]. exists doc.
  destruct (most_recent_ge (sboms w) 0 None) as [H0 Hge].
  pose proof (next_name_fresh (sboms w)) as Hfresh.
  destruct (VersionSbom.most_recent (sboms w) 0 None) as [max_version dir] eqn:Hrecent.
  cbn [fst] in *.
  match type of Hmain with (if ?b then _ else _) = _ => destruct b end; [done|].
  destruct (VersionSbom.commit _ _ (sboms w)) as [items|e] eqn:Hcommit; [|done].
  cbn in Hmain. injection Hmain as <- <-.
  apply commit_fresh in Hcommit; [|done].
  split_and!; try done; [lia|].
  intros item n Hin Hn. specialize (Hge item n Hin Hn). lia.
Qed.

(** X4. When [main] saves version [v], [v] is one more than the largest
    stored version number, at least 1 and above the number of every
    stored directory; the stored directories are kept as they are and
    the directory v + str(v) is added with the manifest and the report
    of the working directory, which are moved away; the build log is
    left in place. *)
Theorem main_saved_appends
    (new_build_info : workdir -> option (gmap string string))
    (recent_build_info : option string -> option (gmap string string))
    (w w1 : workdir) (v : Z) :
  VersionSbom.main_with new_build_info recent_build_info w = Ok (Saved v, w1) ->
  exists doc,
    new_json w = Some doc
    /\ v = (VersionSbom.most_recent (sboms w) 0 None).1 + 1
    /\ 1 <= v
    /\ (forall item n, item ∈ sboms w -> version_num item.1 = Some n -> n < v)
    /\ sboms w1
       = (sboms w ++ [(Dirent ("v" ++ Py.str_int v) true, mkVdir (Some doc) (new_md w))])%list
    /\ new_json w1 = None /\ new_md w1 = None /\ build_txt w1 = build_txt w.
Proof. apply main_saved_shape. Qed.

Lemma main_saved_appends_witness :
  let doc := mkSbom None None None None None None (Some []) in
  let old := (Dirent "v3" true, mkVdir None None) in
  let w := mkWorkdir (Some doc) (Some "report") None [old; (Dirent "notes" false, mkVdir None None)] in
  exists w1,
    VersionSbom.main_stat w = Ok (Saved 4, w1)
    /\ sboms w1 = (sboms w ++ [(Dirent "v4" true, mkVdir (Some doc) (Some "report"))])%list.
Proof.
  intros doc old w.
  destruct (VersionSbom.main_stat w) as [[o w1]|e] eqn:Hm; [|by vm_compute in Hm].
  assert (o = Saved 4) as -> by (vm_compute in Hm; congruence).
  exists w1. split; [done|].
  destruct (main_saved_appends (fun _ => None) (fun _ => None) w w1 4 Hm) as (d & Hd & _ & _ & _ & Hs & _).
  rewrite Hs. injection Hd as <-. done.
Defined.



(** After a run that saved version [v], the scan for the most recent
    version finds the directory just filled. *)
Lemma most_recent_after_save (items : list (dirent * vdir)) (files : vdir) :
  let v := (VersionSbom.most_recent items 0 None).1 + 1 in
  VersionSbom.most_recent (items ++ [(Dirent ("v" ++ Py.str_int v) true, files)]) 0 None
  = (v, Some files).
Proof.
  intros v. rewrite most_recent_app. cbn [VersionSbom.most_recent fst snd].
  rewrite version_num_str_int.
  replace ((VersionSbom.most_recent items 0 None).1 <? v) with true; [done|].
  symmetry. apply Z.ltb_lt. lia.
Qed.

Lemma second_run_duplicate
    (new_build_info : workdir -> option (gmap string string))
    (recent_build_info : option string -> option (gmap string string))
    (w w1 : workdir) (v : Z) (doc doc' : Sbom) (md' : option string) :
  VersionSbom.main_with new_build_info recent_build_info w = Ok (Saved v, w1) ->
  new_json w = Some doc ->
  get_sbom_signature doc (recent_build_info (new_md w))
  = get_sbom_signature doc'
      (new_build_info (mkWorkdir (Some doc') md' (build_txt w1) (sboms w1))) ->
  VersionSbom.main_with new_build_info recent_build_info
    (mkWorkdir (Some doc') md' (build_txt w1) (sboms w1))
  = Ok (Duplicate v, mkWorkdir None None (build_txt w1) (sboms w1)).
Proof.
  intros Hmain Hdoc Hsig.
  apply main_saved_shape in Hmain as (d & Hd & Hv & _ & _ & Hs & _).
  rewrite Hdoc in Hd. injection Hd as <-.
  unfold VersionSbom.main_with. cbn [new_json sboms build_txt new_md].
  rewrite Hs at 1. rewrite Hv at 1. rewrite most_recent_after_save, <- Hv.
  cbn [v_json v_md]. rewrite bool_decide_true by done. done.
Qed.

(** X6. The script of StatAnalysis is idempotent whatever is stored: after a
    run that saved version [v], a run on a manifest of the same
    signature reports a duplicate of [v], removes the two working files
    and stores nothing. *)
Theorem stat_rerun_is_duplicate (w w1 : workdir) (v : Z) (doc doc' : Sbom)
    (md' : option string) :
  VersionSbom.main_stat w = Ok (Saved v, w1) ->
  new_json w = Some doc ->
  get_sbom_signature doc' None = get_sbom_signature doc None ->
  VersionSbom.main_stat (mkWorkdir (Some doc') md' (build_txt w1) (sboms w1))
  = Ok (Duplicate v, mkWorkdir None None (build_txt w1) (sboms w1)).
Proof. intros Hmain Hdoc Hsig. by eapply second_run_duplicate. Qed.

Lemma stat_rerun_is_duplicate_witness :
  let doc t := mkSbom None (Some "CycloneDX") (Some "1.4") None (Some 1)
                 (Some (mkMetadata (Some t) [] None))
                 (Some [mkComponent (Some "library") (Some "numpy") (Some "1.26.4") []]) in
  let w := mkWorkdir (Some (doc "2025-01-01")) (Some "report") None
             [(Dirent "v2" true, mkVdir None None)] in
  exists w1,
    VersionSbom.main_stat w = Ok (Saved 3, w1)
    /\ VersionSbom.main_stat (mkWorkdir (Some (doc "2025-01-02")) (Some "report")
                                (build_txt w1) (sboms w1))
       = Ok (Duplicate 3, mkWorkdir None None (build_txt w1) (sboms w1)).
Proof.
  intros doc w.
  destruct (VersionSbom.main_stat w) as [[o w1]|e] eqn:Hm; [|by vm_compute in Hm].
  assert (o = Saved 3) as -> by (vm_compute in Hm; congruence).
  exists w1. split; [reflexivity|].
  apply (stat_rerun_is_duplicate w w1 3 (doc "2025-01-01") (doc "2025-01-02") (Some "report") Hm);
    reflexivity.
Defined.

(** X7. Whatever is stored, [main] of the Athena script never reports a
    duplicate when a line of the build log holds an LCG release: the
    build information read from the log then has the key platform, which
    the one read back from a report never has. *)
Theorem athena_main_never_duplicate (w : workdir) (log : string) :
  build_txt w = Some log ->
  is_Some (Athena.first_line_match Pat.lcg_release (Py.readlines log)) ->
  forall v w', VersionSbom.main w <> Ok (Duplicate v, w').
Proof.
  intros Hlog [m Hm] v w' Hmain.
  assert (Hnew : is_Some (VersionSbom.parse_build_info_from_file (Some log) !! "platform")).
  { unfold VersionSbom.parse_build_info_from_file, VersionSbom.file_steps.
    rewrite try_steps_app by apply backend_steps_total.
    cbn [try_steps]. rewrite Hm.
    destruct (first_line_match_groups _ _ _ 1%nat Hm eq_refl) as [v1 ->].
    destruct (first_line_match_groups _ _ _ 2%nat Hm eq_refl) as [v2 ->].
    cbn. by rewrite lookup_insert_eq. }
  unfold VersionSbom.main, VersionSbom.main_with in Hmain. rewrite Hlog in Hmain.
  destruct (new_json w) as [doc|]; [|done].
  destruct (VersionSbom.most_recent (sboms w) 0 None) as [max_version [dir|]].
  - destruct (v_json dir) as [recent|].
    + case_bool_decide as Hsig.
      * by eapply signature_platform_differs, Hsig; [apply markdown_info_no_platform|].
      * by destruct (VersionSbom.commit _ _ _).
    + by destruct (VersionSbom.commit _ _ _).
  - by destruct (VersionSbom.commit _ _ _).
Qed.

Lemma athena_main_never_duplicate_witness :
  let w := mkWorkdir (Some (athena_doc "t2")) (Some "report") (Some athena_log)
             [(Dirent "v1" true, mkVdir (Some (athena_doc "t1")) (Some "report"))] in
  is_Some (Athena.first_line_match Pat.lcg_release (Py.readlines athena_log))
  /\ VersionSbom.main w
     <> Ok (Duplicate 1, mkWorkdir None None (Some athena_log) (sboms w)).
Proof.
  intros w.
  assert (is_Some (Athena.first_line_match Pat.lcg_release (Py.readlines athena_log))) as H.
  { eexists. vm_compute. reflexivity. }
  split; [exact H|]. by apply (athena_main_never_duplicate w athena_log eq_refl H).
Defined.

(** ** Signatures, missing packages and the set of records *)

Lemma sorted_inv l1 l2 : sorted l1 = sorted l2 -> l1 ≡ₚ l2.
Proof.
  intros H. transitivity (sorted l1); [symmetry; apply merge_sort_Permutation|].
  rewrite H. apply merge_sort_Permutation.
Qed.

(** X8. Two signatures are equal exactly when the (name, version) pairs of
    the components agree up to their order, the dictionaries of the
    metadata properties are equal, and the build information is the
    same, [None] and the empty dictionary counting as one. *)
Theorem signature_equal_iff (d1 d2 : Sbom) (b1 b2 : option (gmap string string)) :
  get_sbom_signature d1 b1 = get_sbom_signature d2 b2
  <-> component_pairs d1 ≡ₚ component_pairs d2
      /\ props_dict (properties_of d1) = props_dict (properties_of d2)
      /\ effective_build_info b1 = effective_build_info b2.
Proof.
  unfold get_sbom_signature, effective_build_info. fold (component_pairs d1) (component_pairs d2).
  split.
  - intros H. injection H as Hc Hp Hb. split_and!.
    + by apply sorted_inv.
    + by apply (map_to_list_inj _ _), sorted_inv.
    + destruct b1 as [i1|], b2 as [i2|]; repeat case_bool_decide; try done.
      injection Hb as Hb. f_equal. by apply (map_to_list_inj _ _), sorted_inv.
  - intros (Hc & Hp & Hb). rewrite (sorted_permutation _ _ Hc), Hp. do 2 f_equal.
    destruct b1 as [i1|], b2 as [i2|]; repeat case_bool_decide; try done; congruence.
Qed.

Lemma find_missing_filter bp lcg :
  find_missing_packages bp lcg = filter (fun pkg => matched lcg pkg = false) bp.
Proof. unfold find_missing_packages. by rewrite missing_fold. Qed.

Lemma matched_mono (lcg lcg' : gmap string string) pkg :
  lcg ⊆ lcg' -> matched lcg pkg = true -> matched lcg' pkg = true.
Proof.
  intros Hsub. rewrite !matched_spec.
  assert (Hex : forall p, exact_match p lcg -> exact_match p lcg').
  { intros p [v Hv]. exists v. by eapply lookup_weaken. }
  assert (Hci : forall p, case_insensitive_match p lcg -> case_insensitive_match p lcg').
  { intros p (k & [v Hv] & Hk). exists k. split; [|done]. exists v. by eapply lookup_weaken. }
  intros [H|[H|(mapped & Hm & [H|H])]]; [by left; apply Hex | by right; left; apply Hci | |].
  - right; right. exists mapped. split; [done|]. left. by apply Hex.
  - right; right. exists mapped. split; [done|]. right. by apply Hci.
Qed.

Lemma filter_sublist_impl {A} (P Q : A -> Prop) `{!forall x, Decision (P x)}
    `{!forall x, Decision (Q x)} (l : list A) :
  (forall x, P x -> Q x) -> filter P l `sublist_of` filter Q l.
Proof.
  intros HPQ. induction l as [|x l IH]; [done|].
  rewrite !filter_cons. destruct (decide (P x)) as [HP|HP].
  - rewrite decide_True by auto. by constructor.
  - destruct (decide (Q x)); [by constructor|done].
Qed.

(** X9. [find_missing_packages] returns the build packages it keeps in their
    order; with no LCG package it returns all of them; applied to its
    own result it changes nothing; and with more LCG packages it never
    reports a package that it did not report with fewer. *)
Theorem find_missing_packages_antitone (build_packages : list string)
    (lcg lcg' : gmap string string) :
  find_missing_packages build_packages lcg `sublist_of` build_packages
  /\ find_missing_packages build_packages ∅ = build_packages
  /\ find_missing_packages (find_missing_packages build_packages lcg) lcg
     = find_missing_packages build_packages lcg
  /\ (lcg ⊆ lcg' ->
      find_missing_packages build_packages lcg'
      `sublist_of` find_missing_packages build_packages lcg).
Proof.
  rewrite !find_missing_filter. split_and!.
  - apply sublist_filter.
  - induction build_packages as [|pkg l IH]; [done|].
    rewrite filter_cons, decide_True, IH; [done|].
    unfold matched, lower_keys, dict_has. rewrite map_to_list_empty. cbn.
    rewrite !lookup_empty.
    rewrite !bool_decide_false by (intros [? ?]; done).
    destruct (name_mappings !! pkg); [|done].
    by rewrite !bool_decide_false by (intros [? ?]; done).
  - induction build_packages as [|pkg l IH]; [done|].
    rewrite filter_cons. destruct (decide (matched lcg pkg = false)) as [H|H]; [|done].
    by rewrite filter_cons, decide_True, IH.
  - intros Hsub. apply filter_sublist_impl. intros pkg Hpkg.
    destruct (matched lcg pkg) eqn:Hm; [|done].
    by rewrite (matched_mono _ _ _ Hsub Hm) in Hpkg.
Qed.

Lemma find_missing_packages_antitone_witness :
  let lcg : gmap string string := {[ "ROOT" := "6.28" ]} in
  let lcg' : gmap string string := <[ "jsonmcpp" := "3.11" ]> lcg in
  let build := ["Acts"; "nlohmann_json"; "root"] in
  lcg ⊆ lcg'
  /\ find_missing_packages build lcg = ["Acts"; "nlohmann_json"]
  /\ find_missing_packages build lcg' = ["Acts"]
  /\ find_missing_packages build lcg' `sublist_of` find_missing_packages build lcg.
Proof.
  intros lcg lcg' build.
  assert (lcg ⊆ lcg') as Hsub by (by apply insert_subseteq).
  split; [exact Hsub|]. split; [by vm_compute|]. split; [by vm_compute|].
  by apply (find_missing_packages_antitone build lcg lcg').
Defined.

(** X10. Adding records to the set of dependencies keeps the records that
    were there, in place, and appends some of the new ones in the order
    they came; every record added is then in the set up to its name and
    version (the record that came first stays, with its source). *)
Theorem set_adds_first_wins (hash : string * option string -> Z)
    (ds s : list Dependency) :
  exists new,
    set_adds hash ds s = (s ++ new)%list
    /\ new `sublist_of` ds
    /\ (forall d, d ∈ ds ->
          exists e, e ∈ set_adds hash ds s /\ name e = name d /\ version e = version d).
Proof.
  revert s. induction ds as [|d ds IH]; intros s.
  - exists []. split_and!; [by rewrite app_nil_r | done |]. intros d Hd. by apply elem_of_nil in Hd.
  - unfold set_adds. cbn [foldl]. fold (set_adds hash ds (set_add hash d s)).
    destruct (IH (set_add hash d s)) as (new & Heq & Hsub & Hrep).
    unfold set_add in *. destruct (set_mem hash d s) eqn:Hmem.
    + exists new. split_and!; [done | by constructor |].
      intros x [->|Hx]%elem_of_cons; [|by apply Hrep].
      apply set_mem_spec in Hmem as (e & He & Hn & Hv). exists e. split_and!; [|done..].
      rewrite Heq. apply elem_of_app. by left.
    + exists (d :: new). split_and!; [by rewrite Heq, <- app_assoc | by constructor |].
      intros x [->|Hx]%elem_of_cons; [|by apply Hrep].
      exists d. split_and!; [|done..]. rewrite Heq. apply elem_of_app. left.
      apply elem_of_app. right. by left.
Qed.

Lemma set_adds_first_wins_witness :
  let hash : string * option string -> Z := fun _ => 0 in
  let a := mkDependency "ROOT" (Some "6.28") "LCG Website" "" in
  let b := mkDependency "ROOT" (Some "6.28") "cppDep.txt" "" in
  b ∈ [b]
  /\ set_adds hash [b] [a] = [a]
  /\ exists e, e ∈ set_adds hash [b] [a] /\ name e = name b /\ version e = version b.
Proof.
  intros hash a b. split; [by left|]. split; [reflexivity|].
  destruct (set_adds_first_wins hash [b] [a]) as (new & _ & _ & Hrep).
  apply Hrep. by left.
Defined.

(** ** What a match tells *)

Section Matching.
Context {A : Type}.
Implicit Types (k : @Re.cont A) (a : A).
Variable P : nat -> string -> Prop.

Lemma star_loop_matches (r : regex) (greedy : bool) :
  matching_body (A := A) P r (Re.run r) ->
  forall fuel, matching_body (A := A) P (Star greedy r) (Re.star_loop (Re.run r) greedy fuel).
Proof.
  intros Hbody fuel. induction fuel as [|fuel IH]; intros bos s cs k a H.
  - simpl in H. exists "", s, cs. split_and!; [done | constructor | done | done].
  - cbn [Re.star_loop] in H.
    assert (k "" s cs = Some a
            \/ Re.run r bos s cs (fun w1 s1 cs1 =>
                 if Py.truthy w1
                 then Re.star_loop (Re.run r) greedy fuel false s1 cs1
                        (fun w2 s2 cs2 => k (w1 ++ w2) s2 cs2)
                 else None) = Some a) as [Hstop|Hmore].
    { destruct greedy.
      - destruct (Re.run r bos s cs _) eqn:Hb; [right; congruence | by left].
      - destruct (k "" s cs) eqn:Hk; [left; congruence | by right]. }
    + exists "", s, cs. split_and!; [done | constructor | done | done].
    + apply Hbody in Hmore as (w1 & s1 & cs1 & -> & Hm1 & Hk1 & Hc1).
      destruct (Py.truthy w1) eqn:Hw1; [|done].
      apply IH in Hk1 as (w2 & s2 & cs2 & -> & Hm2 & Hk2 & Hc2).
      exists (w1 ++ w2), s2, cs2. rewrite sapp_assoc.
      split_and!; [done | by apply matches_star_more | done | auto].
Qed.

Lemma run_matches r : groups_ok P r -> matching_body (A := A) P r (Re.run r).
Proof.
  induction r as [|p|r1 IH1 r2 IH2|r1 IH1 r2 IH2|greedy r IH|m r IH| |];
    intros Hok bos s cs k a H; cbn [Re.run] in H; cbn [groups_ok] in Hok.
  - exists "", s, cs. split_and!; [done | constructor | done | done].
  - destruct s as [|c s]; [done|]. destruct (p c) eqn:Hp; [|done].
    exists (String c ""), s, cs. split_and!; [done | by constructor | done | done].
  - destruct Hok as [Hok1 Hok2].
    apply (IH1 Hok1) in H as (w1 & s1 & cs1 & -> & Hm1 & H & Hc1).
    apply (IH2 Hok2) in H as (w2 & s2 & cs2 & -> & Hm2 & H & Hc2).
    exists (w1 ++ w2), s2, cs2. rewrite sapp_assoc.
    split_and!; [done | by constructor | done | auto].
  - destruct Hok as [Hok1 Hok2]. destruct (Re.run r1 bos s cs k) eqn:H1.
    + injection H as ->. apply (IH1 Hok1) in H1 as (w & s' & cs' & ? & ? & ? & ?).
      exists w, s', cs'. split_and!; [done | by apply matches_alt_l | done | done].
    + apply (IH2 Hok2) in H as (w & s' & cs' & ? & ? & ? & ?).
      exists w, s', cs'. split_and!; [done | by apply matches_alt_r | done | done].
  - by apply (star_loop_matches r greedy (IH Hok)) in H.
  - destruct Hok as [HP Hok]. apply (IH Hok) in H as (w & s' & cs' & -> & Hm & H & Hc).
    exists w, s', ((m, w) :: cs'). split_and!; [done | by constructor | done |].
    intros Hcs n x [[= -> ->]|Hin]%elem_of_cons; [by eapply HP | by apply Hc].
  - destruct bos; [|done]. exists "", s, cs. split_and!; [done | constructor | done | done].
  - destruct s as [|c [|c' s]]; [| |done].
    + exists "", "", cs. split_and!; [done | constructor; by left | done | done].
    + destruct (Ascii.eqb_spec c Py.nl) as [->|]; [|done].
      exists "", (String Py.nl ""), cs. split_and!; [done | constructor; by right | done | done].
Qed.
End Matching.

Lemma lookup_caps_ok P cs n w : caps_ok P cs -> Re.lookup n cs = Some w -> P n w.
Proof.
  intros Hok. unfold Re.lookup. induction cs as [|[m x] cs IH]; [done|].
  cbn. destruct (Nat.eqb_spec m n) as [->|].
  - intros [= <-]. apply Hok. by left.
  - apply IH. intros ? ? ?. apply Hok. by right.
Qed.

Lemma at_pos_matches P rx bos pre s m :
  groups_ok P rx -> Re.at_pos rx bos pre s = Some m ->
  Re.before m = pre /\ s = Re.whole m ++ Re.after m
  /\ matches rx bos (Re.whole m) (Re.after m)
  /\ forall n w, Re.group n m = Some w -> P n w.
Proof.
  intros Hok. unfold Re.at_pos. intros H.
  destruct (Re.run rx bos s [] _) as [[[w s'] cs]|] eqn:Hrun; [|done].
  injection H as <-. cbn.
  apply (run_matches P rx Hok) in Hrun as (w' & s'' & cs' & -> & Hm & [= <- <- <-] & Hc).
  split_and!; [done..|]. intros n x. apply lookup_caps_ok, Hc. intros ? ? Hin.
  by apply elem_of_nil in Hin.
Qed.

Lemma search_go_matches P rx s : forall bos pre m,
  groups_ok P rx -> Re.search_go rx bos pre s = Some m ->
  exists b, pre ++ s = Re.before m ++ Re.whole m ++ Re.after m
  /\ matches rx b (Re.whole m) (Re.after m)
  /\ forall n w, Re.group n m = Some w -> P n w.
Proof.
  induction s as [|c s IH]; intros bos pre m Hok H; cbn [Re.search_go] in H.
  - destruct (Re.at_pos rx bos pre "") eqn:Hat; [|done]. injection H as ->.
    apply (at_pos_matches P) in Hat as (<- & -> & ? & ?); [|done]. by exists bos.
  - destruct (Re.at_pos rx bos pre (String c s)) eqn:Hat.
    + injection H as ->.
      apply (at_pos_matches P) in Hat as (<- & -> & ? & ?); [|done]. by exists bos.
    + apply IH in H as (b & Heq & ? & ?); [|done]. exists b. split_and!; [|done..].
      by rewrite <- Heq, sapp_assoc.
Qed.

Lemma search_matches P rx s m :
  groups_ok P rx -> Re.search rx s = Some m ->
  exists b, s = Re.before m ++ Re.whole m ++ Re.after m
  /\ matches rx b (Re.whole m) (Re.after m)
  /\ forall n w, Re.group n m = Some w -> P n w.
Proof. intros Hok H. by apply (search_go_matches P) in H. Qed.

Lemma match_matches P rx s m :
  groups_ok P rx -> Re.match_ rx s = Some m ->
  s = Re.whole m ++ Re.after m
  /\ matches rx true (Re.whole m) (Re.after m)
  /\ forall n w, Re.group n m = Some w -> P n w.
Proof. intros Hok H. by apply (at_pos_matches P) in H as (_ & ? & ? & ?). Qed.

Lemma all_chars_app p a b : all_chars p (a ++ b) = all_chars p a && all_chars p b.
Proof. induction a as [|c a IH]; [done|]. rewrite sapp_cons. cbn [all_chars]. by rewrite IH, andb_assoc. Qed.

Lemma all_chars_impl (p q : ascii -> bool) s :
  (forall c, p c = true -> q c = true) -> all_chars p s = true -> all_chars q s = true.
Proof.
  intros Hpq. induction s as [|c s IH]; [done|]. cbn.
  intros [Hc Hs]%andb_true_iff. by rewrite (Hpq c Hc), IH.
Qed.

Lemma matches_chr_inv p bos w s :
  matches (Chr p) bos w s -> exists c, w = String c "" /\ p c = true.
Proof. inversion 1; subst. by eexists. Qed.

Lemma matches_cat_inv r1 r2 bos w s :
  matches (Cat r1 r2) bos w s ->
  exists w1 w2, w = w1 ++ w2 /\ matches r1 bos w1 (w2 ++ s)
    /\ matches r2 (bos && negb (Py.truthy w1)) w2 s.
Proof. inversion 1; subst. by eexists _, _. Qed.

Lemma matches_grp_inv n r bos w s : matches (Grp n r) bos w s -> matches r bos w s.
Proof. by inversion 1. Qed.

Lemma matches_alt_inv r1 r2 bos w s :
  matches (Alt r1 r2) bos w s -> matches r1 bos w s \/ matches r2 bos w s.
Proof. inversion 1; subst; auto. Qed.

Lemma matches_star_chr greedy p bos w s :
  matches (Star greedy (Chr p)) bos w s -> all_chars p w = true.
Proof.
  intros H. remember (Star greedy (Chr p)) as r eqn:Hr.
  induction H; try done. injection Hr as -> ->.
  apply matches_chr_inv in H0 as (c & -> & Hc). rewrite all_chars_app. cbn [all_chars]. rewrite Hc. cbn. by apply IHmatches2.
Qed.

Lemma matches_plus_chr p bos w s :
  matches (Re.plus (Chr p)) bos w s -> w <> "" /\ all_chars p w = true.
Proof.
  unfold Re.plus. intros (w1 & w2 & -> & H1 & H2)%matches_cat_inv.
  apply matches_chr_inv in H1 as (c & -> & Hc).
  apply matches_star_chr in H2. split; [done|]. rewrite all_chars_app. cbn [all_chars]. by rewrite Hc, H2.
Qed.

Lemma matches_plus_lazy_chr p bos w s :
  matches (Re.plus_lazy (Chr p)) bos w s -> w <> "" /\ all_chars p w = true.
Proof.
  unfold Re.plus_lazy. intros (w1 & w2 & -> & H1 & H2)%matches_cat_inv.
  apply matches_chr_inv in H1 as (c & -> & Hc).
  apply matches_star_chr in H2. split; [done|]. rewrite all_chars_app. cbn [all_chars]. by rewrite Hc, H2.
Qed.

Lemma matches_lit c bos w s : matches (Re.lit c) bos w s -> w = String c "".
Proof.
  intros (c' & -> & Hc)%matches_chr_inv. by apply Ascii.eqb_eq in Hc as ->.
Qed.

Lemma matches_str l : forall bos w s, l <> "" -> matches (Re.str l) bos w s -> w = l.
Proof.
  induction l as [|c l IH]; intros bos w s Hl H; [done|].
  destruct l as [|c' l].
  - by apply matches_lit in H.
  - cbn [Re.str] in H. apply matches_cat_inv in H as (w1 & w2 & -> & H1 & H2).
    apply matches_lit in H1 as ->. by rewrite (IH _ _ _ ltac:(done) H2).
Qed.

(** The first match of a sequence splits the text. *)
Lemma matches_seq_cons r r' rs bos w s :
  matches (Re.seq (r :: r' :: rs)) bos w s ->
  exists w1 w2, w = w1 ++ w2 /\ matches r bos w1 (w2 ++ s)
    /\ matches (Re.seq (r' :: rs)) (bos && negb (Py.truthy w1)) w2 s.
Proof. cbn [Re.seq]. apply matches_cat_inv. Qed.

(** The pieces of [s.split()] are not empty and hold no whitespace. *)
Lemma split_ws_pieces s w :
  w ∈ Py.split_ws s -> w <> "" /\ all_chars (fun c => negb (Py.isspace c)) w = true.
Proof.
  revert w. induction s as [|c r IH]; intros w Hw; cbn [Py.split_ws] in Hw.
  - by apply elem_of_nil in Hw.
  - destruct (Py.isspace c) eqn:Hc; [by apply IH|].
    destruct r as [|c' r'].
    + apply list_elem_of_singleton in Hw as ->. split; [done|]. cbn. by rewrite Hc.
    + destruct (Py.isspace c') eqn:Hc'.
      * apply elem_of_cons in Hw as [->|Hw]; [|by apply IH].
        split; [done|]. cbn. by rewrite Hc.
      * destruct (Py.split_ws (String c' r')) as [|x xs] eqn:Hsplit.
        -- apply list_elem_of_singleton in Hw as ->. split; [done|]. cbn. by rewrite Hc.
        -- apply elem_of_cons in Hw as [->|Hw].
           ++ destruct (IH x) as [_ Hx]; [by left|]. split; [done|]. cbn. by rewrite Hc, Hx.
           ++ apply IH. by right.
Qed.

Lemma first_token_wf v t :
  first_token_or_undefined v = Ok t ->
  t <> "" /\ all_chars (fun c => negb (Py.isspace c)) t = true.
Proof.
  unfold first_token_or_undefined. destruct (Py.truthy v); [|by intros [= <-]].
  destruct (Py.split_ws v) as [|x xs] eqn:Hs; [done|]. cbn. intros [= <-].
  apply (split_ws_pieces v). rewrite Hs. by left.
Qed.

Lemma colon_line_groups_ok id :
  groups_ok (fun n w => n = 1%nat -> w <> "" /\ all_chars id w = true) (Pat.colon_line id).
Proof.
  cbn. split_and!; try done.
  - intros bos w s Hm _. by apply matches_plus_chr in Hm.
Qed.

Lemma colon_match_name id s m n :
  Re.match_ (Pat.colon_line id) s = Some m -> Re.group 1 m = Some n ->
  n <> "" /\ all_chars id n = true.
Proof.
  intros Hm Hn. apply (match_matches _ _ _ _ (colon_line_groups_ok id)) in Hm as (_ & _ & HP).
  by apply (HP 1%nat).
Qed.

(** ** The records of the dependency files *)

Lemma elem_of_set_add hash d s x : x ∈ set_add hash d s -> x ∈ s \/ x = d.
Proof.
  unfold set_add. destruct (set_mem hash d s); [by left|].
  intros [?|?%list_elem_of_singleton]%elem_of_app; auto.
Qed.

Lemma do_steps_members {X} (f : X -> list Dependency -> result (list Dependency))
    (Q : Dependency -> Prop) (xs : list X) :
  (forall x deps deps', f x deps = Ok deps' -> forall d, d ∈ deps' -> d ∈ deps \/ Q d) ->
  forall deps deps', do_steps (f <$> xs) deps = Ok deps' ->
    forall d, d ∈ deps' -> d ∈ deps \/ Q d.
Proof.
  intros Hf. induction xs as [|x xs IH]; intros deps deps' H d Hd; cbn in H.
  - injection H as <-. by left.
  - destruct (f x deps) as [deps1|] eqn:H1; [|done]. cbn in H.
    destruct (IH _ _ H d Hd) as [Hin|HQ]; [|by right].
    by eapply Hf.
Qed.

(** One turn of a colon-line reader adds at most one well-formed record. *)
Ltac colon_record Hm :=
  let n := fresh "n" in let v := fresh "v" in
  let Hn := fresh "Hn" in let Hv := fresh "Hv" in
  destruct (match_groups _ _ _ 1%nat Hm eq_refl) as [n Hn];
  destruct (match_groups _ _ _ 2%nat Hm eq_refl) as [v Hv];
  pose proof (colon_match_name _ _ _ _ Hm Hn) as [? ?];
  rewrite Hn, Hv; cbn [mbind result_bind Py.not_none];
  let t := fresh "t" in let Ht := fresh "Ht" in
  match goal with
  | |- context [first_token_or_undefined ?x] =>
      destruct (first_token_or_undefined x) as [t|] eqn:Ht; [|done];
      apply first_token_wf in Ht
  end;
  cbn [mbind result_bind];
  let d := fresh "d" in let Hd := fresh "Hd" in
  intros [= <-] d [Hd | ->]%elem_of_set_add; [by left | right];
  unfold well_formed; cbn [name version source file_path]; split_and!; by eauto.

Lemma stat_cpp_line_wf hash line deps deps' :
  StatAnalysis.cpp_line hash line deps = Ok deps' ->
  forall d, d ∈ deps' -> d ∈ deps \/ well_formed Pat.ident "cppDep.txt" d.
Proof.
  unfold StatAnalysis.cpp_line.
  destruct (Re.match_ _ _) as [m|] eqn:Hm; [|intros [= <-]; by left].
  colon_record Hm.
Qed.

Lemma base_py_line_wf hash line deps deps' :
  AnalysisBase.py_line hash line deps = Ok deps' ->
  forall d, d ∈ deps' -> d ∈ deps \/ well_formed Pat.ident "pyDep.txt" d.
Proof.
  unfold AnalysisBase.py_line.
  destruct (Re.match_ _ _) as [m|] eqn:Hm; [|intros [= <-]; by left].
  colon_record Hm.
Qed.

Lemma base_cpp_line_wf hash line deps deps' :
  AnalysisBase.cpp_line hash line deps = Ok deps' ->
  forall d, d ∈ deps' -> d ∈ deps \/ well_formed Pat.ident "cppDep.txt" d.
Proof.
  unfold AnalysisBase.cpp_line.
  destruct (Re.match_ _ _) as [m|] eqn:Hm; [|intros [= <-]; by left].
  colon_record Hm.
Qed.

Lemma backend_py_line_wf hash path line deps deps' :
  BackendAnalysisBase.py_line hash path line deps = Ok deps' ->
  forall d, d ∈ deps' -> d ∈ deps \/ well_formed Pat.ident_dash path d.
Proof.
  unfold BackendAnalysisBase.py_line.
  destruct (negb _); [intros [= <-]; by left|].
  destruct (Re.match_ _ _) as [m|] eqn:Hm; [|intros [= <-]; by left].
  colon_record Hm.
Qed.

Lemma backend_cpp_line_wf hash path line deps deps' :
  BackendAnalysisBase.cpp_line hash path line deps = Ok deps' ->
  forall d, d ∈ deps' -> d ∈ deps \/ well_formed Pat.ident_dash path d.
Proof.
  unfold BackendAnalysisBase.cpp_line.
  destruct (negb _); [intros [= <-]; by left|].
  destruct (Re.match_ _ _) as [m|] eqn:Hm; [|intros [= <-]; by left].
  colon_record Hm.
Qed.

Lemma athena_cpp_line_wf hash path line deps deps' :
  Athena.cpp_line hash path line deps = Ok deps' ->
  forall d, d ∈ deps' -> d ∈ deps \/ well_formed Pat.ident_dash path d.
Proof.
  unfold Athena.cpp_line.
  destruct (negb _); [intros [= <-]; by left|].
  destruct (Re.match_ _ _) as [m|] eqn:Hm; [|intros [= <-]; by left].
  colon_record Hm.
Qed.

(** X11. Every record that the readers of the name: version files add
    ([parse_cpp_deps] of StatAnalysis, [parse_py_deps] and
    [parse_cpp_deps] of AnalysisBase and of its backend variant,
    [parse_cpp_deps] of Athena) has a name that is not empty and made of
    the name characters of the pattern, a version that is set, not empty
    and free of whitespace, the source of its reader and no file path. *)
Theorem read_records_well_formed (hash : string * option string -> Z)
    (py_path cpp_path : string) (file : option string) (deps deps' : list Dependency) :
  (StatAnalysis.parse_cpp_deps hash file deps = Ok deps' ->
   forall d, d ∈ deps' -> d ∈ deps \/ well_formed Pat.ident "cppDep.txt" d)
  /\ (AnalysisBase.parse_py_deps hash file deps = Ok deps' ->
      forall d, d ∈ deps' -> d ∈ deps \/ well_formed Pat.ident "pyDep.txt" d)
  /\ (AnalysisBase.parse_cpp_deps hash file deps = Ok deps' ->
      forall d, d ∈ deps' -> d ∈ deps \/ well_formed Pat.ident "cppDep.txt" d)
  /\ (BackendAnalysisBase.parse_py_deps hash py_path file deps = Ok deps' ->
      forall d, d ∈ deps' -> d ∈ deps \/ well_formed Pat.ident_dash py_path d)
  /\ (BackendAnalysisBase.parse_cpp_deps hash cpp_path file deps = Ok deps' ->
      forall d, d ∈ deps' -> d ∈ deps \/ well_formed Pat.ident_dash cpp_path d)
  /\ (Athena.parse_cpp_deps hash cpp_path file deps = Ok deps' ->
      forall d, d ∈ deps' -> d ∈ deps \/ well_formed Pat.ident_dash cpp_path d).
Proof.
  unfold StatAnalysis.parse_cpp_deps, AnalysisBase.parse_py_deps, AnalysisBase.parse_cpp_deps,
    BackendAnalysisBase.parse_py_deps, BackendAnalysisBase.parse_cpp_deps, Athena.parse_cpp_deps.
  destruct file as [raw|]; [|split_and!; intros [= <-]; by left].
  split_and!; apply do_steps_members.
  - apply stat_cpp_line_wf.
  - apply base_py_line_wf.
  - apply base_cpp_line_wf.
  - apply backend_py_line_wf.
  - apply backend_cpp_line_wf.
  - apply athena_cpp_line_wf.
Qed.

Lemma read_records_well_formed_witness :
  let hash : string * option string -> Z := fun _ => 0 in
  let file := Some ("Boost: 1.82.0 2024-01-01" ++ String Py.nl "" ++ "note" ++ String Py.nl "") in
  let d := mkDependency "Boost" (Some "1.82.0") "cppDep.txt" "" in
  StatAnalysis.parse_cpp_deps hash file [] = Ok [d]
  /\ well_formed Pat.ident "cppDep.txt" d.
Proof.
  intros hash file d.
  assert (StatAnalysis.parse_cpp_deps hash file [] = Ok [d]) as H by reflexivity.
  split; [exact H|].
  destruct (read_records_well_formed hash "" "" file [] [d]) as [Hstat _].
  destruct (Hstat H d) as [Hin|Hwf]; [by left | by apply elem_of_nil in Hin | exact Hwf].
Defined.

Lemma take_drop_app p w s :
  all_chars p w = true ->
  (s = "" \/ exists c r, s = String c r /\ p c = false) ->
  take_while p (w ++ s) = w /\ Py.drop_while p (w ++ s) = s.
Proof.
  intros Hw Hs. induction w as [|x w IH].
  - destruct Hs as [->|(c & r & -> & Hc)]; [done|].
    change ("" ++ String c r) with (String c r). cbn [take_while Py.drop_while]. by rewrite Hc.
  - cbn in Hw. apply andb_true_iff in Hw as [Hx Hw]. destruct (IH Hw) as [IH1 IH2].
    rewrite sapp_cons. cbn [take_while Py.drop_while]. by rewrite Hx, IH1, IH2.
Qed.

Section Forward.
Context {A : Type}.
Implicit Types (k : @Re.cont A) (a : A).

Lemma run_bol s cs k : Re.run Bol true s cs k = k "" s cs.
Proof. done. Qed.

Lemma run_eol_end cs k : Re.run Eol false "" cs k = k "" "" cs.
Proof. done. Qed.

Lemma run_star_chr_greedy p bos s cs k a :
  k (take_while p s) (Py.drop_while p s) cs = Some a ->
  Re.run (Re.star (Chr p)) bos s cs k = Some a.
Proof. intros H. unfold Re.star. rewrite run_star. by apply star_chr_greedy. Qed.

Lemma run_plus_chr_greedy p bos c r cs k a :
  p c = true ->
  k (String c (take_while p r)) (Py.drop_while p r) cs = Some a ->
  Re.run (Re.plus (Chr p)) bos (String c r) cs k = Some a.
Proof.
  intros Hc H. unfold Re.plus. rewrite run_cat, run_chr, Hc.
  by apply run_star_chr_greedy.
Qed.

Lemma run_lit c bos r cs k : Re.run (Re.lit c) bos (String c r) cs k = k (String c "") r cs.
Proof. unfold Re.lit. by rewrite run_chr, Ascii.eqb_refl. Qed.
End Forward.

Lemma token_no_nl v : token v -> all_chars Re.any v = true.
Proof.
  intros [_ H]. eapply all_chars_impl, H. intros c Hc. unfold Re.any.
  destruct (Ascii.eqb_spec c Py.nl) as [->|]; done.
Qed.

Lemma token_head v : token v -> exists c r, v = String c r /\ Py.isspace c = false.
Proof.
  intros [Hv H]. destruct v as [|c r]; [done|]. exists c, r. split; [done|].
  cbn in H. apply andb_true_iff in H as [H _]. by apply negb_true_iff in H.
Qed.

(** A line [<name>: <version>] is matched whole: group 1 is the name and
    group 2 the version. *)
Lemma colon_line_forward (id : ascii -> bool) (name ver : string) :
  id ":"%char = false ->
  name <> "" -> all_chars id name = true -> token ver ->
  exists m, Re.match_ (Pat.colon_line id) (name ++ ": " ++ ver) = Some m
    /\ Re.group 1 m = Some name /\ Re.group 2 m = Some ver.
Proof.
  intros Hcolon Hname Hid Hver.
  destruct name as [|c name']; [done|]. cbn in Hid. apply andb_true_iff in Hid as [Hc Hid].
  destruct (take_drop_app id name' (": " ++ ver) Hid) as [Ht Hd].
  { right. by exists ":"%char, (" " ++ ver). }
  destruct (token_head ver Hver) as (x & r & Hx & Hxs).
  destruct (take_drop_app Re.any ver "" (token_no_nl ver Hver)) as [Ht2 Hd2]; [by left|].
  rewrite sapp_nil_r in Ht2, Hd2.
  assert (exists w, Re.run (Pat.colon_line id) true (String c name' ++ ": " ++ ver) []
                      (fun w rest cs => Some (w, rest, cs))
                    = Some (w, "", [(2%nat, ver); (1%nat, String c name')])) as [w Hrun].
  { unfold Pat.colon_line. cbn [Re.seq]. eexists.
    rewrite sapp_cons, run_cat, run_bol, run_cat, run_grp.
    apply run_plus_chr_greedy; [exact Hc|]. cbv beta.
    rewrite Ht, Hd, run_cat.
    apply run_star_chr_greedy. cbv beta.
    change (": " ++ ver) with (String ":" (String " " ver)).
    cbn [take_while Py.drop_while]. change (Re.space ":") with false. cbn match.
    rewrite run_cat, run_lit, run_cat.
    apply run_star_chr_greedy. cbv beta.
    cbn [take_while Py.drop_while]. change (Re.space " ") with true. cbn match.
    rewrite Hx at 1 2. cbn [take_while Py.drop_while].
    replace (Re.space x) with false by done. rewrite <- Hx.
    rewrite run_cat, run_grp. apply run_star_chr_greedy. cbv beta.
    rewrite Ht2, Hd2. cbn [Re.run]. reflexivity. }
  unfold Re.match_, Re.at_pos. rewrite Hrun. by eexists.
Qed.

Lemma drop_while_end_all p t : all_chars p t = true -> Py.drop_while_end p t = "".
Proof.
  induction t as [|c t IH]; [done|]. cbn. intros [Hc Ht]%andb_true_iff.
  by rewrite IH, Hc.
Qed.

Lemma drop_while_end_keep p r t :
  all_chars (fun c => negb (p c)) r = true -> all_chars p t = true ->
  Py.drop_while_end p (r ++ t) = r.
Proof.
  intros Hr Ht. induction r as [|c r IH]; [by apply drop_while_end_all|].
  cbn in Hr. apply andb_true_iff in Hr as [Hc Hr]. apply negb_true_iff in Hc.
  rewrite sapp_cons. cbn [Py.drop_while_end]. rewrite (IH Hr), Hc. by destruct r.
Qed.

Lemma drop_while_end_app p a b :
  Py.drop_while_end p b <> "" -> Py.drop_while_end p (a ++ b) = a ++ Py.drop_while_end p b.
Proof.
  intros Hb. induction a as [|c a IH]; [done|].
  rewrite !sapp_cons. cbn [Py.drop_while_end]. rewrite IH.
  destruct (a ++ Py.drop_while_end p b) eqn:E; [|done].
  destruct a; [|done]. done.
Qed.

(** [strip] of a written line gives the line without its line feed. *)
Lemma strip_written_line (c : ascii) (a v : string) :
  Py.isspace c = false -> token v ->
  Py.strip (String c a ++ v ++ String Py.nl "") = String c a ++ v.
Proof.
  intros Hc [Hv Hall]. unfold Py.strip, Py.lstrip, Py.rstrip.
  rewrite sapp_cons. cbn [Py.drop_while]. rewrite Hc, <- sapp_cons.
  assert (Py.drop_while_end Py.isspace (v ++ String Py.nl "") = v) as Hkeep
    by by apply drop_while_end_keep.
  rewrite drop_while_end_app; rewrite Hkeep; done.
Qed.

Lemma strip_token v : token v -> Py.strip v = v.
Proof.
  intros Hv. destruct (token_head v Hv) as (c & r & -> & Hc).
  unfold Py.strip, Py.lstrip, Py.rstrip. cbn [Py.drop_while]. rewrite Hc.
  rewrite <- (sapp_nil_r (String c r)) at 1. apply drop_while_end_keep; [apply Hv | done].
Qed.

Lemma split_ws_token v : token v -> Py.split_ws v = [v].
Proof.
  intros [Hv Hall]. induction v as [|c r IH]; [done|].
  cbn in Hall. apply andb_true_iff in Hall as [Hc Hr]. apply negb_true_iff in Hc.
  cbn [Py.split_ws]. rewrite Hc. destruct r as [|c' r']; [done|].
  rewrite IH by done. cbn in Hr. apply andb_true_iff in Hr as [Hc' _].
  apply negb_true_iff in Hc'. by rewrite Hc'.
Qed.

Lemma first_token_of_token v : token v -> first_token_or_undefined v = Ok v.
Proof.
  intros Hv. unfold first_token_or_undefined. rewrite (split_ws_token v Hv).
  destruct Hv as [Hv _]. by destruct v.
Qed.

Lemma ident_dash_not_space c : Pat.ident_dash c = true -> Py.isspace c = false.
Proof. by destruct c as [[] [] [] [] [] [] [] []]. Qed.

Lemma ident_is_ident_dash c : Pat.ident c = true -> Pat.ident_dash c = true.
Proof. by destruct c as [[] [] [] [] [] [] [] []]. Qed.

Lemma truthy_cons c s : Py.truthy (String c s) = true.
Proof. done. Qed.

(** What every colon-line reader sees in a written line. *)
Lemma written_line_match (id : ascii -> bool) (name ver : string) :
  id ":"%char = false -> (forall c, id c = true -> Py.isspace c = false) ->
  name <> "" -> all_chars id name = true -> token ver ->
  let line := Py.strip (name ++ ": " ++ ver ++ String Py.nl "") in
  Py.truthy line = true
  /\ exists m, Re.match_ (Pat.colon_line id) line = Some m
       /\ Re.group 1 m = Some name /\ Re.group 2 m = Some ver.
Proof.
  intros Hcolon Hsp Hname Hid Hver line.
  assert (line = name ++ ": " ++ ver) as ->.
  { subst line. destruct name as [|c a]; [done|].
    cbn in Hid. apply andb_true_iff in Hid as [Hc _].
    replace (String c a ++ ": " ++ ver ++ String Py.nl "")
      with (String c (a ++ ": ") ++ ver ++ String Py.nl "")
      by (by rewrite !sapp_cons, sapp_assoc).
    rewrite strip_written_line by auto. by rewrite !sapp_cons, sapp_assoc. }
  split; [by destruct name|]. by apply colon_line_forward.
Qed.

Ltac read_back Hm :=
  destruct Hm as (Htruthy & m & -> & Hn & Hv);
  rewrite ?Htruthy, Hn, Hv; cbn [negb mbind result_bind Py.not_none];
  rewrite ?strip_token by done; rewrite first_token_of_token by done; done.

Lemma written_line_records (hash : string * option string -> Z)
    (py_path cpp_path : string) (name ver : string) (deps : list Dependency) :
  name <> "" -> token ver ->
  let line := name ++ ": " ++ ver ++ String Py.nl "" in
  (all_chars Pat.ident name = true ->
   StatAnalysis.cpp_line hash line deps
   = Ok (set_add hash (mkDependency name (Some ver) "cppDep.txt" "") deps)
   /\ AnalysisBase.py_line hash line deps
      = Ok (set_add hash (mkDependency name (Some ver) "pyDep.txt" "") deps)
   /\ AnalysisBase.cpp_line hash line deps
      = Ok (set_add hash (mkDependency name (Some ver) "cppDep.txt" "") deps))
  /\ (all_chars Pat.ident_dash name = true ->
      BackendAnalysisBase.py_line hash py_path line deps
      = Ok (set_add hash (mkDependency name (Some ver) py_path "") deps)
      /\ BackendAnalysisBase.cpp_line hash cpp_path line deps
         = Ok (set_add hash (mkDependency name (Some ver) cpp_path "") deps)
      /\ Athena.cpp_line hash cpp_path line deps
         = Ok (set_add hash (mkDependency name (Some ver) cpp_path "") deps)).
Proof.
  intros Hname Hver line. split; intros Hid.
  - pose proof (written_line_match Pat.ident name ver eq_refl
                  (fun c Hc => ident_dash_not_space c (ident_is_ident_dash c Hc))
                  Hname Hid Hver) as Hm.
    unfold StatAnalysis.cpp_line, AnalysisBase.py_line, AnalysisBase.cpp_line.
    fold line in Hm. split_and!; read_back Hm.
  - pose proof (written_line_match Pat.ident_dash name ver eq_refl
                  ident_dash_not_space Hname Hid Hver) as Hm.
    unfold BackendAnalysisBase.py_line, BackendAnalysisBase.cpp_line, Athena.cpp_line.
    fold line in Hm. split_and!; read_back Hm.
Qed.

(** X12. A line made of a name, a colon, a blank, a version and a line feed,
    where the name is not empty and made of name characters and the
    version is not empty and free of whitespace, is read by each of the
    six readers as exactly the record of that name and version. *)
Theorem written_line_read_back (hash : string * option string -> Z)
    (py_path cpp_path : string) (name ver : string) (deps : list Dependency) :
  name <> "" -> token ver ->
  let line := name ++ ": " ++ ver ++ String Py.nl "" in
  (all_chars Pat.ident name = true ->
   StatAnalysis.cpp_line hash line deps
   = Ok (set_add hash (mkDependency name (Some ver) "cppDep.txt" "") deps)
   /\ AnalysisBase.py_line hash line deps
      = Ok (set_add hash (mkDependency name (Some ver) "pyDep.txt" "") deps)
   /\ AnalysisBase.cpp_line hash line deps
      = Ok (set_add hash (mkDependency name (Some ver) "cppDep.txt" "") deps))
  /\ (all_chars Pat.ident_dash name = true ->
      BackendAnalysisBase.py_line hash py_path line deps
      = Ok (set_add hash (mkDependency name (Some ver) py_path "") deps)
      /\ BackendAnalysisBase.cpp_line hash cpp_path line deps
         = Ok (set_add hash (mkDependency name (Some ver) cpp_path "") deps)
      /\ Athena.cpp_line hash cpp_path line deps
         = Ok (set_add hash (mkDependency name (Some ver) cpp_path "") deps)).
Proof. apply written_line_records. Qed.

Lemma written_line_read_back_witness :
  let hash : string * option string -> Z := fun _ => 0 in
  let line := "numpy: 1.26.4" ++ String Py.nl "" in
  token "1.26.4"
  /\ AnalysisBase.cpp_line hash line []
     = Ok [mkDependency "numpy" (Some "1.26.4") "cppDep.txt" ""]
  /\ Athena.cpp_line hash "cppDep.txt" line []
     = Ok [mkDependency "numpy" (Some "1.26.4") "cppDep.txt" ""].
Proof.
  intros hash line.
  assert (token "1.26.4") as Htok by (split; [discriminate | reflexivity]).
  split; [exact Htok|].
  destruct (written_line_read_back hash "pyDep.txt" "cppDep.txt" "numpy" "1.26.4" []
              ltac:(discriminate) Htok) as [H1 H2].
  destruct (H1 eq_refl) as (_ & _ & Hbase). destruct (H2 eq_refl) as (_ & _ & Hathena).
  split; [exact Hbase | exact Hathena].
Defined.

Lemma token_of_class (p : ascii -> bool) w :
  (forall c, p c = true -> Py.isspace c = false) ->
  w <> "" -> all_chars p w = true -> token w.
Proof.
  intros Hp Hw Hall. split; [done|]. eapply all_chars_impl, Hall.
  intros c Hc. by rewrite (Hp c Hc).
Qed.

Lemma all_chars_smap (p : ascii -> bool) f s :
  (forall c, p (f c) = true) -> all_chars p (Py.smap f s) = true.
Proof. intros Hf. induction s as [|c s IH]; [done|]. cbn. by rewrite Hf, IH. Qed.

Lemma replace_char_token v : token v -> token (Py.replace_char "_" "." v).
Proof.
  intros [Hv Hall]. unfold Py.replace_char. split; [by destruct v|]. clear Hv.
  induction v as [|c v IH]; [done|].
  cbn in Hall |- *. apply andb_true_iff in Hall as [Hc Hall].
  rewrite IH by done.
  destruct (Ascii.eqb_spec c "_") as [->|]; [done|]. by rewrite Hc.
Qed.

Lemma dotnum_not_space c : Pat.dotnum c = true -> Py.isspace c = false.
Proof. by destruct c as [[] [] [] [] [] [] [] []]. Qed.

Lemma boost_class_not_space c :
  Re.or Re.digit (Re.one_of "_") c = true -> Py.isspace c = false.
Proof. by destruct c as [[] [] [] [] [] [] [] []]. Qed.

Lemma versioned_groups_ok prefix suffix :
  groups_ok (fun _ w => token w) (Pat.versioned prefix suffix).
Proof.
  unfold Pat.versioned.
  assert (Hg : groups_ok (fun _ w => token w) (Grp 1 (Re.plus (Chr Pat.dotnum)))).
  { cbn. split; [|done]. intros bos w s [Hw Hall]%matches_plus_chr.
    by eapply token_of_class; [apply dotnum_not_space|..]. }
  assert (Hs : forall l, groups_ok (fun _ w => token w) (Re.str l)).
  { intros l. induction l as [|c [|c' l] IH]; cbn; try done. }
  destruct prefix as [|c p], suffix as [|c' q]; cbn [Re.seq]; try done; cbn [groups_ok];
    split_and?; try apply Hs; try apply Hg; done.
Qed.

Lemma boost_groups_ok : groups_ok (fun _ w => token w) AnalysisBase.boost_pattern.
Proof.
  cbn. split_and!; try done. intros bos w s [Hw Hall]%matches_plus_chr.
  by eapply token_of_class; [apply boost_class_not_space|..].
Qed.

(** The lines [scan_lines] writes. *)
Lemma scan_lines_shape dep rx lines out :
  groups_ok (fun _ w => token w) rx -> Re.sets 1 rx = true ->
  AnalysisBase.scan_lines dep rx lines = Ok out ->
  out = [] \/ exists v, token v /\ out = [dep ++ ": " ++ v ++ String Py.nl ""].
Proof.
  intros Hok Hsets. induction lines as [|line lines IH]; cbn [AnalysisBase.scan_lines].
  - intros [= <-]. by left.
  - destruct (Re.search rx line) as [m|] eqn:Hm; [|done].
    destruct (search_groups _ _ _ 1%nat Hm Hsets) as [v Hv].
    apply (search_matches _ _ _ _ Hok) in Hm as (b & _ & _ & HP).
    specialize (HP 1%nat v Hv). rewrite Hv. cbn [Py.not_none mbind result_bind].
    case_bool_decide; cbn [mbind result_bind mret result_ret Py.str_opt];
      intros [= <-]; right; eexists; split; [| done | | done]; [by apply replace_char_token | done].
Qed.

Lemma deps_table_ok :
  Forall (fun e : string * string * regex =>
            groups_ok (fun _ w => token w) e.2 /\ Re.sets 1 e.2 = true
            /\ e.1.1 <> "" /\ all_chars Pat.ident e.1.1 = true)
    AnalysisBase.deps.
Proof.
  unfold AnalysisBase.deps.
  repeat (apply Forall_cons; split;
          [split_and!; [first [apply boost_groups_ok | apply versioned_groups_ok] | done..]|]).
  by apply Forall_nil.
Qed.

Lemma parse_cmakelists_go_shape cmake table out :
  Forall (fun e : string * string * regex =>
            groups_ok (fun _ w => token w) e.2 /\ Re.sets 1 e.2 = true
            /\ e.1.1 <> "" /\ all_chars Pat.ident e.1.1 = true) table ->
  AnalysisBase.parse_cmakelists_go cmake table = Ok out ->
  (length out <= length table)%nat
  /\ forall line, line ∈ out ->
       exists dep v, line = dep ++ ": " ++ v ++ String Py.nl "" /\ token v
         /\ dep <> "" /\ all_chars Pat.ident dep = true
         /\ is_Some (cmake dep).
Proof.
  intros Htable. revert out.
  induction Htable as [|[[dep prefix] rx] table (Hok & Hsets & Hdep & Hid) _ IH]; intros out;
    cbn [AnalysisBase.parse_cmakelists_go].
  - intros [= <-]. split; [done|]. intros line Hin. by apply elem_of_nil in Hin.
  - cbn [fst snd] in *. destruct (cmake dep) as [raw|] eqn:Hraw.
    + destruct (AnalysisBase.scan_lines dep rx (Py.readlines raw)) as [written|] eqn:Hw; [|done].
      destruct (AnalysisBase.parse_cmakelists_go cmake table) as [more|] eqn:Hmore; [|done].
      cbn. intros [= <-]. destruct (IH more eq_refl) as [Hlen Hlines].
      apply scan_lines_shape in Hw as [->|(v & Hv & ->)]; [| |done..].
      * split; [simpl; lia | exact Hlines].
      * split; [simpl; lia|]. intros line [->|Hin]%elem_of_cons; [|by apply Hlines].
        exists dep, v. rewrite Hraw. by split_and!.
    + intros H. destruct (IH out H) as [Hlen Hlines]. split; [simpl; lia | exact Hlines].
Qed.

(** X13. [parse_cmakelists] of AnalysisBase writes at most eight lines, each
    made of a name for which a build file was given, a colon, a blank, a
    version free of whitespace and a line feed; [parse_cpp_deps] reads
    each of these lines back as the record of that name and version. *)
Theorem cmakelists_lines_read_back (hash : string * option string -> Z)
    (cmake : string -> option string) (out : list string) :
  AnalysisBase.parse_cmakelists cmake = Ok out ->
  (length out <= 8)%nat
  /\ forall line, line ∈ out ->
       exists dep v,
         line = dep ++ ": " ++ v ++ String Py.nl "" /\ token v /\ is_Some (cmake dep)
         /\ forall deps,
              AnalysisBase.cpp_line hash line deps
              = Ok (set_add hash (mkDependency dep (Some v) "cppDep.txt" "") deps).
Proof.
  intros H. apply parse_cmakelists_go_shape in H as [Hlen Hlines]; [|apply deps_table_ok].
  split; [done|]. intros line Hin.
  destruct (Hlines line Hin) as (dep & v & -> & Hv & Hdep & Hid & Hfile).
  exists dep, v. split_and!; [done..|]. intros deps.
  by destruct (written_line_records hash "" "" dep v deps Hdep Hv) as [[_ [_ Hread]] _].
Qed.

Lemma cmakelists_lines_read_back_witness :
  let hash : string * option string -> Z := fun _ => 0 in
  let cmake dep :=
    if String.eqb dep "Boost"
    then Some ("URL http://cern.ch/sources/boost_1_82_0.tar.gz;" ++ String Py.nl "")
    else None in
  let line := "Boost: 1.82.0" ++ String Py.nl "" in
  AnalysisBase.parse_cmakelists cmake = Ok [line]
  /\ exists dep v,
       line = dep ++ ": " ++ v ++ String Py.nl "" /\ token v
       /\ AnalysisBase.cpp_line hash line []
          = Ok (set_add hash (mkDependency dep (Some v) "cppDep.txt" "") []).
Proof.
  intros hash cmake line.
  assert (AnalysisBase.parse_cmakelists cmake = Ok [line]) as H by (by vm_compute).
  split; [exact H|].
  destruct (cmakelists_lines_read_back hash cmake [line] H) as [_ Hlines].
  destruct (Hlines line ltac:(by left)) as (dep & v & Hline & Hv & _ & Hread).
  exists dep, v. split_and!; [exact Hline | exact Hv | apply Hread].
Defined.

(** ** The build-information table of the report *)

Section Lazy.
Context {A : Type}.
Implicit Types (k : @Re.cont A) (a : A).

Lemma star_loop_lazy_S (body : bool -> string -> Re.caps -> @Re.cont A -> option A)
    fuel bos s cs k :
  Re.star_loop body false (S fuel) bos s cs k
  = match k "" s cs with
    | Some a => Some a
    | None =>
        body bos s cs (fun w1 s1 cs1 =>
          if Py.truthy w1
          then Re.star_loop body false fuel false s1 cs1
                 (fun w2 s2 cs2 => k (w1 ++ w2) s2 cs2)
          else None)
    end.
Proof. done. Qed.

(** A lazy star of a character class stops at the first text its
    continuation accepts. *)
Lemma star_chr_lazy p q : forall fuel bos t cs k a,
  (String.length (q ++ t) <= fuel)%nat ->
  all_chars p q = true ->
  (forall q1 q2, q = q1 ++ q2 -> q2 <> "" -> k q1 (q2 ++ t) cs = None) ->
  k q t cs = Some a ->
  Re.star_loop (Re.run (Chr p)) false fuel bos (q ++ t) cs k = Some a.
Proof.
  induction q as [|c q IH]; intros fuel bos t cs k a Hfuel Hall Hnone Hk.
  - destruct fuel; [done|]. rewrite star_loop_lazy_S.
    change ("" ++ t) with t. by rewrite Hk.
  - rewrite sapp_cons in *. destruct fuel as [|fuel]; [cbn in Hfuel; lia|].
    rewrite star_loop_lazy_S.
    rewrite <- sapp_cons, (Hnone "" (String c q)) by done. rewrite sapp_cons.
    cbn in Hall. apply andb_true_iff in Hall as [Hc Hall].
    rewrite run_chr, Hc. cbn [Py.truthy].
    apply IH; [cbn in Hfuel; lia | done | | done].
    intros q1 q2 -> Hq2. apply (Hnone (String c q1) q2); done.
Qed.

(** A greedy star of a character class fails when its continuation
    refuses every run of the class. *)
Lemma star_chr_greedy_none p : forall fuel bos s cs k,
  (forall w1 s1, s = w1 ++ s1 -> all_chars p w1 = true -> k w1 s1 cs = None) ->
  Re.star_loop (Re.run (Chr p)) true fuel bos s cs k = None.
Proof.
  induction fuel as [|fuel IH]; intros bos s cs k Hnone.
  - cbn. by apply (Hnone "" s).
  - rewrite star_loop_greedy_S, run_chr.
    rewrite (Hnone "" s) by done.
    destruct s as [|c s]; [done|]. destruct (p c) eqn:Hc; [|done].
    cbn [Py.truthy]. rewrite IH; [done|].
    intros w1 s1 -> Hw1. apply (Hnone (String c w1) s1); [done|]. cbn. by rewrite Hc, Hw1.
Qed.

Lemma run_str l : forall bos s cs k,
  l <> "" -> Re.run (Re.str l) bos (l ++ s) cs k = k l s cs.
Proof.
  induction l as [|c l IH]; intros bos s cs k Hl; [done|].
  destruct l as [|c' l].
  - cbn [Re.str]. by rewrite sapp_cons, run_lit.
  - cbn [Re.str]. rewrite run_cat, sapp_cons, run_lit. by rewrite IH.
Qed.
End Lazy.

Lemma drop_while_app_all p w s : all_chars p w = true -> Py.drop_while p (w ++ s) = Py.drop_while p s.
Proof.
  induction w as [|c w IH]; [done|]. cbn [all_chars]. intros [Hc Hw]%andb_true_iff.
  rewrite sapp_cons. cbn [Py.drop_while]. by rewrite Hc, IH.
Qed.

Lemma drop_while_end_app_all p r t :
  all_chars p t = true -> Py.drop_while_end p (r ++ t) = Py.drop_while_end p r.
Proof.
  intros Ht. induction r as [|c r IH].
  - by rewrite drop_while_end_all.
  - rewrite sapp_cons. cbn [Py.drop_while_end]. by rewrite IH.
Qed.

Lemma drop_while_end_split p s :
  exists t, s = Py.drop_while_end p s ++ t /\ all_chars p t = true.
Proof.
  induction s as [|c s (t & Hs & Ht)]; [by exists ""|].
  cbn [Py.drop_while_end]. destruct (Py.drop_while_end p s) as [|c' r] eqn:E.
  - destruct (p c) eqn:Hc.
    + exists (String c t). split; [by rewrite Hs at 1|]. cbn. by rewrite Hc, Ht.
    + exists t. split; [by rewrite Hs at 1|done].
  - exists t. split; [|done]. rewrite Hs at 1. done.
Qed.

Lemma drop_while_split p s :
  s = take_while p s ++ Py.drop_while p s /\ all_chars p (take_while p s) = true.
Proof.
  split; [by rewrite take_drop_while|].
  induction s as [|c s IH]; [done|]. cbn. destruct (p c) eqn:Hc; [|done]. cbn. by rewrite Hc.
Qed.

Lemma drop_while_end_cons p c r :
  Py.drop_while_end p (String c r)
  = match Py.drop_while_end p r with
    | EmptyString => if p c then EmptyString else String c EmptyString
    | t => String c t
    end.
Proof. done. Qed.

Lemma drop_while_end_idem p s :
  Py.drop_while_end p (Py.drop_while_end p s) = Py.drop_while_end p s.
Proof.
  induction s as [|c s IH]; [done|]. rewrite drop_while_end_cons.
  destruct (Py.drop_while_end p s) as [|c' r] eqn:E.
  - destruct (p c) eqn:Hc; [done|]. cbn. by rewrite Hc.
  - rewrite drop_while_end_cons, IH. done.
Qed.

(** A stripped text that is not empty starts and ends outside the
    whitespace. *)
Lemma strip_shape s :
  Py.strip s <> "" ->
  exists c r, Py.strip s = String c r /\ Py.isspace c = false
    /\ Py.rstrip (Py.strip s) = Py.strip s.
Proof.
  intros Hs. destruct (strip_head s) as [?|(c & r & E & Hc)]; [done|].
  exists c, r. split_and!; [done..|]. unfold Py.strip, Py.rstrip. apply drop_while_end_idem.
Qed.

Lemma strip_decompose s :
  exists l t, s = l ++ Py.strip s ++ t
    /\ all_chars Py.isspace l = true /\ all_chars Py.isspace t = true.
Proof.
  destruct (drop_while_split Py.isspace s) as [Hs Hl].
  destruct (drop_while_end_split Py.isspace (Py.lstrip s)) as (t & Ht & Hall).
  exists (take_while Py.isspace s), t. split_and!; [|done..].
  unfold Py.strip, Py.rstrip. by rewrite <- Ht.
Qed.

Lemma drop_while_all p t : all_chars p t = true -> Py.drop_while p t = "".
Proof.
  induction t as [|c t IH]; [done|]. cbn. intros [Hc Ht]%andb_true_iff. by rewrite Hc, IH.
Qed.

(** [strip] sees through surrounding whitespace. *)
Lemma strip_padded l s t :
  all_chars Py.isspace l = true -> all_chars Py.isspace t = true ->
  Py.strip (l ++ s ++ t) = Py.strip s.
Proof.
  intros Hl Ht. unfold Py.strip, Py.lstrip, Py.rstrip. rewrite drop_while_app_all by done.
  destruct (drop_while_split Py.isspace s) as [Hs Hall].
  destruct (drop_while_head Py.isspace s) as [E|(c & r & E & Hc)].
  - rewrite E in Hs. rewrite sapp_nil_r in Hs. rewrite <- Hs in Hall.
    rewrite drop_while_app_all, E by done. by rewrite (drop_while_all _ t).
  - rewrite E. rewrite Hs at 1. rewrite sapp_assoc, drop_while_app_all by done.
    rewrite E, sapp_cons. cbn [Py.drop_while]. rewrite Hc, <- sapp_cons.
    by rewrite drop_while_end_app_all.
Qed.

Lemma nobar_split a b x y :
  all_chars nobar a = true -> all_chars nobar b = true ->
  a ++ String "|" x = b ++ String "|" y -> a = b.
Proof.
  revert b. induction a as [|c a IH]; intros [|d b] Ha Hb H; try done.
  - change ("" ++ String "|" x) with (String "|" x) in H. rewrite sapp_cons in H.
    injection H as <- _. done.
  - rewrite sapp_cons in H. change ("" ++ String "|" y) with (String "|" y) in H.
    injection H as -> _. done.
  - rewrite !sapp_cons in H. injection H as -> H. f_equal.
    cbn in Ha, Hb. apply andb_true_iff in Ha as [_ Ha]. apply andb_true_iff in Hb as [_ Hb].
    by eapply IH.
Qed.

Lemma space_nobar s : all_chars Py.isspace s = true -> all_chars nobar s = true.
Proof. apply all_chars_impl. by intros [[] [] [] [] [] [] [] []]. Qed.

Lemma groups_ok_True r : groups_ok (fun _ _ => True) r.
Proof. induction r; cbn; auto. Qed.

(** A run of whitespace cannot end before a text that goes on with
    whitespace and then something else. *)
Lemma space_run_prefix w1 s1 a d r :
  all_chars Py.isspace w1 = true -> all_chars Py.isspace a = true ->
  Py.isspace d = false ->
  w1 ++ s1 = a ++ String d r ->
  exists a2, s1 = a2 ++ String d r /\ all_chars Py.isspace a2 = true.
Proof.
  revert a. induction w1 as [|c w1 IH]; intros a Hw Ha Hd H.
  - exists a. by split.
  - cbn in Hw. apply andb_true_iff in Hw as [Hc Hw]. destruct a as [|x a].
    + change ("" ++ String d r) with (String d r) in H. rewrite sapp_cons in H.
      injection H as -> _. congruence.
    + rewrite !sapp_cons in H. injection H as -> H.
      cbn in Ha. apply andb_true_iff in Ha as [_ Ha]. by eapply IH.
Qed.

Section Row.
Context {A : Type}.
Implicit Types (k : @Re.cont A) (a : A).

(** [\s*\|] fails on a text whose first character outside the
    whitespace is not a bar. *)
Lemma spaces_bar_fail bos s cs k (a : string) d r :
  s = a ++ String d r -> all_chars Py.isspace a = true ->
  Py.isspace d = false -> nobar d = true ->
  Re.run (Cat (Re.star (Chr Re.space)) (Re.lit "|")) bos s cs k = None.
Proof.
  intros Hs Ha Hd Hbar. rewrite run_cat. unfold Re.star. rewrite run_star.
  apply star_chr_greedy_none. intros w1 s1 Hsplit Hw1.
  rewrite Hs in Hsplit. symmetry in Hsplit.
  destruct (space_run_prefix _ _ _ _ _ Hw1 Ha Hd Hsplit) as (a2 & -> & Ha2).
  unfold Re.lit. rewrite run_chr. destruct a2 as [|x a2].
  - change ("" ++ String d r) with (String d r). cbv beta iota.
    unfold nobar in Hbar. apply negb_true_iff in Hbar.
    by rewrite Ascii.eqb_sym, Hbar.
  - rewrite sapp_cons. cbv beta iota. cbn in Ha2. apply andb_true_iff in Ha2 as [Hx _].
    destruct (Ascii.eqb_spec "|" x) as [<-|]; done.
Qed.
End Row.

(** A text without trailing whitespace: each of its ends has a
    character outside the whitespace. *)
Lemma rstrip_suffix q1 q2 :
  Py.rstrip (q1 ++ q2) = q1 ++ q2 -> q2 <> "" -> Py.rstrip q2 = q2.
Proof.
  unfold Py.rstrip. induction q1 as [|c q1 IH]; [done|]. intros H Hq2.
  rewrite sapp_cons, drop_while_end_cons in H.
  destruct (Py.drop_while_end Py.isspace (q1 ++ q2)) as [|c' r] eqn:E.
  - destruct (Py.isspace c); [done|]. injection H as H. by destruct q1, q2.
  - injection H as H. by apply IH.
Qed.

Lemma rstrip_first_nonspace q :
  Py.rstrip q = q -> q <> "" ->
  exists a d r, q = a ++ String d r /\ all_chars Py.isspace a = true /\ Py.isspace d = false.
Proof.
  intros Hr Hq. destruct (drop_while_split Py.isspace q) as [Hs Hall].
  destruct (drop_while_head Py.isspace q) as [E|(d & r & E & Hd)].
  - rewrite E, sapp_nil_r in Hs. rewrite <- Hs in Hall.
    unfold Py.rstrip in Hr. rewrite drop_while_end_all in Hr by done. congruence.
  - exists (take_while Py.isspace q), d, r. by rewrite <- E.
Qed.

Lemma all_chars_suffix p a b : all_chars p (a ++ b) = true -> all_chars p b = true.
Proof. rewrite all_chars_app. by intros [_ ?]%andb_true_iff. Qed.

Lemma all_chars_prefix p a b : all_chars p (a ++ b) = true -> all_chars p a = true.
Proof. rewrite all_chars_app. by intros [? _]%andb_true_iff. Qed.

(** The row of the label [L]: the pattern matches at its first bar and
    captures the stripped value. *)
Lemma table_row_at (L q sp0 sp1 sp2 sp3 rest acc : string) (bos : bool) :
  L <> "" -> Py.lstrip L = L ->
  all_chars Py.isspace sp0 = true -> all_chars Py.isspace sp1 = true ->
  all_chars Py.isspace sp2 = true -> all_chars Py.isspace sp3 = true ->
  q <> "" -> Py.lstrip q = q -> Py.rstrip q = q ->
  all_chars Re.any q = true -> all_chars nobar q = true ->
  exists w,
    Re.at_pos (Pat.table_row L) bos acc
      ("|" ++ sp0 ++ L ++ sp1 ++ "|" ++ sp2 ++ q ++ sp3 ++ "|" ++ rest)
    = Some (Re.Match acc w rest [(1%nat, q)]).
Proof.
  intros HL HLl H0 H1 H2 H3 Hq Hql Hqr Hany Hbar.
  assert (HLhead : exists c r, L = String c r /\ Py.isspace c = false).
  { destruct (drop_while_head Py.isspace L) as [E|(c & r & E & Hc)];
      unfold Py.lstrip in HLl; rewrite HLl in E; [done|eauto]. }
  destruct HLhead as (cL & rL & HLeq & HcL).
  assert (Hqhead : exists c r, q = String c r /\ Py.isspace c = false).
  { destruct (drop_while_head Py.isspace q) as [E|(c & r & E & Hc)];
      unfold Py.lstrip in Hql; rewrite Hql in E; [done|eauto]. }
  destruct Hqhead as (cq & rq & Hqeq & Hcq).
  assert (exists w, Re.run (Pat.table_row L) bos
            ("|" ++ sp0 ++ L ++ sp1 ++ "|" ++ sp2 ++ q ++ sp3 ++ "|" ++ rest) []
            (fun w rest cs => Some (w, rest, cs))
          = Some (w, rest, [(1%nat, q)])) as [w Hrun].
  { unfold Pat.table_row. cbn [Re.seq]. eexists.
    change ("|" ++ sp0 ++ ?x) with (String "|" (sp0 ++ x)).
    rewrite run_cat, run_lit, run_cat.
    apply run_star_chr_greedy. cbv beta.
    destruct (take_drop_app Re.space sp0 (L ++ sp1 ++ "|" ++ sp2 ++ q ++ sp3 ++ "|" ++ rest) H0)
      as [-> ->].
    { right. exists cL, (rL ++ sp1 ++ "|" ++ sp2 ++ q ++ sp3 ++ "|" ++ rest).
      split; [by rewrite HLeq|done]. }
    rewrite run_cat, run_str by done. rewrite run_cat.
    apply run_star_chr_greedy. cbv beta.
    destruct (take_drop_app Re.space sp1 ("|" ++ sp2 ++ q ++ sp3 ++ "|" ++ rest) H1)
      as [-> ->]; [right; by eexists _, _|].
    change ("|" ++ sp2 ++ ?x) with (String "|" (sp2 ++ x)).
    rewrite run_cat, run_lit, run_cat.
    apply run_star_chr_greedy. cbv beta.
    destruct (take_drop_app Re.space sp2 (q ++ sp3 ++ "|" ++ rest) H2) as [-> ->].
    { right. exists cq, (rq ++ sp3 ++ "|" ++ rest). split; [by rewrite Hqeq|done]. }
    rewrite run_cat, run_grp. unfold Re.plus_lazy. rewrite run_cat.
    rewrite Hqeq at 1. rewrite sapp_cons, run_chr.
    rewrite Hqeq in Hany. cbn in Hany. apply andb_true_iff in Hany as [Hcany Hany].
    rewrite Hcany. rewrite run_star.
    apply star_chr_lazy; [done | exact Hany | |].
    - intros q1 q2 Hsplit Hq2. cbv beta.
      assert (Py.rstrip q2 = q2) as Hr2.
      { apply (rstrip_suffix (String cq q1)); [|done]. by rewrite sapp_cons, <- Hsplit, <- Hqeq. }
      destruct (rstrip_first_nonspace q2 Hr2 Hq2) as (a & d & r & -> & Ha & Hd).
      eapply (spaces_bar_fail _ _ _ _ a d (r ++ sp3 ++ "|" ++ rest));
        [by rewrite sapp_assoc, sapp_cons | done | done |].
      rewrite Hqeq, Hsplit in Hbar. cbn in Hbar. apply andb_true_iff in Hbar as [_ Hbar].
      apply all_chars_suffix, all_chars_suffix in Hbar. cbn in Hbar.
      by apply andb_true_iff in Hbar as [? _].
    - cbv beta. rewrite run_cat. apply run_star_chr_greedy. cbv beta.
      destruct (take_drop_app Re.space sp3 ("|" ++ rest) H3) as [-> ->];
        [right; by eexists _, _|].
      change ("|" ++ rest) with (String "|" rest).
      rewrite run_lit. change (String cq "" ++ rq) with (String cq rq). rewrite <- Hqeq. reflexivity. }
  unfold Re.at_pos. rewrite Hrun. by eexists.
Qed.

(** What a match of the row pattern starts with. *)
Lemma table_row_matches_inv L bos w s :
  L <> "" -> matches (Pat.table_row L) bos w s ->
  exists sp0 sp1 w',
    w = "|" ++ sp0 ++ L ++ sp1 ++ "|" ++ w'
    /\ all_chars Py.isspace sp0 = true /\ all_chars Py.isspace sp1 = true.
Proof.
  intros HL H. unfold Pat.table_row in H.
  apply matches_seq_cons in H as (w0 & w1 & -> & H0 & H).
  apply matches_lit in H0 as ->.
  apply matches_seq_cons in H as (sp0 & w2 & -> & H0 & H).
  apply matches_star_chr in H0.
  apply matches_seq_cons in H as (l & w3 & -> & Hl & H).
  apply matches_str in Hl as ->; [|done].
  apply matches_seq_cons in H as (sp1 & w4 & -> & H1 & H).
  apply matches_star_chr in H1.
  apply matches_seq_cons in H as (b & w5 & -> & Hb & H).
  apply matches_lit in Hb as ->.
  by exists sp0, sp1, w5.
Qed.

(** No match of the row of [L] starts at the bar of another cell. *)
Lemma table_row_not_at (L a Y acc : string) (bos : bool) :
  L <> "" -> Py.strip L = L -> all_chars nobar L = true ->
  all_chars nobar a = true -> Py.strip a <> L ->
  Re.at_pos (Pat.table_row L) bos acc ("|" ++ a ++ "|" ++ Y) = None.
Proof.
  intros HL HLs HLbar Ha Hne.
  destruct (Re.at_pos _ _ _ _) as [m|] eqn:Hat; [|done]. exfalso.
  apply (at_pos_matches _ _ _ _ _ _ (groups_ok_True _)) in Hat as (_ & Heq & Hm & _).
  apply table_row_matches_inv in Hm as (sp0 & sp1 & w' & Hw & H0 & H1); [|done].
  rewrite Hw in Heq. change ("|" ++ ?x) with (String "|" x) in Heq.
  rewrite sapp_cons in Heq. injection Heq as Heq.
  rewrite !sapp_assoc in Heq. change ("" ++ Y) with Y in Heq.
  assert (a = sp0 ++ L ++ sp1) as ->.
  { apply (nobar_split _ _ Y (w' ++ Re.after m)); [done| |].
    - rewrite !all_chars_app, HLbar, !space_nobar; done.
    - rewrite Heq. by rewrite !sapp_assoc. }
  apply Hne. by rewrite strip_padded.
Qed.

Lemma table_row_not_bar L bos acc c s :
  nobar c = true -> Re.at_pos (Pat.table_row L) bos acc (String c s) = None.
Proof.
  intros Hc. unfold Re.at_pos, Pat.table_row. cbn [Re.seq]. unfold Re.lit at 1.
  rewrite run_cat, run_chr. unfold nobar in Hc. apply negb_true_iff in Hc.
  by rewrite Ascii.eqb_sym, Hc.
Qed.

Lemma search_go_step rx bos acc c s :
  Re.at_pos rx bos acc (String c s) = None ->
  Re.search_go rx bos acc (String c s) = Re.search_go rx false (acc ++ String c "") s.
Proof. intros H. cbn [Re.search_go]. by rewrite H. Qed.

Lemma search_skip_nobar L v : forall bos acc s,
  all_chars nobar v = true ->
  exists bos' acc',
    Re.search_go (Pat.table_row L) bos acc (v ++ s)
    = Re.search_go (Pat.table_row L) bos' acc' s.
Proof.
  induction v as [|c v IH]; intros bos acc s Hv; [by exists bos, acc|].
  cbn in Hv. apply andb_true_iff in Hv as [Hc Hv].
  rewrite sapp_cons, search_go_step by by apply table_row_not_bar.
  apply IH, Hv.
Qed.

Lemma search_skip_cells L cells : forall bos acc X,
  L <> "" -> Py.strip L = L -> all_chars nobar L = true ->
  Forall (fun a => all_chars nobar a = true /\ Py.strip a <> L) cells ->
  exists bos' acc',
    Re.search_go (Pat.table_row L) bos acc (cells_text cells ++ "|" ++ X)
    = Re.search_go (Pat.table_row L) bos' acc' ("|" ++ X).
Proof.
  induction cells as [|a cells IH]; intros bos acc X HL HLs HLbar Hcells.
  - by exists bos, acc.
  - apply Forall_cons in Hcells as [[Ha Hne] Hcells].
    assert (exists Y, cells_text cells ++ "|" ++ X = "|" ++ Y) as [Y HY].
    { destruct cells; by eexists. }
    cbn [cells_text]. rewrite !sapp_assoc.
    change ("|" ++ ?x) with (String "|" x) at 1.
    rewrite search_go_step.
    2:{ rewrite HY. by apply table_row_not_at. }
    destruct (search_skip_nobar L a false (acc ++ "|") (cells_text cells ++ "|" ++ X) Ha)
      as (bos1 & acc1 & ->).
    by apply IH.
Qed.

(** The value of the row of [L] is found behind any text that holds no
    bar and any cells that are not [L]. *)
Lemma table_lookup (L T0 q sp0 sp1 sp2 sp3 rest : string) (cells : list string) :
  L <> "" -> Py.strip L = L -> all_chars nobar L = true ->
  all_chars nobar T0 = true ->
  Forall (fun a => all_chars nobar a = true /\ Py.strip a <> L) cells ->
  all_chars Py.isspace sp0 = true -> all_chars Py.isspace sp1 = true ->
  all_chars Py.isspace sp2 = true -> all_chars Py.isspace sp3 = true ->
  q <> "" -> Py.lstrip q = q -> Py.rstrip q = q ->
  all_chars Re.any q = true -> all_chars nobar q = true ->
  exists m,
    Re.search (Pat.table_row L)
      (T0 ++ cells_text cells ++ "|" ++ sp0 ++ L ++ sp1 ++ "|" ++ sp2 ++ q ++ sp3 ++ "|" ++ rest)
    = Some m
    /\ Re.group 1 m = Some q.
Proof.
  intros HL HLs HLbar HT0 Hcells H0 H1 H2 H3 Hq Hql Hqr Hany Hbar.
  unfold Re.search.
  set (row := sp0 ++ L ++ sp1 ++ "|" ++ sp2 ++ q ++ sp3 ++ "|" ++ rest).
  destruct (search_skip_nobar L T0 true "" (cells_text cells ++ "|" ++ row) HT0)
    as (b1 & acc1 & ->).
  destruct (search_skip_cells L cells b1 acc1 row HL HLs HLbar Hcells) as (b2 & acc2 & ->).
  subst row.
  assert (Py.lstrip L = L) as HLl.
  { destruct (strip_head L) as [E|(c & r & E & Hc)]; [congruence|].
    rewrite HLs in E. rewrite E. unfold Py.lstrip. cbn. by rewrite Hc. }
  destruct (table_row_at L q sp0 sp1 sp2 sp3 rest acc2 b2) as [w Hat]; try done.
  change ("|" ++ sp0 ++ ?x) with (String "|" (sp0 ++ x)) in *.
  cbn [Re.search_go]. rewrite Hat. by eexists.
Qed.

Lemma cells_text_app a b : cells_text (a ++ b) = cells_text a ++ cells_text b.
Proof.
  induction a as [|x a IH]; [done|]. cbn [app cells_text]. by rewrite IH, !sapp_assoc.
Qed.

Lemma clean_value_parts v :
  clean_value v ->
  all_chars nobar v = true /\ all_chars Re.any v = true
  /\ all_chars (fun c => negb (Ascii.eqb c Py.cr)) v = true.
Proof.
  intros [H _]. split_and!; eapply all_chars_impl, H; intros c;
    intros [[? ?]%andb_true_iff ?]%andb_true_iff; done.
Qed.

(** The row [| L | v |] among the cells of a table gives back the
    stripped value. *)
Lemma table_lookup_cells (L T0 v R : string) (pre post : list string) :
  L <> "" -> Py.strip L = L -> all_chars nobar L = true ->
  all_chars nobar T0 = true ->
  Forall (fun a => all_chars nobar a = true /\ Py.strip a <> L) pre ->
  clean_value v ->
  exists m,
    Re.search (Pat.table_row L)
      (T0 ++ cells_text (pre ++ [" " ++ L ++ " "; " " ++ v ++ " "] ++ post) ++ "|" ++ R)
    = Some m
    /\ Re.group 1 m = Some (Py.strip v).
Proof.
  intros HL HLs HLbar HT0 Hpre Hv.
  destruct (clean_value_parts v Hv) as (Hbar & Hany & _). destruct Hv as [_ Hne].
  destruct (strip_decompose v) as (l & t & Hdec & Hl & Ht).
  destruct (strip_shape v Hne) as (c & r & Hc & Hsp & Hr).
  rewrite Hdec in Hbar, Hany.
  assert (exists rest, cells_text post ++ "|" ++ R = "|" ++ rest) as [rest Hrest].
  { destruct post; by eexists. }
  destruct (table_lookup L T0 (Py.strip v) " " " " (" " ++ l) (t ++ " ") rest pre)
    as (m & Hm & Hg); try done.
  - rewrite all_chars_app. by rewrite Ht.
  - unfold Py.lstrip. rewrite Hc. cbn. by rewrite Hsp.
  - by apply all_chars_suffix, all_chars_prefix in Hany.
  - by apply all_chars_suffix, all_chars_prefix in Hbar.
  - exists m. split; [|done]. rewrite <- Hm. f_equal. f_equal.
    rewrite !cells_text_app. cbn [cells_text]. rewrite Hdec at 1.
    rewrite !sapp_assoc. by rewrite Hrest.
Qed.

Lemma translate_newlines_app a b :
  all_chars (fun c => negb (Ascii.eqb c Py.cr)) a = true ->
  Py.translate_newlines (a ++ b) = a ++ Py.translate_newlines b.
Proof.
  induction a as [|c a IH]; [done|]. cbn [all_chars]. intros [Hc Ha]%andb_true_iff.
  rewrite !sapp_cons. cbn [Py.translate_newlines]. apply negb_true_iff in Hc.
  by rewrite Hc, IH.
Qed.

Lemma string_of_uint_all_digits d : all_chars Py.isdigit (NilEmpty.string_of_uint d) = true.
Proof. induction d; cbn; done. Qed.

Lemma str_nat_digits n : all_chars Py.isdigit (Py.str_nat n) = true.
Proof.
  unfold Py.str_nat, NilZero.string_of_uint.
  destruct (Nat.to_uint n) eqn:E; try done; rewrite <- E; apply string_of_uint_all_digits.
Qed.

Lemma strip_idem s : Py.strip (Py.strip s) = Py.strip s.
Proof.
  destruct (string_dec (Py.strip s) "") as [E|Hne]; [by rewrite E|].
  destruct (strip_shape s Hne) as (c & r & Hc & Hsp & Hr).
  unfold Py.strip at 1, Py.lstrip. rewrite Hc at 1. cbn [Py.drop_while]. rewrite Hsp, <- Hc.
  exact Hr.
Qed.

(** The report of the Athena generator up to the last bar of its
    build-information table. *)
Lemma athena_report_form (athena_version now : string) (info : Athena.BuildInfo)
    (deps : list Dependency) :
  let nls := String Py.nl "" in
  exists R,
    Athena.generate_markdown_report athena_version (Some info) deps now
    = ("# Athena SBOM Report" ++ nls ++ nls ++ "**Generated on:** " ++ now ++ nls
       ++ "**Total dependencies:** " ++ Py.str_nat (length deps) ++ nls ++ nls
       ++ "## Build Information" ++ nls ++ nls)
      ++ cells_text
           [ " Component "; " Version/Specification "; nls;
             "-----------"; "-----------------------"; nls;
             " " ++ "C Compiler" ++ " "; " " ++ Py.str_opt (Athena.C_Compiler info) ++ " "; nls;
             " " ++ "CXX Compiler" ++ " "; " " ++ Py.str_opt (Athena.CXX_Compiler info) ++ " "; nls;
             " " ++ "Platform" ++ " "; " " ++ Py.str_opt (Athena.Platform info) ++ " "; nls;
             " " ++ "LCG Version" ++ " "; " " ++ Py.str_opt (Athena.lcg_version info) ++ " " ]
      ++ "|" ++ R.
Proof.
  intros nls. unfold Athena.generate_markdown_report. cbn [app Py.join cells_text].
  eexists. rewrite !sapp_assoc. cbn [append]. reflexivity.
Qed.

Lemma digit_plain c :
  Py.isdigit c = true -> nobar c && negb (Ascii.eqb c Py.cr) = true.
Proof. by destruct c as [[] [] [] [] [] [] [] []]. Qed.

Lemma clean_value_plain v :
  clean_value v -> all_chars (fun c => nobar c && negb (Ascii.eqb c Py.cr)) v = true.
Proof.
  intros [H _]. eapply all_chars_impl, H. intros c.
  intros [[-> _]%andb_true_iff ->]%andb_true_iff. done.
Qed.

Lemma value_cell_ok v L :
  clean_value v -> Py.strip v <> L ->
  all_chars nobar (" " ++ v ++ " ") = true /\ Py.strip (" " ++ v ++ " ") <> L.
Proof.
  intros Hv Hne. destruct (clean_value_parts v Hv) as (Hbar & _). split.
  - rewrite !all_chars_app, Hbar. done.
  - by rewrite strip_padded.
Qed.

Ltac cells_ok :=
  repeat (apply Forall_cons; split;
          [first [ by apply value_cell_ok | split; [reflexivity | by vm_compute] ] |]);
  by apply Forall_nil.

(** X14. The build-information table that [generate_markdown_report] of
    Athena writes is read back by [parse_build_info_from_markdown] as
    the four values, stripped, under the keys C Compiler, CXX Compiler,
    Platform and lcg_version, when the time stamp and the values hold no
    vertical bar and no line break, no value is blank, and no value is
    the label of a row written after its own. *)
Theorem build_info_table_round_trip (athena_version now : string)
    (info : Athena.BuildInfo) (deps : list Dependency) :
  let c := Py.str_opt (Athena.C_Compiler info) in
  let x := Py.str_opt (Athena.CXX_Compiler info) in
  let p := Py.str_opt (Athena.Platform info) in
  let l := Py.str_opt (Athena.lcg_version info) in
  all_chars (fun ch => nobar ch && negb (Ascii.eqb ch Py.cr)) now = true ->
  clean_value c -> clean_value x -> clean_value p -> clean_value l ->
  Py.strip c <> "CXX Compiler" -> Py.strip c <> "Platform" -> Py.strip c <> "LCG Version" ->
  Py.strip x <> "Platform" -> Py.strip x <> "LCG Version" ->
  Py.strip p <> "LCG Version" ->
  VersionSbom.parse_build_info_from_markdown
    (Some (Athena.generate_markdown_report athena_version (Some info) deps now))
  = <["lcg_version" := Py.strip l]>
      (<["Platform" := Py.strip p]>
         (<["CXX Compiler" := Py.strip x]> (<["C Compiler" := Py.strip c]> ∅))).
Proof.
  intros c x p l Hnow Hc Hx Hp Hl Hcx Hcp Hcl Hxp Hxl Hpl.
  destruct (athena_report_form athena_version now info deps) as [R ->].
  fold c x p l.
  set (nls := String Py.nl "").
  set (T0 := "# Athena SBOM Report" ++ nls ++ nls ++ "**Generated on:** " ++ now ++ nls
             ++ "**Total dependencies:** " ++ Py.str_nat (length deps) ++ nls ++ nls
             ++ "## Build Information" ++ nls ++ nls).
  set (head := [ " Component "; " Version/Specification "; nls;
                 "-----------"; "-----------------------"; nls ]).
  assert (Hplain : forall v, clean_value v ->
            all_chars (fun c => nobar c && negb (Ascii.eqb c Py.cr)) v = true)
    by apply clean_value_plain.
  assert (HN : all_chars (fun c => nobar c && negb (Ascii.eqb c Py.cr))
                 (Py.str_nat (length deps)) = true).
  { eapply all_chars_impl, str_nat_digits. apply digit_plain. }
  assert (HT0 : all_chars (fun c => nobar c && negb (Ascii.eqb c Py.cr)) T0 = true).
  { subst T0. rewrite !all_chars_app, Hnow, HN. done. }
  unfold VersionSbom.parse_build_info_from_markdown, Py.read.
  rewrite <- !sapp_assoc. rewrite translate_newlines_app.
  2:{ rewrite !all_chars_app. cbn [cells_text]. rewrite !all_chars_app.
      rewrite (all_chars_impl _ _ T0 (fun c H => proj2 (andb_prop _ _ H)) HT0).
      rewrite !(all_chars_impl _ _ _ (fun c H => proj2 (andb_prop _ _ H)) (Hplain _ Hc)).
      rewrite !(all_chars_impl _ _ _ (fun c H => proj2 (andb_prop _ _ H)) (Hplain _ Hx)).
      rewrite !(all_chars_impl _ _ _ (fun c H => proj2 (andb_prop _ _ H)) (Hplain _ Hp)).
      rewrite !(all_chars_impl _ _ _ (fun c H => proj2 (andb_prop _ _ H)) (Hplain _ Hl)).
      done. }
  rewrite !sapp_assoc.
  set (R' := Py.translate_newlines R).
  assert (HT0bar : all_chars nobar T0 = true).
  { eapply all_chars_impl, HT0. by intros ch [? _]%andb_true_iff. }
  destruct (table_lookup_cells "C Compiler" T0 c R' head
              [ nls; " " ++ "CXX Compiler" ++ " "; " " ++ x ++ " "; nls;
                " " ++ "Platform" ++ " "; " " ++ p ++ " "; nls;
                " " ++ "LCG Version" ++ " "; " " ++ l ++ " " ])
    as (m1 & Hm1 & Hg1); [done | done | done | done | cells_ok | done |].
  destruct (table_lookup_cells "CXX Compiler" T0 x R'
              (head ++ [ " " ++ "C Compiler" ++ " "; " " ++ c ++ " "; nls ])
              [ nls; " " ++ "Platform" ++ " "; " " ++ p ++ " "; nls;
                " " ++ "LCG Version" ++ " "; " " ++ l ++ " " ])
    as (m2 & Hm2 & Hg2); [done | done | done | done | cells_ok | done |].
  destruct (table_lookup_cells "Platform" T0 p R'
              (head ++ [ " " ++ "C Compiler" ++ " "; " " ++ c ++ " "; nls;
                         " " ++ "CXX Compiler" ++ " "; " " ++ x ++ " "; nls ])
              [ nls; " " ++ "LCG Version" ++ " "; " " ++ l ++ " " ])
    as (m3 & Hm3 & Hg3); [done | done | done | done | cells_ok | done |].
  destruct (table_lookup_cells "LCG Version" T0 l R'
              (head ++ [ " " ++ "C Compiler" ++ " "; " " ++ c ++ " "; nls;
                         " " ++ "CXX Compiler" ++ " "; " " ++ x ++ " "; nls;
                         " " ++ "Platform" ++ " "; " " ++ p ++ " "; nls ])
              [])
    as (m4 & Hm4 & Hg4); [done | done | done | done | cells_ok | done |].
  unfold VersionSbom.markdown_steps. cbn [fmap list_fmap try_steps fst snd].
  subst head. cbn [app] in Hm1, Hm2, Hm3, Hm4.
  rewrite Hm1, Hg1. cbn [Py.not_none mbind result_bind].
  rewrite Hm2, Hg2. cbn [Py.not_none mbind result_bind].
  rewrite Hm3, Hg3. cbn [Py.not_none mbind result_bind].
  rewrite Hm4, Hg4. cbn [Py.not_none mbind result_bind].
  by rewrite !strip_idem.
Qed.

Ltac clean_here := split; [reflexivity | by vm_compute].

Lemma build_info_table_round_trip_witness :
  let info := Athena.mkBuildInfo (Some "106b_ATLAS_1") (Some "x86_64-el9-gcc13-opt") ["Acts"]
                (Some "GNU 13.1.0") (Some "GNU 13.1.0 ") None in
  clean_value "GNU 13.1.0 " /\ clean_value "None"
  /\ VersionSbom.parse_build_info_from_markdown
       (Some (Athena.generate_markdown_report "24.0" (Some info) athena_deps
                "2025-01-01 02:00:00"))
     = <["lcg_version" := "106b_ATLAS_1"]>
         (<["Platform" := "None"]>
            (<["CXX Compiler" := "GNU 13.1.0"]> (<["C Compiler" := "GNU 13.1.0"]> ∅))).
Proof.
  intros info. split; [clean_here|]. split; [clean_here|].
  apply (build_info_table_round_trip "24.0" "2025-01-01 02:00:00" info athena_deps);
    first [reflexivity | clean_here | by vm_compute].
Defined.

(** ** The readers of the build log *)

Lemma labelled_sets label : Re.sets 1 (Pat.labelled label) = true.
Proof. unfold Pat.labelled. cbn [Re.seq Re.sets]. by rewrite orb_true_r. Qed.

Lemma labelled_step_eq (lines : list string) (i : nat) (label key : string)
    (info : gmap string string) :
  (if (i <? length lines)%nat then
     line ← Py.index lines i;
     match Re.search (Pat.labelled label) (Py.strip line) with
     | Some m => v ← Py.not_none (Re.group 1 m); Ok (<[key := v]> info)
     | None => Ok info
     end
   else Ok info)
  = Ok (opt_insert key (labelled_at label lines i) info).
Proof.
  unfold labelled_at, Py.index, opt_insert.
  destruct (Nat.ltb_spec i (length lines)) as [Hi|Hi].
  - destruct (lookup_lt_is_Some_2 lines i Hi) as [line ->]. cbn.
    destruct (Re.search _ _) as [m|] eqn:Hs; [|done]. cbn.
    by destruct (search_groups _ _ _ 1%nat Hs (labelled_sets label)) as [v ->].
  - by rewrite lookup_ge_None_2.
Qed.

Lemma athena_labelled_step_eq (lines : list string) (i : nat) (label : string)
    (r : Athena.BuildInfo) (set : option string -> Athena.BuildInfo) :
  (if (i <? length lines)%nat then
     line ← Py.index lines i;
     match Re.search (Pat.labelled label) (Py.strip line) with
     | Some m => Ok (set (Re.group 1 m))
     | None => Ok r
     end
   else Ok r)
  = Ok (match labelled_at label lines i with
        | Some v => set (Some v)
        | None => r
        end).
Proof.
  unfold labelled_at, Py.index.
  destruct (Nat.ltb_spec i (length lines)) as [Hi|Hi].
  - destruct (lookup_lt_is_Some_2 lines i Hi) as [line ->]. cbn.
    destruct (Re.search _ _) as [m|] eqn:Hs; [|done]. cbn.
    by destruct (search_groups _ _ _ 1%nat Hs (labelled_sets label)) as [v ->].
  - by rewrite lookup_ge_None_2.
Qed.

Lemma first_line_labelled lines label n :
  first_line_group (Pat.labelled label) 1 lines = None ->
  labelled_at label lines n = None.
Proof.
  unfold first_line_group, labelled_at. revert n.
  induction lines as [|line lines IH]; intros n H; [done|].
  cbn [Athena.first_line_match] in H.
  destruct (Re.search (Pat.labelled label) (Py.strip line)) as [m|] eqn:Hs.
  - cbn in H. destruct (search_groups _ _ _ 1%nat Hs (labelled_sets label)) as [v Hv].
    congruence.
  - destruct n as [|n].
    + change ((line :: lines) !! 0%nat) with (Some line). cbn [mbind option_bind].
      by rewrite Hs.
    + change ((line :: lines) !! S n) with (lines !! n). by apply IH.
Qed.

Lemma backend_build_info_eq raw :
  BackendAnalysisBase.parse_build_info (Some raw)
  = opt_insert "Platform" (labelled_at "Using platform name: " (Py.readlines raw) 24)
      (opt_insert "CXX Compiler"
         (labelled_at "The CXX compiler identification is " (Py.readlines raw) 1)
         (opt_insert "C Compiler"
            (labelled_at "The C compiler identification is " (Py.readlines raw) 0) ∅)).
Proof.
  unfold BackendAnalysisBase.parse_build_info, BackendAnalysisBase.build_info_steps.
  cbn [try_steps]. by rewrite !labelled_step_eq.
Qed.

Lemma file_build_info_eq raw :
  VersionSbom.parse_build_info_from_file (Some raw)
  = opt_insert "platform" (first_line_group Pat.lcg_release 2 (Py.readlines raw))
      (opt_insert "lcg_version" (first_line_group Pat.lcg_release 1 (Py.readlines raw))
         (BackendAnalysisBase.parse_build_info (Some raw))).
Proof.
  unfold VersionSbom.parse_build_info_from_file, VersionSbom.file_steps.
  rewrite try_steps_app by apply backend_steps_total.
  fold (BackendAnalysisBase.parse_build_info (Some raw)).
  cbn [try_steps]. unfold first_line_group.
  destruct (Athena.first_line_match Pat.lcg_release (Py.readlines raw)) as [m|] eqn:Hm; [|done].
  destruct (first_line_match_groups _ _ _ 1%nat Hm eq_refl) as [v1 Hv1].
  destruct (first_line_match_groups _ _ _ 2%nat Hm eq_refl) as [v2 Hv2].
  cbn. by rewrite Hv1, Hv2.
Qed.

Lemma athena_build_info_fields raw :
  let a := Athena.parse_build_info (Some raw) in
  let lines := Py.readlines raw in
  Athena.C_Compiler a = labelled_at "The C compiler identification is " lines 0
  /\ Athena.CXX_Compiler a = labelled_at "The CXX compiler identification is " lines 1
  /\ Athena.lcg_version a = first_line_group Pat.lcg_release 1 lines
  /\ Athena.platform a = first_line_group Pat.lcg_release 2 lines
  /\ Athena.Platform a = first_line_group (Pat.labelled "Using platform name: ") 1 lines.
Proof.
  cbn zeta. unfold Athena.parse_build_info, Athena.build_info_steps.
  set (lines := Py.readlines raw). cbn [try_steps].
  rewrite (athena_labelled_step_eq lines 0 _ Athena.empty_info
             (fun g => Athena.mkBuildInfo None None [] g None None)).
  destruct (labelled_at "The C compiler identification is " lines 0) as [c|];
    cbn [Athena.lcg_version Athena.platform Athena.packages Athena.C_Compiler
           Athena.CXX_Compiler Athena.Platform Athena.empty_info].
  all: match goal with |- context [Athena.mkBuildInfo None None [] ?cc (Re.group 1 _) None] =>
         rewrite (athena_labelled_step_eq lines 1 _ (Athena.mkBuildInfo None None [] cc None None)
                    (fun g => Athena.mkBuildInfo None None [] cc g None)) end.
  all: destruct (labelled_at "The CXX compiler identification is " lines 1) as [x|];
    unfold first_line_group;
    destruct (Athena.first_line_match Pat.lcg_release lines) as [m|];
    destruct (Athena.first_line_match (Pat.labelled "Using platform name: ") lines) as [mp|];
    cbn [Athena.lcg_version Athena.platform Athena.packages Athena.C_Compiler
           Athena.CXX_Compiler Athena.Platform];
    destruct (Athena.package_rules lines false []) as [pkgs|e]; done.
Qed.

(** X15. On every build log the three readers agree: [parse_build_info_from_file]
    gives under C Compiler, CXX Compiler, lcg_version and platform what
    [parse_build_info] of Athena gives, and has a Platform only when
    that one has; [parse_build_info] of the AnalysisBase backend gives
    the same C Compiler, CXX Compiler and Platform, and never an
    lcg_version or a platform. *)
Theorem build_info_readers_agree (build_txt : option string) :
  let a := Athena.parse_build_info build_txt in
  let f := VersionSbom.parse_build_info_from_file build_txt in
  let b := BackendAnalysisBase.parse_build_info build_txt in
  f !! "C Compiler" = Athena.C_Compiler a
  /\ f !! "CXX Compiler" = Athena.CXX_Compiler a
  /\ f !! "lcg_version" = Athena.lcg_version a
  /\ f !! "platform" = Athena.platform a
  /\ (is_Some (f !! "Platform") -> is_Some (Athena.Platform a))
  /\ b !! "C Compiler" = f !! "C Compiler"
  /\ b !! "CXX Compiler" = f !! "CXX Compiler"
  /\ b !! "Platform" = f !! "Platform"
  /\ b !! "lcg_version" = None /\ b !! "platform" = None.
Proof.
  destruct build_txt as [raw|]; [|cbn; split_and!; try done; by intros [? ?]].
  cbn zeta. destruct (athena_build_info_fields raw) as (-> & -> & -> & -> & ->).
  rewrite file_build_info_eq, backend_build_info_eq.
  pose proof (first_line_labelled (Py.readlines raw) "Using platform name: " 24) as Hplat.
  destruct (labelled_at "The C compiler identification is " _ 0) as [c|],
    (labelled_at "The CXX compiler identification is " _ 1) as [x|],
    (labelled_at "Using platform name: " _ 24) as [p|],
    (first_line_group Pat.lcg_release 1 _) as [l1|],
    (first_line_group Pat.lcg_release 2 _) as [l2|],
    (first_line_group (Pat.labelled "Using platform name: ") 1 _) as [pp|];
    unfold opt_insert; simplify_map_eq; split_and!; try done;
    try (intros _; by eauto); try (by intros [? ?]); try (by specialize (Hplat eq_refl)).
Qed.

Lemma build_info_readers_agree_witness :
  let f := VersionSbom.parse_build_info_from_file (Some athena_log) in
  let a := Athena.parse_build_info (Some athena_log) in
  f !! "Platform" = Some "x86_64-el9-gcc13-opt"
  /\ is_Some (Athena.Platform a)
  /\ f !! "platform" = Athena.platform a.
Proof.
  intros f a.
  destruct (build_info_readers_agree (Some athena_log)) as (_ & _ & _ & Hp & HP & _).
  assert (f !! "Platform" = Some "x86_64-el9-gcc13-opt") as H by (by vm_compute).
  split; [exact H|]. split; [|exact Hp].
  apply HP. fold f. rewrite H. by eexists.
Defined.

Lemma analysisbase_report_form (av ev now : string) (info : gmap string string)
    (deps : list Dependency) (c x p : string) :
  info !! "C Compiler" = Some c -> info !! "CXX Compiler" = Some x ->
  info !! "Platform" = Some p ->
  let nls := String Py.nl "" in
  exists R,
    App.generate_markdown_report av ev (Some info) deps now
    = ("# AnalysisBase SBOM Report" ++ nls ++ nls ++ "**Generated on:** " ++ now ++ nls
       ++ "**Total dependencies:** " ++ Py.str_nat (length deps) ++ nls ++ nls
       ++ "## Build Information" ++ nls ++ nls)
      ++ cells_text
           [ " Component "; " Version/Specification "; nls;
             "-----------"; "-----------------------"; nls;
             " " ++ "C Compiler" ++ " "; " " ++ c ++ " "; nls;
             " " ++ "CXX Compiler" ++ " "; " " ++ x ++ " "; nls;
             " " ++ "Platform" ++ " "; " " ++ p ++ " " ]
      ++ "|" ++ R.
Proof.
  intros Hc Hx Hp nls. unfold App.generate_markdown_report, App.info_row.
  rewrite Hc, Hx, Hp. rewrite bool_decide_false by (intros ->; by rewrite lookup_empty in Hc).
  cbn [app Py.join cells_text].
  eexists. rewrite !sapp_assoc. cbn [append]. reflexivity.
Qed.

Lemma analysisbase_table_round_trip (av ev now : string) (info : gmap string string)
    (deps : list Dependency) (c x p : string) :
  info !! "C Compiler" = Some c -> info !! "CXX Compiler" = Some x ->
  info !! "Platform" = Some p ->
  all_chars (fun ch => nobar ch && negb (Ascii.eqb ch Py.cr)) now = true ->
  clean_value c -> clean_value x -> clean_value p ->
  Py.strip c <> "CXX Compiler" -> Py.strip c <> "Platform" -> Py.strip x <> "Platform" ->
  App.recent_build_info (Some (App.generate_markdown_report av ev (Some info) deps now))
  = Some (<["Platform" := Py.strip p]>
            (<["CXX Compiler" := Py.strip x]> (<["C Compiler" := Py.strip c]> ∅))).
Proof.
  intros Hic Hix Hip Hnow Hc Hx Hp Hcx Hcp Hxp.
  destruct (analysisbase_report_form av ev now info deps c x p Hic Hix Hip) as [R ->].
  set (nls := String Py.nl "").
  set (T0 := "# AnalysisBase SBOM Report" ++ nls ++ nls ++ "**Generated on:** " ++ now ++ nls
             ++ "**Total dependencies:** " ++ Py.str_nat (length deps) ++ nls ++ nls
             ++ "## Build Information" ++ nls ++ nls).
  assert (Hplain : forall v, clean_value v ->
            all_chars (fun c => nobar c && negb (Ascii.eqb c Py.cr)) v = true)
    by apply clean_value_plain.
  assert (HN : all_chars (fun c => nobar c && negb (Ascii.eqb c Py.cr))
                 (Py.str_nat (length deps)) = true).
  { eapply all_chars_impl, str_nat_digits. apply digit_plain. }
  assert (HT0 : all_chars (fun c => nobar c && negb (Ascii.eqb c Py.cr)) T0 = true).
  { subst T0. rewrite !all_chars_app, Hnow, HN. done. }
  unfold App.recent_build_info, Py.read.
  rewrite <- !sapp_assoc. rewrite translate_newlines_app.
  2:{ rewrite !all_chars_app. cbn [cells_text]. rewrite !all_chars_app.
      rewrite (all_chars_impl _ _ T0 (fun c H => proj2 (andb_prop _ _ H)) HT0).
      rewrite !(all_chars_impl _ _ _ (fun c H => proj2 (andb_prop _ _ H)) (Hplain _ Hc)).
      rewrite !(all_chars_impl _ _ _ (fun c H => proj2 (andb_prop _ _ H)) (Hplain _ Hx)).
      rewrite !(all_chars_impl _ _ _ (fun c H => proj2 (andb_prop _ _ H)) (Hplain _ Hp)).
      done. }
  rewrite !sapp_assoc.
  set (R' := Py.translate_newlines R).
  assert (HT0bar : all_chars nobar T0 = true).
  { eapply all_chars_impl, HT0. by intros ch [? _]%andb_true_iff. }
  destruct (table_lookup_cells "C Compiler" T0 c R'
              [ " Component "; " Version/Specification "; nls;
                "-----------"; "-----------------------"; nls ]
              [ nls; " " ++ "CXX Compiler" ++ " "; " " ++ x ++ " "; nls;
                " " ++ "Platform" ++ " "; " " ++ p ++ " " ])
    as (m1 & Hm1 & Hg1); [done | done | done | done | cells_ok | done |].
  destruct (table_lookup_cells "CXX Compiler" T0 x R'
              [ " Component "; " Version/Specification "; nls;
                "-----------"; "-----------------------"; nls;
                " " ++ "C Compiler" ++ " "; " " ++ c ++ " "; nls ]
              [ nls; " " ++ "Platform" ++ " "; " " ++ p ++ " " ])
    as (m2 & Hm2 & Hg2); [done | done | done | done | cells_ok | done |].
  destruct (table_lookup_cells "Platform" T0 p R'
              [ " Component "; " Version/Specification "; nls;
                "-----------"; "-----------------------"; nls;
                " " ++ "C Compiler" ++ " "; " " ++ c ++ " "; nls;
                " " ++ "CXX Compiler" ++ " "; " " ++ x ++ " "; nls ]
              [])
    as (m3 & Hm3 & Hg3); [done | done | done | done | cells_ok | done |].
  cbn [fmap list_fmap try_steps].
  cbn [app] in Hm1, Hm2, Hm3.
  rewrite Hm1, Hg1. cbn [Py.not_none mbind result_bind].
  rewrite Hm2, Hg2. cbn [Py.not_none mbind result_bind].
  rewrite Hm3, Hg3. cbn [Py.not_none mbind result_bind].
  by rewrite !strip_idem.
Qed.

(** With build information on both sides, two signatures agree when
    the documents and the build information agree. *)
Lemma signature_with_info (d1 d2 : Sbom) (i1 i2 : gmap string string) :
  i1 <> ∅ -> i2 <> ∅ ->
  get_sbom_signature d1 None = get_sbom_signature d2 None ->
  (get_sbom_signature d1 (Some i1) = get_sbom_signature d2 (Some i2) <-> i1 = i2).
Proof.
  intros H1 H2. unfold get_sbom_signature.
  rewrite !bool_decide_false by done. cbn [app].
  intros [= Hc Hp]. rewrite Hc, Hp. split.
  - intros [= H]. by apply (map_to_list_inj _ _), sorted_inv.
  - by intros ->.
Qed.

(** X17. In [create_sbom] for AnalysisBase, when the most recent report was
    written for build information with the three keys C Compiler, CXX
    Compiler and Platform (values on one line, without a vertical bar,
    not blank, none the label of a later row) and the stored manifest
    has the signature of the new one, the build information read back
    is that of the stripped values, and the request is a duplicate
    exactly when stripping changes none of the three values. *)
Theorem create_sbom_duplicate_iff (doc doc' : Sbom) (av ev now : string)
    (deps : list Dependency) (c x p : string) :
  let info : gmap string string :=
    <["Platform" := p]> (<["CXX Compiler" := x]> (<["C Compiler" := c]> ∅)) in
  let report := App.generate_markdown_report av ev (Some info) deps now in
  all_chars (fun ch => nobar ch && negb (Ascii.eqb ch Py.cr)) now = true ->
  clean_value c -> clean_value x -> clean_value p ->
  Py.strip c <> "CXX Compiler" -> Py.strip c <> "Platform" -> Py.strip x <> "Platform" ->
  get_sbom_signature doc' None = get_sbom_signature doc None ->
  App.recent_build_info (Some report)
  = Some (<["Platform" := Py.strip p]>
            (<["CXX Compiler" := Py.strip x]> (<["C Compiler" := Py.strip c]> ∅)))
  /\ App.is_duplicate doc (Some info) (Some (mkVdir (Some doc') (Some report)))
     = bool_decide (Py.strip c = c /\ Py.strip x = x /\ Py.strip p = p).
Proof.
  intros info report Hnow Hc Hx Hp Hcx Hcp Hxp Hsig.
  assert (Hround := analysisbase_table_round_trip av ev now info deps c x p
                      ltac:(by subst info; simplify_map_eq)
                      ltac:(by subst info; simplify_map_eq)
                      ltac:(by subst info; simplify_map_eq)
                      Hnow Hc Hx Hp Hcx Hcp Hxp).
  fold report in Hround. split; [done|].
  unfold App.is_duplicate. cbn [v_json v_md]. rewrite Hround.
  apply bool_decide_ext. rewrite signature_with_info; [| | |done].
  - subst info. split.
    + intros H. split_and!.
      * apply (f_equal (fun m => m !! "C Compiler")) in H. by simplify_map_eq.
      * apply (f_equal (fun m => m !! "CXX Compiler")) in H. by simplify_map_eq.
      * apply (f_equal (fun m => m !! "Platform")) in H. by simplify_map_eq.
    + by intros (-> & -> & ->).
  - apply insert_non_empty.
  - apply insert_non_empty.
Qed.

Lemma create_sbom_duplicate_iff_witness :
  let doc t := mkSbom None (Some "CycloneDX") (Some "1.4") None (Some 1)
                 (Some (mkMetadata (Some t) []
                          (Some [mkProperty (Some "AnalysisBase") (Some "24.0")])))
                 (Some [mkComponent (Some "library") (Some "Boost") (Some "1.82.0") []]) in
  let info : gmap string string :=
    <["Platform" := "x86_64-el9-gcc13-opt"]>
      (<["CXX Compiler" := "GNU 13.1.0"]> (<["C Compiler" := "GNU 13.1.0"]> ∅)) in
  let report := App.generate_markdown_report "24.0" "24.2.42" (Some info) [] "2025-01-01 02:00:00" in
  clean_value "GNU 13.1.0" /\ clean_value "x86_64-el9-gcc13-opt"
  /\ App.is_duplicate (doc "t2") (Some info) (Some (mkVdir (Some (doc "t1")) (Some report)))
     = true.
Proof.
  intros doc info report. split; [clean_here|]. split; [clean_here|].
  destruct (create_sbom_duplicate_iff (doc "t2") (doc "t1") "24.0" "24.2.42"
              "2025-01-01 02:00:00" [] "GNU 13.1.0" "GNU 13.1.0" "x86_64-el9-gcc13-opt")
    as [_ Hdup];
    lazymatch goal with
    | |- App.is_duplicate _ _ _ = true => idtac
    | |- _ => first [reflexivity | clean_here | by vm_compute]
    end.
  fold info report in Hdup. rewrite Hdup. reflexivity.
Defined.

(** ** The Python version line *)

Lemma matches_chars_in p r bos w s :
  chars_in p r -> matches r bos w s -> all_chars p w = true.
Proof.
  intros Hin H. induction H; cbn [chars_in] in Hin; try done.
  - cbn. by rewrite (Hin c H).
  - destruct Hin. rewrite all_chars_app. by rewrite IHmatches1, IHmatches2.
  - destruct Hin. auto.
  - destruct Hin. auto.
  - rewrite all_chars_app. by rewrite IHmatches1, IHmatches2.
  - auto.
Qed.

Lemma matches_plus_nonempty p r2 bos w s :
  matches (Cat (Re.plus (Chr p)) r2) bos w s -> w <> "".
Proof.
  intros (w1 & w2 & -> & [H _]%matches_plus_chr & _)%matches_cat_inv. by destruct w1.
Qed.

Lemma digit_dotnum c : Re.digit c = true -> Pat.dotnum c = true.
Proof. by destruct c as [[] [] [] [] [] [] [] []]. Qed.

Lemma lit_dot_dotnum c : Ascii.eqb "." c = true -> Pat.dotnum c = true.
Proof. by intros <-%Ascii.eqb_eq. Qed.

Lemma dotnum_token w : w <> "" -> all_chars Pat.dotnum w = true -> token w.
Proof. intros. by eapply token_of_class; [apply dotnum_not_space|..]. Qed.

Lemma pattern_groups_ok :
  groups_ok (fun _ w => w <> "" /\ all_chars Pat.dotnum w = true) PythonVersion.pattern.
Proof.
  unfold PythonVersion.pattern. cbn [Re.seq groups_ok].
  assert (Hs : forall l, groups_ok (fun _ w => w <> "" /\ all_chars Pat.dotnum w = true) (Re.str l)).
  { intros l. induction l as [|c [|c' l] IH]; cbn; try done. }
  split; [apply Hs|]. split; [|cbn; done].
  intros bos w s Hm. split.
  - by apply (matches_plus_nonempty _ _ _ _ _ Hm).
  - eapply matches_chars_in, Hm. cbn.
    split_and!; first [apply digit_dotnum | apply lit_dot_dotnum].
Qed.

Lemma backend_pattern_groups_ok :
  groups_ok (fun n w => n = 2%nat -> w <> "" /\ all_chars Pat.dotnum w = true)
    PythonVersion.backend_pattern.
Proof.
  unfold PythonVersion.backend_pattern. cbn [Re.seq groups_ok Re.str Re.plus Re.opt Re.star Re.lit].
  split_and!; try done.
  intros bos w s Hm _. split.
  - by apply (matches_plus_nonempty _ _ _ _ _ Hm).
  - eapply matches_chars_in, Hm. cbn.
    split_and!; first [apply digit_dotnum | apply lit_dot_dotnum | done].
Qed.

(** The version found in [pyDep.txt] is made of digits and dots. *)
Lemma find_version_shape accept rx n lines v
    (P : nat -> string -> Prop) :
  groups_ok P rx ->
  PythonVersion.find_version accept rx n lines = Some v -> P n v.
Proof.
  intros Hok. induction lines as [|line lines IH]; [done|]. cbn.
  destruct (accept line); [|done].
  destruct (Re.search rx line) as [m|] eqn:Hs; [|done].
  intros Hg. apply (search_matches _ _ _ _ Hok) in Hs as (_ & _ & _ & HP). by apply HP.
Qed.

Lemma translate_newlines_id s :
  all_chars (fun c => negb (Ascii.eqb c Py.cr)) s = true -> Py.translate_newlines s = s.
Proof.
  intros H. rewrite <- (sapp_nil_r s) at 1. rewrite translate_newlines_app by done.
  by rewrite sapp_nil_r.
Qed.

(** Universal newlines on a text that goes on with something that is
    not a line feed. *)
Lemma translate_newlines_app_gen a c b :
  c <> Py.nl ->
  Py.translate_newlines (a ++ String c b)
  = Py.translate_newlines a ++ Py.translate_newlines (String c b).
Proof.
  intros Hc. remember (String.length a) as n eqn:Hn.
  assert (String.length a <= n)%nat as Hle by lia. clear Hn. revert a Hle.
  induction n as [|n IH]; intros a Hle.
  - destruct a; [reflexivity | cbn in Hle; lia].
  - destruct a as [|x a]; [reflexivity|]. cbn in Hle.
    rewrite sapp_cons. cbn [Py.translate_newlines].
    destruct (Ascii.eqb x Py.cr).
    + destruct a as [|y a].
      * change ("" ++ String c b) with (String c b). cbv iota.
        destruct (Ascii.eqb_spec c Py.nl); [done|]. done.
      * rewrite sapp_cons. cbn in Hle. destruct (Ascii.eqb y Py.nl).
        -- rewrite sapp_cons. f_equal. apply IH. lia.
        -- rewrite sapp_cons, <- sapp_cons. f_equal. apply IH. cbn. lia.
    + rewrite sapp_cons. f_equal. apply IH. lia.
Qed.

Lemma lines_of_app a b :
  nl_terminated a = true -> Py.lines_of (a ++ b) = (Py.lines_of a ++ Py.lines_of b)%list.
Proof.
  induction a as [|c a IH]; [done|]. intros H.
  rewrite sapp_cons. cbn [Py.lines_of].
  destruct a as [|c' a].
  - cbn in H. rewrite H. done.
  - rewrite IH by done. destruct (Ascii.eqb c Py.nl); [done|].
    destruct (Py.lines_of (String c' a)) eqn:E; [|done].
    exfalso. cbn in E. destruct (Ascii.eqb c' Py.nl); [done|]. by destruct (Py.lines_of a).
Qed.

Lemma lines_of_line line :
  no_nl line = true -> Py.lines_of (line ++ String Py.nl "") = [line ++ String Py.nl ""].
Proof.
  induction line as [|c line IH]; [done|]. cbn [no_nl]. intros [Hc Hl]%andb_true_iff.
  rewrite sapp_cons. cbn [Py.lines_of]. apply negb_true_iff in Hc. by rewrite Hc, IH.
Qed.

Lemma dotnum_plain v :
  all_chars Pat.dotnum v = true ->
  no_nl v = true /\ all_chars (fun c => negb (Ascii.eqb c Py.cr)) v = true.
Proof.
  intros H. split.
  - induction v as [|c v IH]; [done|]. cbn in H |- *. apply andb_true_iff in H as [Hc Hv].
    rewrite IH by done. by destruct c as [[] [] [] [] [] [] [] []].
  - eapply all_chars_impl, H. by intros [[] [] [] [] [] [] [] []].
Qed.

Lemma startswith_refl s : Py.startswith s s = true.
Proof. unfold Py.startswith. induction s as [|c s IH]; [done|]. cbn. by destruct (ascii_dec c c). Qed.

(** After the line was appended to a file that ends with a line feed,
    the scan of [cppDep.txt] finds it. *)
Lemma already_present_after_append v cppdep :
  v <> "" -> all_chars Pat.dotnum v = true ->
  (forall raw, cppdep = Some raw -> nl_terminated (Py.read raw) = true) ->
  PythonVersion.already_present v
    (PythonVersion.append_text cppdep ("Python: " ++ v ++ String Py.nl "")) = true.
Proof.
  intros Hv Hall Hnl. destruct (dotnum_plain v Hall) as [Hno Hcr].
  assert (Htok : token v) by by apply dotnum_token.
  assert (Hline : Py.lines_of ("Python: " ++ v ++ String Py.nl "")
                  = ["Python: " ++ v ++ String Py.nl ""]).
  { rewrite <- sapp_assoc. apply lines_of_line. by rewrite no_nl_app, Hno. }
  assert (Htr : Py.translate_newlines ("Python: " ++ v ++ String Py.nl "")
                = "Python: " ++ v ++ String Py.nl "").
  { apply translate_newlines_id. rewrite !all_chars_app, Hcr. done. }
  assert (Hstrip : Py.strip ("Python: " ++ v ++ String Py.nl "") = "Python: " ++ v)
    by by apply (strip_written_line "P" "ython: " v).
  unfold PythonVersion.already_present, PythonVersion.append_text, Py.readlines, Py.read.
  destruct cppdep as [raw|].
  - change ("Python: " ++ v ++ String Py.nl "")
      with (String "P" ("ython: " ++ v ++ String Py.nl "")) at 1.
    rewrite translate_newlines_app_gen by done.
    change (String "P" ("ython: " ++ v ++ String Py.nl ""))
      with ("Python: " ++ v ++ String Py.nl "").
    rewrite Htr, lines_of_app by by apply Hnl.
    rewrite Hline, existsb_app. cbn [existsb]. rewrite Hstrip, startswith_refl.
    by rewrite !orb_true_r.
  - rewrite Htr, Hline. cbn [existsb]. by rewrite Hstrip, startswith_refl.
Qed.

Lemma update_cppdep_idempotent version cppdep :
  (forall v, version = Some v -> v <> "" /\ all_chars Pat.dotnum v = true) ->
  (forall raw, cppdep = Some raw -> nl_terminated (Py.read raw) = true) ->
  PythonVersion.update_cppdep version (PythonVersion.update_cppdep version cppdep)
  = PythonVersion.update_cppdep version cppdep.
Proof.
  intros Hshape Hnl. unfold PythonVersion.update_cppdep.
  destruct version as [v|]; [|done]. destruct (Hshape v eq_refl) as [Hv Hall].
  destruct (Py.truthy v); [|done].
  destruct (PythonVersion.already_present v cppdep) eqn:Hp; [by rewrite Hp|].
  by rewrite already_present_after_append.
Qed.

(** What the update does to [cppDep.txt]. *)
Lemma update_cppdep_shape version cppdep :
  (forall v, version = Some v -> v <> "" /\ all_chars Pat.dotnum v = true) ->
  PythonVersion.update_cppdep version cppdep = cppdep
  \/ exists v, version = Some v /\ v <> "" /\ all_chars Pat.dotnum v = true
       /\ PythonVersion.already_present v cppdep = false
       /\ PythonVersion.update_cppdep version cppdep
          = PythonVersion.append_text cppdep ("Python: " ++ v ++ String Py.nl "").
Proof.
  intros Hshape. unfold PythonVersion.update_cppdep.
  destruct version as [v|]; [|by left]. destruct (Hshape v eq_refl) as [Hv Hall].
  destruct (Py.truthy v); [|by left].
  destruct (PythonVersion.already_present v cppdep) eqn:Hp; [by left|].
  right. by exists v.
Qed.

(** X16. [extract_python_version_and_update_cppdep], in both variants, leaves
    cppDep.txt as it is or appends one line Python: version whose
    version is a non-empty text of digits and dots; when cppDep.txt is
    absent, empty or ends with a line feed, running it a second time
    changes nothing more. *)
Theorem python_version_update_idempotent (pydep cppdep : option string) :
  let f := PythonVersion.extract_python_version_and_update_cppdep pydep in
  let g := PythonVersion.backend_extract_python_version_and_update_cppdep pydep in
  (forall update, update = f \/ update = g ->
     update cppdep = cppdep
     \/ exists v, v <> "" /\ all_chars Pat.dotnum v = true
          /\ update cppdep
             = PythonVersion.append_text cppdep ("Python: " ++ v ++ String Py.nl ""))
  /\ ((forall raw, cppdep = Some raw -> nl_terminated (Py.read raw) = true) ->
      f (f cppdep) = f cppdep /\ g (g cppdep) = g cppdep).
Proof.
  intros f g. subst f g.
  unfold PythonVersion.extract_python_version_and_update_cppdep,
    PythonVersion.backend_extract_python_version_and_update_cppdep.
  destruct pydep as [raw|]; [|split; [intros ? [-> | ->]; by left | done]].
  set (v1 := PythonVersion.find_version _ PythonVersion.pattern _ _).
  set (v2 := PythonVersion.find_version _ PythonVersion.backend_pattern _ _).
  assert (H1 : forall v, v1 = Some v -> v <> "" /\ all_chars Pat.dotnum v = true).
  { intros v Hv. by apply (find_version_shape _ _ _ _ _ _ pattern_groups_ok) in Hv. }
  assert (H2 : forall v, v2 = Some v -> v <> "" /\ all_chars Pat.dotnum v = true).
  { intros v Hv. by apply (find_version_shape _ _ _ _ _ _ backend_pattern_groups_ok) in Hv. }
  split.
  - intros update [-> | ->].
    + destruct (update_cppdep_shape v1 cppdep H1) as [?|(v & _ & ? & ? & _ & ?)];
        [by left | right; by exists v].
    + destruct (update_cppdep_shape v2 cppdep H2) as [?|(v & _ & ? & ? & _ & ?)];
        [by left | right; by exists v].
  - intros Hnl. split; by apply update_cppdep_idempotent.
Qed.

Lemma python_version_update_idempotent_witness :
  let pydep := Some ("Python 3.9.12" ++ String Py.nl "") in
  let cppdep := Some ("Boost: 1.82.0" ++ String Py.nl "") in
  let f := PythonVersion.extract_python_version_and_update_cppdep pydep in
  nl_terminated (Py.read ("Boost: 1.82.0" ++ String Py.nl "")) = true
  /\ f cppdep = Some ("Boost: 1.82.0" ++ String Py.nl "" ++ "Python: 3.9.12" ++ String Py.nl "")
  /\ f (f cppdep) = f cppdep.
Proof.
  intros pydep cppdep f. split; [reflexivity|]. split; [by vm_compute|].
  destruct (python_version_update_idempotent pydep cppdep) as [_ Hidem].
  apply Hidem. intros raw [= <-]. reflexivity.
Defined.

(** Without the final line feed the line is appended to the last line of
    the file, and a second run appends it again. *)
Lemma python_version_update_needs_line_feed :
  let f := PythonVersion.extract_python_version_and_update_cppdep
             (Some ("Python 3.9.12" ++ String Py.nl "")) in
  f (Some "Boost: 1.82.0") = Some ("Boost: 1.82.0Python: 3.9.12" ++ String Py.nl "")
  /\ f (f (Some "Boost: 1.82.0"))
     = Some ("Boost: 1.82.0Python: 3.9.12" ++ String Py.nl ""
             ++ "Python: 3.9.12" ++ String Py.nl "").
Proof. by vm_compute. Qed.

(** ** Requirement files and the Athena generation *)

Lemma package_pattern_groups_ok :
  groups_ok (fun n w => (n = 1%nat -> w <> "" /\ all_chars Pat.ident_dash w = true)
                        /\ (n = 2%nat -> w <> "" /\ all_chars (Re.one_of "=~<>!") w = true))
    GenerateSbom.package_pattern.
Proof.
  unfold GenerateSbom.package_pattern.
  cbn [Re.seq groups_ok Re.str Re.plus Re.opt Re.star Re.lit].
  split_and!; try done.
  - intros bos w s Hm. split; [|done]. intros _.
    by apply (matches_plus_chr _ bos w s).
  - intros bos w s Hm. split; [done|]. intros _.
    by apply (matches_plus_chr _ bos w s).
Qed.

Lemma operator_not_space c : Re.one_of "=~<>!" c = true -> Py.isspace c = false.
Proof. by destruct c as [[] [] [] [] [] [] [] []]. Qed.

Lemma strip_keeps_head c r :
  Py.isspace c = false -> exists t, Py.strip (String c r) = String c t.
Proof.
  intros Hc. unfold Py.strip, Py.lstrip, Py.rstrip. cbn [Py.drop_while]. rewrite Hc.
  by apply drop_while_end_head.
Qed.

Lemma requirement_line_records hash rel line deps deps' :
  GenerateSbom.requirement_line hash rel line deps = Ok deps' ->
  forall d, d ∈ deps' -> d ∈ deps \/ requirement_record rel d.
Proof.
  unfold GenerateSbom.requirement_line.
  destruct (negb _ || _); [intros [= <-]; by left|].
  destruct (Re.match_ _ _) as [m|] eqn:Hm.
  - destruct (match_groups _ _ _ 1%nat Hm eq_refl) as [n Hn].
    destruct (match_groups _ _ _ 2%nat Hm eq_refl) as [op Hop].
    destruct (match_groups _ _ _ 3%nat Hm eq_refl) as [g3 Hg3].
    apply (match_matches _ _ _ _ package_pattern_groups_ok) in Hm as (_ & _ & HP).
    destruct (HP 1%nat n Hn) as [[Hn1 Hn2] _]; [done|].
    destruct (HP 2%nat op Hop) as [_ [Hop1 Hop2]]; [done|].
    rewrite Hn, Hop, Hg3. cbn [Py.not_none mbind result_bind].
    intros [= <-] d [Hd | ->]%elem_of_set_add; [by left | right].
    assert (Hname : Py.strip n = n).
    { apply strip_token. by eapply token_of_class; [apply ident_dash_not_space|..]. }
    set (vs := if Py.truthy (Py.strip g3) then _ else _).
    unfold requirement_record, post_init. cbn [version name source file_path].
    destruct (Py.truthy vs); cbn [Py.truthy_opt version name source file_path fmap option_fmap option_map].
    + destruct op as [|c o]; [done|]. cbn in Hop2. apply andb_true_iff in Hop2 as [Hc _].
      rewrite sapp_cons. cbn [Py.truthy].
      cbn [version name source file_path fmap option_fmap option_map].
      destruct (strip_keeps_head c (o ++ vs) (operator_not_space c Hc)) as [t Ht].
      split_and!; try done. right. exists c, t. rewrite Ht. split_and!; [done..|].
      rewrite <- Ht. apply strip_idem.
    + split_and!; try done. by left.
  - destruct (Py.split_char "#" (Py.strip line)) as [|piece pieces]; [done|].
    cbn [Py.first mbind result_bind].
    destruct (Py.truthy (Py.strip piece)) eqn:Hp; [|intros [= <-]; by left].
    intros [= <-] d [Hd | ->]%elem_of_set_add; [by left | right].
    unfold requirement_record, post_init. cbn [Py.truthy_opt version name source file_path].
    split_and!; try done; [by destruct (Py.strip piece) | apply strip_idem | by left].
Qed.

Lemma try_steps_members {X} (f : X -> list Dependency -> result (list Dependency))
    (Q : Dependency -> Prop) (xs : list X) :
  (forall x deps deps', f x deps = Ok deps' -> forall d, d ∈ deps' -> d ∈ deps \/ Q d) ->
  forall deps d, d ∈ try_steps (f <$> xs) deps -> d ∈ deps \/ Q d.
Proof.
  intros Hf. induction xs as [|x xs IH]; intros deps d Hd; cbn in Hd; [by left|].
  destruct (f x deps) as [deps1|] eqn:H1; [|by left].
  destruct (IH _ _ Hd) as [Hin|HQ]; [|by right]. by eapply Hf.
Qed.

(** X18. Every record that [parse_requirements_file] adds has a name that is
    not empty and has no whitespace at its ends, the source
    requirements.txt and the relative path of the file; its version is
    absent or a text without whitespace at its ends that begins with a
    comparison character. *)
Theorem requirement_records_shape (hash : string * option string -> Z) (rel : string)
    (file : option string) (deps : list Dependency) :
  forall d, d ∈ GenerateSbom.parse_requirements_file hash rel file deps ->
    d ∈ deps \/ requirement_record rel d.
Proof.
  unfold GenerateSbom.parse_requirements_file. destruct file as [raw|]; [|by left].
  apply try_steps_members. apply requirement_line_records.
Qed.

Lemma requirement_records_shape_witness :
  let hash : string * option string -> Z := fun _ => 0 in
  let d := mkDependency "requests" (Some ">=2.0") "requirements.txt" "requirements.txt" in
  GenerateSbom.parse_requirements_file hash "requirements.txt"
    (Some ("requests>=2.0  # pinned" ++ String Py.nl "")) [] = [d]
  /\ requirement_record "requirements.txt" d.
Proof.
  intros hash d.
  assert (GenerateSbom.parse_requirements_file hash "requirements.txt"
            (Some ("requests>=2.0  # pinned" ++ String Py.nl "")) [] = [d]) as H
    by (by vm_compute).
  split; [exact H|].
  destruct (requirement_records_shape hash "requirements.txt"
              (Some ("requests>=2.0  # pinned" ++ String Py.nl "")) [] d) as [Hin|Hrec];
    [rewrite H; by left | by apply elem_of_nil in Hin | exact Hrec].
Defined.






(** ** The pinned Python packages *)

(** A pair as the scan of the requirement files finds them. *)
Lemma pinned_pattern_groups_ok :
  groups_ok (fun n w => (n = 1%nat -> w <> "" /\ all_chars Pat.ident_dash w = true)
                        /\ (n = 2%nat -> token w))
    PythonPackages.pinned_pattern.
Proof.
  cbn. split_and!; try done.
  - intros bos w s Hm. split; [|done]. intros _. by apply matches_plus_chr in Hm.
  - intros bos w s Hm. split; [done|]. intros _. by apply matches_plus_chr in Hm.
Qed.

Lemma pinned_line_found line found found' :
  PythonPackages.pinned_line line found = Ok found' ->
  forall nv, nv ∈ found' ->
    nv ∈ found \/ (nv.1 <> "" /\ all_chars Pat.ident_dash nv.1 = true /\ token nv.2).
Proof.
  unfold PythonPackages.pinned_line. intros H nv Hnv.
  destruct (negb _ || _); [injection H as <-; by left|].
  destruct (Re.match_ _ _) as [m|] eqn:Hm; [|injection H as <-; by left].
  apply (match_matches _ _ _ _ pinned_pattern_groups_ok) in Hm as (_ & _ & HP).
  destruct (Re.group 1 m) as [n|] eqn:H1; [|done].
  destruct (Re.group 2 m) as [v|] eqn:H2; [|done].
  cbn in H. injection H as <-.
  apply elem_of_union in Hnv as [->%elem_of_singleton|?]; [|by left].
  right. cbn. destruct (HP _ _ H1) as [[? ?] _]; [done|].
  destruct (HP _ _ H2) as [_ ?]. split_and!; auto.
Qed.

Lemma scan_requirements_found req_files nv :
  nv ∈ PythonPackages.scan_requirements req_files ->
  nv.1 <> "" /\ all_chars Pat.ident_dash nv.1 = true /\ token nv.2.
Proof.
  unfold PythonPackages.scan_requirements.
  assert (forall found,
            (forall x, x ∈ found -> x.1 <> "" /\ all_chars Pat.ident_dash x.1 = true /\ token x.2) ->
            forall x, x ∈ foldl (fun found rf =>
                                   match rf with
                                   | None => found
                                   | Some raw =>
                                       try_steps (PythonPackages.pinned_line <$> Py.readlines raw) found
                                   end) found req_files ->
                      x.1 <> "" /\ all_chars Pat.ident_dash x.1 = true /\ token x.2) as Hgen.
  { induction req_files as [|rf rest IH]; intros found Hfound x Hx; [by apply Hfound|].
    cbn [foldl] in Hx. eapply IH; [|exact Hx]. destruct rf as [raw|]; [|done].
    apply (try_steps_invariant
             (fun f : gset (string * string) =>
                forall x, x ∈ f -> x.1 <> "" /\ all_chars Pat.ident_dash x.1 = true /\ token x.2));
      [|done].
    apply Forall_fmap, Forall_forall. intros line _ st st' Hst Hline y Hy.
    destruct (pinned_line_found _ _ _ Hline y Hy) as [?|?]; auto. }
  apply Hgen. intros x Hx. by apply elem_of_empty in Hx.
Qed.

Lemma do_steps_app {S} (l1 l2 : list (S -> result S)) (st : S) :
  do_steps (l1 ++ l2) st = st' ← do_steps l1 st; do_steps l2 st'.
Proof.
  revert st. induction l1 as [|step l1 IH]; intros st; [done|].
  cbn. destruct (step st) as [st1|]; [|done]. cbn. apply IH.
Qed.

Lemma ident_dash_plain w :
  all_chars Pat.ident_dash w = true ->
  no_nl w = true /\ all_chars (fun c => negb (Ascii.eqb c Py.cr)) w = true.
Proof.
  induction w as [|c w IH]; [done|]. cbn. intros [Hc Hw]%andb_true_iff.
  destruct (IH Hw) as [-> ->]. split; rewrite andb_true_r; by destruct c as [[] [] [] [] [] [] [] []].
Qed.

Lemma token_plain w :
  token w -> no_nl w = true /\ all_chars (fun c => negb (Ascii.eqb c Py.cr)) w = true.
Proof.
  intros [_ H]. induction w as [|c w IH]; [done|]. cbn in H |- *.
  apply andb_true_iff in H as [Hc Hw]. destruct (IH Hw) as [-> ->].
  split; rewrite andb_true_r; by destruct c as [[] [] [] [] [] [] [] []].
Qed.

(** The lines of the text written for a list of pairs. *)
Lemma written_lines (pairs : list (string * string)) :
  Forall (fun nv => nv.1 <> "" /\ all_chars Pat.ident_dash nv.1 = true /\ token nv.2) pairs ->
  Py.translate_newlines (PythonPackages.written pairs) = PythonPackages.written pairs
  /\ Py.lines_of (PythonPackages.written pairs)
     = (fun nv => nv.1 ++ ": " ++ nv.2 ++ String Py.nl "") <$> pairs.
Proof.
  induction 1 as [|[n v] pairs (Hn & Hid & Hv) _ [IHt IHl]]; [done|].
  cbn [PythonPackages.written foldr fst snd fmap list_fmap].
  fold (PythonPackages.written pairs).
  destruct (ident_dash_plain n Hid) as [Hn1 Hn2]. destruct (token_plain v Hv) as [Hv1 Hv2].
  replace (n ++ ": " ++ v ++ String Py.nl (PythonPackages.written pairs))
    with ((n ++ ": " ++ v ++ String Py.nl "") ++ PythonPackages.written pairs)
    by (by rewrite !sapp_assoc).
  split.
  - rewrite translate_newlines_app, IHt; [done|].
    rewrite !all_chars_app, Hn2, Hv2. done.
  - rewrite lines_of_app.
    + rewrite IHl.
      replace (n ++ ": " ++ v ++ String Py.nl "") with ((n ++ ": " ++ v) ++ String Py.nl "")
        by (by rewrite !sapp_assoc).
      rewrite lines_of_line; [done|]. by rewrite !no_nl_app, Hn1, Hv1.
    + clear -Hn. induction n as [|c n IH]; [done|]. destruct n as [|c' n].
      * cbn. clear. induction v as [|x v IH]; [done|]. by destruct v.
      * rewrite sapp_cons. change (nl_terminated (String c (String c' n ++ ": " ++ v ++ String Py.nl "")))
          with (nl_terminated (String c' n ++ ": " ++ v ++ String Py.nl "")). by apply IH.
Qed.

(** Reading the written lines adds their records one after the other. *)
Lemma written_lines_read hash py_path (pairs : list (string * string)) :
  Forall (fun nv => nv.1 <> "" /\ all_chars Pat.ident_dash nv.1 = true /\ token nv.2) pairs ->
  forall deps,
    do_steps (BackendAnalysisBase.py_line hash py_path
                <$> ((fun nv => nv.1 ++ ": " ++ nv.2 ++ String Py.nl "") <$> pairs)) deps
    = Ok (set_adds hash (py_record py_path <$> pairs) deps).
Proof.
  induction 1 as [|[n v] pairs (Hn & Hid & Hv) _ IH]; intros deps; [done|].
  cbn [fmap list_fmap do_steps fst snd].
  destruct (written_line_records hash py_path "" n v deps Hn Hv) as [_ Hb].
  destruct (Hb Hid) as [-> _]. cbn. apply IH.
Qed.

Lemma sorted_nil_inv l : sorted l = [] -> l = [].
Proof.
  intros H. apply Permutation_nil_r. rewrite <- H. unfold sorted.
  by rewrite merge_sort_Permutation.
Qed.

Lemma readlines_app raw c b :
  nl_terminated (Py.read raw) = true -> c <> Py.nl ->
  Py.readlines (raw ++ String c b) = (Py.readlines raw ++ Py.readlines (String c b))%list.
Proof.
  intros Hnl Hc. unfold Py.readlines, Py.read in *.
  rewrite translate_newlines_app_gen by done. by apply lines_of_app.
Qed.

(** X20. [parse_python_packages_1] appends to pyDep.txt one line for each
    pinned package of the two requirement files, sorted and without
    repetition, each with a name of name characters and a version free
    of whitespace, and nothing when there is none; when pyDep.txt was
    absent, empty or ended with a line feed, [parse_py_deps] then reads
    what it read before and, after it, the records of these packages in
    their order. *)
Theorem python_packages_read_back (hash : string * option string -> Z) (py_path : string)
    (requirements_analysisbase requirements pydep : option string)
    (deps : list Dependency) :
  let found :=
    sorted (elements (PythonPackages.scan_requirements
                        [requirements_analysisbase; requirements])) in
  let pydep' :=
    PythonPackages.parse_python_packages_1 requirements_analysisbase requirements pydep in
  (forall raw, pydep = Some raw -> nl_terminated (Py.read raw) = true) ->
  Sorted pair_le found /\ NoDup found
  /\ Forall (fun nv => nv.1 <> "" /\ all_chars Pat.ident_dash nv.1 = true /\ token nv.2) found
  /\ (found = [] -> pydep' = pydep)
  /\ BackendAnalysisBase.parse_py_deps hash py_path pydep' deps
     = deps' ← BackendAnalysisBase.parse_py_deps hash py_path pydep deps;
       Ok (set_adds hash (py_record py_path <$> found) deps').
Proof.
  intros found pydep' Hnl. subst pydep'. unfold PythonPackages.parse_python_packages_1.
  set (S := PythonPackages.scan_requirements _) in *.
  assert (Hperm : found ≡ₚ elements S) by apply merge_sort_Permutation.
  assert (Hgood : Forall (fun nv => nv.1 <> "" /\ all_chars Pat.ident_dash nv.1 = true
                                    /\ token nv.2) found).
  { apply Forall_forall. intros nv Hnv. rewrite Hperm in Hnv.
    apply elem_of_elements in Hnv. by apply scan_requirements_found in Hnv. }
  split_and!.
  - apply Sorted_merge_sort. apply _.
  - rewrite Hperm. apply NoDup_elements.
  - done.
  - intros Hnil. apply sorted_nil_inv, elements_empty_inv in Hnil.
    apply leibniz_equiv in Hnil. by rewrite bool_decide_true.
  - fold found. destruct (bool_decide_reflect (S = ∅)) as [HS|HS].
    + assert (found = []) as -> by (subst found; by rewrite HS, elements_empty).
      by destruct (BackendAnalysisBase.parse_py_deps hash py_path pydep deps).
    + destruct (written_lines found Hgood) as [Htr Hlines].
      destruct found as [|[n v] rest] eqn:Hfound.
      { exfalso. apply HS. apply Permutation_nil_l in Hperm. symmetry in Hperm.
        by apply elements_empty_inv, leibniz_equiv in Hperm. }
      rewrite <- Hfound in *.
      assert (Hread : Py.readlines (PythonPackages.written found)
                      = (fun nv => nv.1 ++ ": " ++ nv.2 ++ String Py.nl "") <$> found).
      { unfold Py.readlines, Py.read. by rewrite Htr. }
      destruct pydep as [raw|]; cbn [PythonVersion.append_text BackendAnalysisBase.parse_py_deps].
      * assert (exists c b, PythonPackages.written found = String c b /\ c <> Py.nl)
          as (c & b & Hw & Hc).
        { rewrite Hfound. rewrite Hfound in Hgood.
          apply Forall_cons in Hgood as [(Hn & Hid & _) _]. cbn in Hn, Hid.
          destruct n as [|c n]; [done|]. cbn [PythonPackages.written foldr fst].
          rewrite sapp_cons. eexists _, _. split; [done|]. intros ->. by cbn in Hid. }
        rewrite Hw, readlines_app, <- Hw, Hread by auto.
        rewrite fmap_app, do_steps_app.
        destruct (do_steps _ deps) as [deps1|]; [|done]. cbn.
        by apply written_lines_read.
      * rewrite Hread. cbn. by apply written_lines_read.
Qed.

Lemma python_packages_read_back_witness :
  let nls := String Py.nl "" in
  let hash : string * option string -> Z := fun _ => 0 in
  let requirements := Some ("scipy==1.11.4" ++ nls ++ "# pinned" ++ nls ++ "numpy==1.26.4" ++ nls) in
  let pydep := Some ("requests: 2.31.0" ++ nls) in
  let pydep' := PythonPackages.parse_python_packages_1 None requirements pydep in
  nl_terminated (Py.read ("requests: 2.31.0" ++ nls)) = true
  /\ pydep' = Some ("requests: 2.31.0" ++ nls ++ "numpy: 1.26.4" ++ nls ++ "scipy: 1.11.4" ++ nls)
  /\ BackendAnalysisBase.parse_py_deps hash "pyDep.txt" pydep' []
     = Ok [ mkDependency "requests" (Some "2.31.0") "pyDep.txt" "";
            mkDependency "numpy" (Some "1.26.4") "pyDep.txt" "";
            mkDependency "scipy" (Some "1.11.4") "pyDep.txt" "" ].
Proof.
  intros nls hash requirements pydep pydep'.
  split; [reflexivity|]. split; [by vm_compute|].
  destruct (python_packages_read_back hash "pyDep.txt" None requirements pydep [])
    as (_ & _ & _ & _ & Hread).
  - intros raw [= <-]. reflexivity.
  - etrans; [exact Hread | by vm_compute].
Defined.

(** ** The package filters *)

Lemma filter_line_rule raw deps :
  PackageFilters.filter_line raw deps
  = match rule_of raw with
    | NoRule => Ok deps
    | Package pkg => Ok (deps ++ [pkg])%list
    | Dangling => Raise IndexError
    end.
Proof.
  unfold PackageFilters.filter_line, rule_of.
  destruct (Py.strip raw) as [|c line] eqn:Hline; [done|]. cbn [Py.truthy negb].
  destruct (Py.startswith "+" _ && Py.contains "External/" _) eqn:Hrule; [|done].
  apply andb_true_iff in Hrule as [_ Hc].
  destruct (split_once_contains _ _ Hc) as [[a after] ->]. cbn -[Py.strip].
  destruct (Py.split_ws (Py.strip after)) as [|pkg ws] eqn:Hws; [done|]. cbn.
  assert (pkg ∈ Py.split_ws (Py.strip after)) as Hin by (rewrite Hws; by left).
  apply split_ws_pieces in Hin as [Hpkg _]. by destruct pkg.
Qed.

Lemma rule_package_token raw pkg : rule_of raw = Package pkg -> token pkg.
Proof.
  unfold rule_of. destruct (_ && _); [|done].
  destruct (Py.split_once _ _) as [[a after]|]; [|done].
  destruct (Py.split_ws (Py.strip after)) as [|p ws] eqn:Hws; [done|].
  intros [= <-]. apply (split_ws_pieces (Py.strip after)). rewrite Hws. by left.
Qed.

Lemma filter_lines_ok lines : forall deps,
  Forall (fun raw => rule_of raw <> Dangling) lines ->
  do_steps (PackageFilters.filter_line <$> lines) deps = Ok (deps ++ packages_of lines)%list.
Proof.
  induction lines as [|raw lines IH]; intros deps H.
  - cbn. by rewrite app_nil_r.
  - apply Forall_cons in H as [Hraw H]. cbn [fmap list_fmap do_steps].
    rewrite filter_line_rule. unfold packages_of. cbn [omap list_omap].
    destruct (rule_of raw) as [|pkg|]; [| |done]; cbn.
    + by apply IH.
    + rewrite IH by done. by rewrite <- app_assoc.
Qed.

Lemma filter_lines_raise lines : forall deps,
  Exists (fun raw => rule_of raw = Dangling) lines ->
  do_steps (PackageFilters.filter_line <$> lines) deps = Raise IndexError.
Proof.
  induction lines as [|raw lines IH]; intros deps H; [by apply Exists_nil in H|].
  cbn [fmap list_fmap do_steps]. rewrite filter_line_rule.
  apply Exists_cons in H as [H|H].
  - cbn beta in H. by rewrite H.
  - destruct (rule_of raw) as [|pkg|]; [| |done]; cbn; by apply IH.
Qed.

Lemma packages_of_tokens lines : Forall token (packages_of lines).
Proof.
  induction lines as [|raw lines IH]; [by apply Forall_nil|].
  unfold packages_of. cbn [omap list_omap].
  destruct (rule_of raw) as [|pkg|] eqn:Hr; [done| |done].
  cbn. apply Forall_cons. split; [by eapply rule_package_token | done].
Qed.

(** X21. [_load_package_filters] returns the fallback list when no candidate
    file exists and when a rule of the chosen file has nothing after its
    External/ mark, whatever the other rules are; otherwise it returns
    the first word after that mark of every rule, in the order of the
    file, each free of whitespace: no name at all for a file without
    rules, not the fallback list. *)
Theorem package_filters_all_or_fallback (isfile : string -> option string)
    (cwd_filters project_filters module_filters : string) (filters_path : option string) :
  let result :=
    PackageFilters._load_package_filters isfile cwd_filters project_filters module_filters
      filters_path in
  match PackageFilters.chosen isfile
          (PackageFilters.candidates cwd_filters project_filters module_filters filters_path)
  with
  | None => result = PackageFilters.fallback
  | Some raw =>
      (Exists (fun line => rule_of line = Dangling) (Py.readlines raw) ->
       result = PackageFilters.fallback)
      /\ (Forall (fun line => rule_of line <> Dangling) (Py.readlines raw) ->
          result = packages_of (Py.readlines raw) /\ Forall token result)
      /\ (Forall (fun line => Py.strip line = "") (Py.readlines raw) -> result = [])
  end.
Proof.
  intros result. subst result. unfold PackageFilters._load_package_filters.
  destruct (PackageFilters.chosen _ _) as [raw|]; [|done]. split_and!.
  - intros H. by rewrite filter_lines_raise.
  - intros H. rewrite filter_lines_ok by done. split; [done|]. apply packages_of_tokens.
  - intros H. rewrite filter_lines_ok.
    + induction H as [|line lines Hline _ IH]; [done|].
      unfold packages_of. cbn [omap list_omap]. unfold rule_of at 1. by rewrite Hline.
    + eapply Forall_impl; [exact H|]. intros line Hline. unfold rule_of. by rewrite Hline.
Qed.

Lemma package_filters_all_or_fallback_witness :
  let nls := String Py.nl "" in
  let isfile path :=
    if String.eqb path "cwd" then Some ("+ External/Boost 1.0" ++ nls ++ "- Other" ++ nls)
    else if String.eqb path "bad" then Some ("+ External/Boost" ++ nls ++ "+ External/ " ++ nls)
    else if String.eqb path "empty" then Some ""
    else None in
  PackageFilters._load_package_filters isfile "cwd" "project" "module" None = ["Boost"]
  /\ PackageFilters._load_package_filters isfile "cwd" "project" "module" (Some "bad")
     = PackageFilters.fallback
  /\ PackageFilters._load_package_filters isfile "cwd" "project" "module" (Some "empty") = []
  /\ PackageFilters._load_package_filters isfile "none" "project" "module" None
     = PackageFilters.fallback.
Proof.
  intros nls isfile. split_and!.
  - pose proof (package_filters_all_or_fallback isfile "cwd" "project" "module" None) as H.
    cbn in H. destruct H as (_ & H & _). destruct H as [-> _]; [|reflexivity].
    repeat (apply Forall_cons; split; [by vm_compute|]). by apply Forall_nil.
  - pose proof (package_filters_all_or_fallback isfile "cwd" "project" "module" (Some "bad")) as H.
    cbn in H. destruct H as (H & _). apply H.
    apply Exists_cons. right. apply Exists_cons. left. by vm_compute.
  - pose proof (package_filters_all_or_fallback isfile "cwd" "project" "module" (Some "empty")) as H.
    cbn in H. destruct H as (_ & _ & H). apply H. by apply Forall_nil.
  - exact (package_filters_all_or_fallback isfile "none" "project" "module" None).
Defined.

(** ** The package filtering rules of the build log *)

Lemma no_nl_all_any s : no_nl s = true -> all_chars Re.any s = true.
Proof.
  induction s as [|c s IH]; [done|]. cbn. intros [Hc Hs]%andb_true_iff.
  unfold Re.any at 1. by rewrite Hc, IH.
Qed.

Lemma space_run_then (sp : string) (c : ascii) (rest : string) :
  sp <> "" -> all_chars Re.space sp = true -> Re.space c = false ->
  exists c1 sp', sp = String c1 sp' /\ Re.space c1 = true
    /\ take_while Re.space (sp' ++ String c rest) = sp'
    /\ Py.drop_while Re.space (sp' ++ String c rest) = String c rest.
Proof.
  intros Hsp Hall Hc. destruct sp as [|c1 sp']; [done|]. cbn in Hall.
  apply andb_true_iff in Hall as [H1 Hall]. exists c1, sp'. split_and!; [done..| |];
    apply take_drop_app; eauto.
Qed.

Lemma search_at_head rx s m : Re.at_pos rx true "" s = Some m -> Re.search rx s = Some m.
Proof. intros H. unfold Re.search. destruct s; cbn [Re.search_go]; by rewrite H. Qed.

(** The rule pattern on a rule line: the match starts the line and its
    group is the text after [External/]. *)
Lemma external_rule_search (sp1 sp2 g : string) :
  sp1 <> "" -> all_chars Re.space sp1 = true ->
  sp2 <> "" -> all_chars Re.space sp2 = true ->
  g <> "" -> no_nl g = true ->
  exists m, Re.search Pat.external_pkg ("--" ++ sp1 ++ "+" ++ sp2 ++ "External/" ++ g) = Some m
    /\ Re.group 1 m = Some g.
Proof.
  intros H1 Ha1 H2 Ha2 Hg Hnl.
  destruct (space_run_then sp1 "+" (sp2 ++ "External/" ++ g) H1 Ha1 eq_refl)
    as (c1 & sp1' & -> & Hc1 & Ht1 & Hd1).
  destruct (space_run_then sp2 "E" ("xternal/" ++ g) H2 Ha2 eq_refl)
    as (c2 & sp2' & -> & Hc2 & Ht2 & Hd2).
  destruct g as [|cg g']; [done|]. cbn [no_nl] in Hnl. apply andb_true_iff in Hnl as [Hcg Hnl].
  destruct (take_drop_app Re.any g' "" (no_nl_all_any _ Hnl) (or_introl eq_refl)) as [Htg Hdg].
  rewrite sapp_nil_r in Htg, Hdg.
  assert (exists w, Re.run Pat.external_pkg true
                      ("--" ++ String c1 sp1' ++ "+" ++ String c2 sp2' ++ "External/" ++ String cg g')
                      [] (fun w rest cs => Some (w, rest, cs))
                    = Some (w, "", [(1%nat, String cg g')])) as [w Hrun].
  { eexists. unfold Pat.external_pkg. cbn [Re.seq].
    rewrite run_cat, run_str by done. rewrite run_cat.
    rewrite sapp_cons. apply run_plus_chr_greedy; [done|].
    change ("+" ++ String c2 sp2' ++ "External/" ++ String cg g')
      with (String "+" (String c2 sp2' ++ "External/" ++ String cg g')).
    change (String "+" (String c2 sp2' ++ "External/" ++ String cg g'))
      with (String "+" (String c2 (sp2' ++ String "E" ("xternal/" ++ String cg g')))) in *.
    rewrite Ht1, Hd1. cbv beta.
    rewrite run_cat, run_lit. rewrite run_cat. apply run_plus_chr_greedy; [done|].
    rewrite Ht2, Hd2. cbv beta.
    change (String "E" ("xternal/" ++ String cg g')) with ("External/" ++ String cg g').
    rewrite run_cat, run_str by done. rewrite run_grp.
    apply run_plus_chr_greedy; [done|]. rewrite Htg, Hdg. reflexivity. }
  eexists. split.
  - apply search_at_head. unfold Re.at_pos. rewrite Hrun. reflexivity.
  - reflexivity.
Qed.

(** The packages of [parse_build_info] are those of the loop over the
    rules, which starts with none. *)
Lemma athena_packages_eq raw :
  Athena.packages (Athena.parse_build_info (Some raw))
  = match Athena.package_rules (Py.readlines raw) false [] with
    | Ok pkgs => pkgs
    | Raise _ => []
    end.
Proof.
  unfold Athena.parse_build_info, Athena.build_info_steps.
  set (lines := Py.readlines raw). cbn [try_steps].
  rewrite (athena_labelled_step_eq lines 0 _ Athena.empty_info
             (fun g => Athena.mkBuildInfo None None [] g None None)).
  destruct (labelled_at "The C compiler identification is " lines 0) as [c|];
    cbn [Athena.lcg_version Athena.platform Athena.packages Athena.C_Compiler
           Athena.CXX_Compiler Athena.Platform Athena.empty_info].
  all: match goal with |- context [Athena.mkBuildInfo None None [] ?cc (Re.group 1 _) None] =>
         rewrite (athena_labelled_step_eq lines 1 _ (Athena.mkBuildInfo None None [] cc None None)
                    (fun g => Athena.mkBuildInfo None None [] cc g None)) end.
  all: destruct (labelled_at "The CXX compiler identification is " lines 1) as [x|];
    destruct (Athena.first_line_match Pat.lcg_release lines) as [m|];
    destruct (Athena.first_line_match (Pat.labelled "Using platform name: ") lines) as [mp|];
    cbn [Athena.lcg_version Athena.platform Athena.packages Athena.C_Compiler
           Athena.CXX_Compiler Athena.Platform];
    destruct (Athena.package_rules lines false []) as [pkgs|e]; done.
Qed.

Lemma rules_skip pre rest pkgs :
  Forall (fun line => Py.contains rules_header (Py.strip line) = false) pre ->
  Athena.package_rules (pre ++ rest) false pkgs = Athena.package_rules rest false pkgs.
Proof.
  induction 1 as [|line pre Hline _ IH]; [done|].
  cbn [app Athena.package_rules]. unfold rules_header in Hline. by rewrite Hline.
Qed.

Lemma rules_open header rest b pkgs :
  Py.contains rules_header (Py.strip header) = true ->
  Athena.package_rules (header :: rest) b pkgs = Athena.package_rules rest true pkgs.
Proof. intros H. cbn [Athena.package_rules]. unfold rules_header in H. by rewrite H. Qed.

Lemma rule_not_configuring sp1 rest :
  sp1 <> "" -> all_chars Re.space sp1 = true ->
  Py.startswith "-- Configuring" ("--" ++ sp1 ++ "+" ++ rest) = false.
Proof.
  intros Hsp Hall. destruct sp1 as [|c1 sp1]; [done|].
  cbn in Hall. apply andb_true_iff in Hall as [H1 Hall].
  unfold Py.startswith. cbn.
  destruct (Ascii.eqb_spec " " c1) as [<-|]; [|by destruct c1 as [[] [] [] [] [] [] [] []]].
  destruct sp1 as [|c2 sp1]; [done|]. cbn in Hall |- *.
  apply andb_true_iff in Hall as [H2 _].
  by destruct c2 as [[] [] [] [] [] [] [] []].
Qed.

Lemma rules_rule line g rest pkgs :
  external_rule line g -> no_nl (Py.strip line) = true ->
  Athena.package_rules (line :: rest) true pkgs
  = Athena.package_rules rest true (pkgs ++ [Py.strip g])%list.
Proof.
  intros (sp1 & sp2 & Hline & H1 & Ha1 & H2 & Ha2 & Hg & Hhead) Hnl.
  cbn [Athena.package_rules]. unfold rules_header in Hhead. rewrite Hhead.
  rewrite Hline in Hnl |- *.
  rewrite (rule_not_configuring sp1 _ H1 Ha1). cbn [orb].
  rewrite bool_decide_false by done. cbn [andb].
  rewrite !no_nl_app in Hnl. repeat (apply andb_true_iff in Hnl as [_ Hnl]).
  destruct (external_rule_search sp1 sp2 g H1 Ha1 H2 Ha2 Hg Hnl) as (m & -> & ->).
  reflexivity.
Qed.

Lemma rules_close stop post pkgs :
  closes_rules (bool_decide (pkgs <> [])) stop ->
  Athena.package_rules (stop :: post) true pkgs = Ok pkgs.
Proof.
  intros [Hhead Hstop]. cbn [Athena.package_rules].
  unfold rules_header in Hhead. rewrite Hhead.
  destruct Hstop as [->|[[-> Hsome]|[-> ->]]]; [done| |].
  - rewrite Hsome. done.
  - by destruct (_ || _).
Qed.

Lemma rules_section rules names : forall rest pkgs,
  Forall2 external_rule rules names ->
  Forall (fun line => no_nl (Py.strip line) = true) rules ->
  Athena.package_rules (rules ++ rest) true pkgs
  = Athena.package_rules rest true (pkgs ++ (Py.strip <$> names))%list.
Proof.
  intros rest pkgs H. revert pkgs.
  induction H as [|line g rules names Hrule _ IH]; intros pkgs Hnl.
  - cbn. by rewrite app_nil_r.
  - apply Forall_cons in Hnl as [Hline Hnl]. cbn [app].
    rewrite (rules_rule _ g) by done. rewrite IH by done.
    cbn [fmap list_fmap]. by rewrite <- app_assoc.
Qed.

(** X22. The packages [parse_build_info] of Athena reads from a build log are
    none when no line holds the header of the filtering rules; and when
    the first such line is followed by rules that keep external
    packages and then by the end of the log or a closing line, they are
    the names of these rules, stripped, in their order. *)
Theorem packages_of_rule_section (raw : string) :
  (Forall (fun line => Py.contains rules_header (Py.strip line) = false) (Py.readlines raw) ->
   Athena.packages (Athena.parse_build_info (Some raw)) = [])
  /\ forall (pre : list string) (header : string) (rules names rest : list string),
       Py.readlines raw = (pre ++ header :: rules ++ rest)%list ->
       Forall (fun line => Py.contains rules_header (Py.strip line) = false) pre ->
       Py.contains rules_header (Py.strip header) = true ->
       Forall2 external_rule rules names ->
       (rest = []
        \/ exists stop post,
             rest = stop :: post /\ closes_rules (bool_decide (names <> [])) stop) ->
       Athena.packages (Athena.parse_build_info (Some raw)) = Py.strip <$> names.
Proof.
  rewrite athena_packages_eq. split.
  - intros H. rewrite <- (app_nil_r (Py.readlines raw)). by rewrite rules_skip.
  - intros pre header rules names rest Hlines Hpre Hhead Hrules Hrest.
    assert (Hnl : Forall (fun line => no_nl (Py.strip line) = true) rules).
    { apply Forall_forall. intros line Hin. apply (readline_no_nl raw).
      rewrite Hlines. apply elem_of_app. right. apply elem_of_cons. right.
      apply elem_of_app. by left. }
    rewrite Hlines, rules_skip, rules_open by done.
    rewrite (rules_section rules names) by done. cbn [app].
    destruct Hrest as [->|(stop & post & -> & Hstop)]; [done|].
    rewrite rules_close; [done|].
    replace (bool_decide (Py.strip <$> names <> [])) with (bool_decide (names <> [])); [done|].
    apply bool_decide_ext. by destruct names.
Qed.

Lemma packages_of_rule_section_witness :
  Athena.packages (Athena.parse_build_info (Some athena_log)) = ["Acts"].
Proof.
  destruct (packages_of_rule_section athena_log) as [_ H].
  apply (H (take 26 (Py.readlines athena_log))
           ("-- Package filtering rules read:" ++ String Py.nl "")
           ["--   + External/Acts" ++ String Py.nl ""] ["Acts"]
           ["--   - .*" ++ String Py.nl ""; "-- Configuring done" ++ String Py.nl ""]).
  - by vm_compute.
  - apply Forall_forall. intros line Hin.
    assert (forallb (fun line => negb (Py.contains rules_header (Py.strip line)))
              (take 26 (Py.readlines athena_log)) = true) as Hall by (by vm_compute).
    rewrite forallb_forall in Hall. apply list_elem_of_In in Hin.
    specialize (Hall _ Hin). by apply negb_true_iff in Hall.
  - by vm_compute.
  - constructor; [|constructor].
    exists "   ", " ". by vm_compute.
  - right. eexists _, _. split; [reflexivity|]. split; [by vm_compute|].
    right. right. by vm_compute.
Defined.

(** ** The entries found in the build manifests *)

Lemma elem_of_all_ascii c : c ∈ all_ascii.
Proof.
  unfold all_ascii. apply list_elem_of_fmap. exists (nat_of_ascii c). split.
  - by rewrite ascii_nat_embedding.
  - apply elem_of_seq. pose proof (nat_ascii_bounded c). lia.
Qed.

Lemma matches_nonempty r bos w s : nonempty_rx r = true -> matches r bos w s -> w <> "".
Proof.
  intros Hr H. induction H; cbn [nonempty_rx] in Hr; try done.
  - apply orb_true_iff in Hr as [Hr|Hr].
    + specialize (IHmatches1 Hr). by destruct w1.
    + specialize (IHmatches2 Hr). destruct w1; [done|]. by rewrite sapp_cons.
  - apply andb_true_iff in Hr as [Hr _]. auto.
  - apply andb_true_iff in Hr as [_ Hr]. auto.
  - auto.
Qed.

Lemma spaceless_chars_in r :
  spaceless_rx r = true -> chars_in (fun c => negb (Py.isspace c)) r.
Proof.
  induction r as [|q|r1 IH1 r2 IH2|r1 IH1 r2 IH2|g r IH|n r IH| |];
    cbn [spaceless_rx chars_in]; try done.
  - intros H c Hc. rewrite forallb_forall in H.
    specialize (H c (proj1 (list_elem_of_In _ _) (elem_of_all_ascii c))).
    by rewrite Hc in H.
  - intros [? ?]%andb_true_iff. auto.
  - intros [? ?]%andb_true_iff. auto.
Qed.

Lemma token_groups_ok r : token_groups r = true -> groups_ok (fun _ w => token w) r.
Proof.
  induction r as [|q|r1 IH1 r2 IH2|r1 IH1 r2 IH2|g r IH|n r IH| |];
    cbn [token_groups groups_ok]; try done.
  - intros [? ?]%andb_true_iff. auto.
  - intros [? ?]%andb_true_iff. auto.
  - intros [[Hne Hsp]%andb_true_iff Hr]%andb_true_iff. split; [|auto].
    intros bos w s Hm. split.
    + by eapply matches_nonempty.
    + eapply matches_chars_in, Hm. by apply spaceless_chars_in.
Qed.

Lemma first_found_token rxs content v :
  forallb token_groups rxs = true ->
  first_found rxs content = Some (Some v) -> token v.
Proof.
  induction rxs as [|rx rxs IH]; [done|]. cbn [forallb first_found].
  intros [Hrx Hrxs]%andb_true_iff.
  destruct (Re.search rx content) as [m|] eqn:Hs; [|by apply IH].
  intros [= Hg].
  apply (search_matches _ _ _ _ (token_groups_ok _ Hrx)) in Hs as (_ & _ & _ & HP).
  by apply (HP 1%nat).
Qed.

Lemma patterns_token key rxs :
  BackendAnalysisBase.patterns !! key = Some rxs -> key <> "HDF5" ->
  forallb token_groups rxs = true.
Proof.
  unfold BackendAnalysisBase.patterns. intros H Hkey.
  apply elem_of_list_to_map_2 in H.
  match type of H with
  | _ ∈ ?L =>
      assert (forallb (fun kv : string * list regex =>
                         bool_decide (kv.1 = "HDF5") || forallb token_groups kv.2) L = true)
        as Hall by (vm_compute; reflexivity)
  end.
  rewrite forallb_forall in Hall. apply list_elem_of_In in H.
  specialize (Hall _ H). cbn [fst snd] in Hall.
  by rewrite bool_decide_false in Hall.
Qed.

Lemma generic_patterns_token : forallb token_groups Pat.generic_patterns = true.
Proof. vm_compute. reflexivity. Qed.

Lemma dep_key_not_hdf5 dep : dep <> "HDF5" -> BackendAnalysisBase.dep_key_of dep <> "HDF5".
Proof.
  intros H. unfold BackendAnalysisBase.dep_key_of.
  repeat (case_bool_decide; cbn [orb]; [done|]). done.
Qed.

(** The version that [parse_cmakelists] found comes from a pattern of
    the package or from a generic one. *)
Lemma package_entry_inv dep content entry :
  BackendAnalysisBase.package_entry dep content = Ok (Some entry) ->
  exists v0,
    v0 <> "" /\ content <> ""
    /\ (first_found (default [] (BackendAnalysisBase.patterns
                                  !! BackendAnalysisBase.dep_key_of dep)) content
        = Some (Some v0)
        \/ first_found Pat.generic_patterns content = Some (Some v0))
    /\ entry = dep ++ ": "
               ++ (if bool_decide (BackendAnalysisBase.dep_key_of dep = "Boost")
                   then Py.replace_char "_" "." v0 else v0).
Proof.
  unfold BackendAnalysisBase.package_entry.
  set (key := BackendAnalysisBase.dep_key_of dep).
  set (rl := default [] (BackendAnalysisBase.patterns !! key)).
  destruct content as [|c content]; [done|]. cbn [Py.truthy].
  set (text := String c content).
  destruct (first_found rl text) as [[[|c1 v1]|]|] eqn:H1;
    cbn [Py.truthy_opt Py.truthy negb andb].
  2: { cbn. intros [= <-]. exists (String c1 v1). split_and!; auto. }
  all: destruct (first_found Pat.generic_patterns text) as [[[|c2 v2]|]|] eqn:H2;
    cbn [Py.truthy_opt Py.truthy]; try done;
    cbn; intros [= <-]; exists (String c2 v2); split_and!; auto.
Qed.

(** X23. An entry that the generic part of [parse_cmakelists] of the backend
    records is the package name, a colon, a blank and a version that is
    not empty, found in a manifest that is not empty; for every package
    but HDF5 the version is free of whitespace, and [parse_cpp_deps]
    reads the written line back as the record of that name and version
    when the name is made of name characters. *)
Theorem package_entry_read_back (hash : string * option string -> Z)
    (cpp_path : string) (dep content entry : string) :
  BackendAnalysisBase.package_entry dep content = Ok (Some entry) ->
  exists v,
    entry = dep ++ ": " ++ v /\ v <> "" /\ content <> ""
    /\ (dep <> "HDF5" ->
        token v
        /\ (dep <> "" -> all_chars Pat.ident_dash dep = true ->
            forall deps,
              BackendAnalysisBase.cpp_line hash cpp_path
                (entry +:+ String Py.nl "") deps
              = Ok (set_add hash (mkDependency dep (Some v) cpp_path "") deps))).
Proof.
  intros (v0 & Hv0 & Hc & Hfound & ->)%package_entry_inv.
  eexists. split_and!; [done| |done|].
  - case_bool_decide; [|done]. by destruct v0.
  - intros Hdep.
    assert (token v0) as Htok.
    { destruct Hfound as [H|H].
      - destruct (BackendAnalysisBase.patterns !! _) as [rxs|] eqn:Hrxs; [|done].
        eapply first_found_token, H.
        eapply patterns_token; [exact Hrxs | by apply dep_key_not_hdf5].
      - eapply first_found_token, H. apply generic_patterns_token. }
    assert (token (if bool_decide (BackendAnalysisBase.dep_key_of dep = "Boost")
                   then Py.replace_char "_" "." v0 else v0)) as Hv.
    { case_bool_decide; [by apply replace_char_token | done]. }
    split; [done|]. intros Hne Hid deps.
    destruct (written_line_records hash "" cpp_path dep _ deps Hne Hv) as [_ Hb].
    destruct (Hb Hid) as (_ & Hread & _). rewrite <- Hread. f_equal.
    by rewrite !sapp_assoc.
Qed.

Lemma package_entry_read_back_witness :
  let hash : string * option string -> Z := fun _ => 0 in
  let content := "URL http://cern.ch/sources/boost_1_82_0.tar.gz" in
  BackendAnalysisBase.package_entry "Boost" content = Ok (Some "Boost: 1.82.0")
  /\ BackendAnalysisBase.cpp_line hash "cppDep.txt" ("Boost: 1.82.0" ++ String Py.nl "") []
     = Ok [mkDependency "Boost" (Some "1.82.0") "cppDep.txt" ""].
Proof.
  intros hash content.
  assert (BackendAnalysisBase.package_entry "Boost" content = Ok (Some "Boost: 1.82.0")) as H
    by (by vm_compute).
  split; [exact H|].
  destruct (package_entry_read_back hash "cppDep.txt" _ _ _ H) as (v & Hv & _ & _ & Hread).
  destruct Hread as [_ Hread]; [done|].
  vm_compute in Hv. injection Hv as Hv. subst v.
  exact (Hread ltac:(done) eq_refl []).
Defined.

(** The quoted version of HDF5 may hold a blank: the reader then keeps
    its first word only. *)
Lemma hdf5_quoted_version_cut :
  let hash : string * option string -> Z := fun _ => 0 in
  let content := "set( ATLAS_HDF5_VERSION " ++ String Py.dq "1.14 rc" ++ String Py.dq " )" in
  BackendAnalysisBase.package_entry "HDF5" content = Ok (Some "HDF5: 1.14 rc")
  /\ BackendAnalysisBase.cpp_line hash "cppDep.txt" ("HDF5: 1.14 rc" ++ String Py.nl "") []
     = Ok [mkDependency "HDF5" (Some "1.14") "cppDep.txt" ""].
Proof. by vm_compute. Qed.

(** ** The packages found in AtlasExternals *)

Lemma atlas_patterns_token key rxs :
  AtlasExternals.patterns !! key = Some rxs -> forallb token_groups rxs = true.
Proof.
  unfold AtlasExternals.patterns. intros H. apply elem_of_list_to_map_2 in H.
  match type of H with
  | _ ∈ ?L =>
      assert (forallb (fun kv : string * list regex => forallb token_groups kv.2) L = true)
        as Hall by (vm_compute; reflexivity)
  end.
  rewrite forallb_forall in Hall. apply list_elem_of_In in H. exact (Hall _ H).
Qed.

Lemma found_version_token pkg content v :
  AtlasExternals.found_version pkg content = Some v -> v <> "" -> token v.
Proof.
  unfold AtlasExternals.found_version.
  destruct (first_found (default [] _) content) as [[[|c1 v1]|]|] eqn:H1;
    cbn [Py.truthy_opt Py.truthy negb].
  2: { intros [= <-] _. eapply first_found_token, H1.
       destruct (AtlasExternals.patterns !! pkg) as [rxs|] eqn:Hrxs; [|done].
       by eapply atlas_patterns_token. }
  all: destruct (first_found Pat.generic_patterns content) as [[v2|]|] eqn:H2; try done;
    intros [= <-] Hv; try done;
    eapply first_found_token, H2; apply generic_patterns_token.
Qed.

Section Steps.
Variable hash : string * option string -> Z.
Variable rfpath : string -> string -> string.
Variable external : string -> option (string -> option string).

Lemma package_step_packages pkg st :
  (AtlasExternals.package_step hash rfpath external pkg st).1
  = match stored external pkg with
    | Some v => <[pkg := v]> st.1
    | None => st.1
    end.
Proof.
  unfold AtlasExternals.package_step, stored.
  destruct (external pkg) as [pkg_dir|]; [|done]. cbn [mbind option_bind].
  destruct (AtlasExternals.manifest pkg_dir) as [content|]; [|done]. cbn [mbind option_bind].
  case_bool_decide; [done|].
  destruct (AtlasExternals.found_version pkg content) as [v|]; [|done]. cbn [mbind option_bind].
  by destruct (Py.truthy v).
Qed.

Lemma fold_packages pkg missing : forall st,
  (foldl (fun st pkg => AtlasExternals.package_step hash rfpath external pkg st) st missing).1
    !! pkg
  = match stored external pkg with
    | Some v => if bool_decide (pkg ∈ missing) then Some v else st.1 !! pkg
    | None => st.1 !! pkg
    end.
Proof.
  induction missing as [|p missing IH]; intros st; cbn [foldl].
  - destruct (stored external pkg); [|done]. rewrite bool_decide_false; [done|].
    by intros ?%elem_of_nil.
  - rewrite IH, package_step_packages.
    destruct (stored external pkg) as [v|] eqn:Hv.
    + destruct (bool_decide_reflect (pkg ∈ missing)) as [Hin|Hin].
      * rewrite bool_decide_true; [done|]. by right.
      * destruct (decide (pkg = p)) as [->|Hne].
        -- rewrite Hv, lookup_insert_eq. rewrite bool_decide_true; [done|]. by left.
        -- rewrite (bool_decide_false (pkg ∈ p :: missing)).
           ++ destruct (stored external p); [by rewrite lookup_insert_ne|done].
           ++ intros [?|?]%elem_of_cons; done.
    + destruct (stored external p) as [v'|] eqn:Hp; [|done].
      rewrite lookup_insert_ne; [done|]. intros ->. congruence.
Qed.

Lemma requirement_line_pymodules path line deps deps' :
  AtlasExternals.requirement_line hash path line deps = Ok deps' ->
  forall d, d ∈ deps' ->
    d ∈ deps
    \/ (source d = "PyModules" /\ file_path d = path /\ name d <> ""
        /\ all_chars Pat.ident_dash (name d) = true
        /\ exists v, version d = Some v /\ token v).
Proof.
  unfold AtlasExternals.requirement_line. intros H d Hd.
  destruct (negb _ || _); [injection H as <-; by left|].
  destruct (Re.match_ _ _) as [m|] eqn:Hm; [|injection H as <-; by left].
  apply (match_matches _ _ _ _ pinned_pattern_groups_ok) in Hm as (_ & _ & HP).
  destruct (Re.group 1 m) as [n|] eqn:H1; [|done].
  destruct (Re.group 2 m) as [v|] eqn:H2; [|done].
  cbn in H. injection H as <-.
  apply elem_of_set_add in Hd as [?| ->]; [by left|]. right. cbn.
  destruct (HP _ _ H1) as [[? ?] _]; [done|]. destruct (HP _ _ H2) as [_ ?].
  split_and!; eauto.
Qed.

Lemma package_step_deps pkg st d :
  d ∈ (AtlasExternals.package_step hash rfpath external pkg st).2 ->
  d ∈ st.2
  \/ (pkg = "PyModules" /\ source d = "PyModules" /\ name d <> ""
      /\ all_chars Pat.ident_dash (name d) = true
      /\ exists v, version d = Some v /\ token v).
Proof.
  unfold AtlasExternals.package_step.
  destruct (external pkg) as [pkg_dir|]; [|by left].
  destruct (AtlasExternals.manifest pkg_dir) as [content|]; [|by left].
  case_bool_decide as Hpkg.
  - cbn [snd foldl]. intros Hd.
    assert (forall rf deps x,
              x ∈ match pkg_dir rf with
                  | Some raw =>
                      try_steps (AtlasExternals.requirement_line hash (rfpath pkg rf)
                                   <$> Py.readlines raw) deps
                  | None => deps
                  end ->
              x ∈ deps \/ (source x = "PyModules" /\ name x <> ""
                           /\ all_chars Pat.ident_dash (name x) = true
                           /\ exists v, version x = Some v /\ token v)) as Hfile.
    { intros rf deps x Hx. destruct (pkg_dir rf) as [raw|]; [|by left].
      apply (try_steps_members _ (fun x => source x = "PyModules" /\ name x <> ""
                                           /\ all_chars Pat.ident_dash (name x) = true
                                           /\ exists v, version x = Some v /\ token v)) in Hx;
        [done|].
      intros line deps0 deps1 Hline y Hy.
      destruct (requirement_line_pymodules _ _ _ _ Hline y Hy) as [?|(? & _ & ?)]; auto. }
    apply Hfile in Hd as [Hd|Hd]; [|by right].
    apply Hfile in Hd as [Hd|Hd]; [by left | by right].
  - destruct (AtlasExternals.found_version pkg content) as [v|]; [|by left].
    destruct (Py.truthy v); by left.
Qed.

Lemma fold_deps missing d : forall st,
  d ∈ (foldl (fun st pkg => AtlasExternals.package_step hash rfpath external pkg st)
         st missing).2 ->
  d ∈ st.2
  \/ ("PyModules" ∈ missing /\ source d = "PyModules" /\ name d <> ""
      /\ all_chars Pat.ident_dash (name d) = true
      /\ exists v, version d = Some v /\ token v).
Proof.
  induction missing as [|p missing IH]; intros st; cbn [foldl]; [by left|].
  intros [Hd|(Hin & ?)]%IH.
  - apply package_step_deps in Hd as [?|(-> & ?)]; [by left|]. right. split; [by left|done].
  - right. split; [by right|done].
Qed.
End Steps.

(** X24. [parse_atlasexternals_packages] gives a version to a package exactly
    when the package is among the missing ones, is not PyModules, has a
    directory with a manifest, and a pattern finds a version that is not
    empty in that manifest; every such version is free of whitespace.
    The only records it adds to the set of dependencies are those of the
    pinned requirements of PyModules, with source PyModules. *)
Theorem atlasexternals_packages_shape (hash : string * option string -> Z)
    (rfpath : string -> string -> string)
    (external : option (string -> option (string -> option string)))
    (missing_packages : list string) (dependencies : list Dependency) :
  let result :=
    AtlasExternals.parse_atlasexternals_packages hash rfpath external missing_packages
      dependencies in
  (forall pkg v,
     result.1 !! pkg = Some v
     <-> pkg ∈ missing_packages /\ pkg <> "PyModules" /\ v <> ""
         /\ exists ext pkg_dir content,
              external = Some ext /\ ext pkg = Some pkg_dir
              /\ AtlasExternals.manifest pkg_dir = Some content
              /\ AtlasExternals.found_version pkg content = Some v)
  /\ (forall pkg v, result.1 !! pkg = Some v -> token v)
  /\ (forall d, d ∈ result.2 ->
        d ∈ dependencies
        \/ ("PyModules" ∈ missing_packages /\ source d = "PyModules" /\ name d <> ""
            /\ all_chars Pat.ident_dash (name d) = true
            /\ exists v, version d = Some v /\ token v)).
Proof.
  intros result. subst result. unfold AtlasExternals.parse_atlasexternals_packages.
  assert (Hiff : forall pkg v,
    (match external with
     | Some ext =>
         foldl (fun st pkg => AtlasExternals.package_step hash rfpath ext pkg st)
           (∅, dependencies) missing_packages
     | None => (∅, dependencies)
     end).1 !! pkg = Some v
    <-> pkg ∈ missing_packages /\ pkg <> "PyModules" /\ v <> ""
        /\ exists ext pkg_dir content,
             external = Some ext /\ ext pkg = Some pkg_dir
             /\ AtlasExternals.manifest pkg_dir = Some content
             /\ AtlasExternals.found_version pkg content = Some v).
  { intros pkg v. destruct external as [ext|].
    - rewrite fold_packages. cbn [fst]. rewrite lookup_empty. unfold stored. split.
      + destruct (ext pkg) as [pkg_dir|] eqn:Hdir; [|done]. cbn [mbind option_bind].
        destruct (AtlasExternals.manifest pkg_dir) as [content|] eqn:Hman; [|done].
        cbn [mbind option_bind]. case_bool_decide as Hpy; [done|].
        destruct (AtlasExternals.found_version pkg content) as [v'|] eqn:Hv; [|done].
        cbn [mbind option_bind]. destruct v' as [|c v']; [done|]. cbn [Py.truthy].
        case_bool_decide as Hin; [|done]. intros [= <-].
        split_and!; [done..|]. by eexists _, _, _.
      + intros (Hin & Hpy & Hv & ext' & pkg_dir & content & [= <-] & -> & Hman & Hfound).
        cbn [mbind option_bind]. rewrite Hman. cbn [mbind option_bind].
        rewrite bool_decide_false by done. rewrite Hfound. cbn [mbind option_bind].
        destruct v; [done|]. cbn [Py.truthy]. by rewrite bool_decide_true.
    - cbn [fst]. rewrite lookup_empty. split; [done|].
      by intros (_ & _ & _ & ? & ? & ? & ? & _). }
  split_and!.
  - exact Hiff.
  - intros pkg v (_ & _ & Hv & _ & _ & content & _ & _ & _ & Hfound)%Hiff.
    by eapply found_version_token.
  - intros d Hd. destruct external as [ext|]; [|by left].
    by apply fold_deps in Hd.
Qed.

Lemma atlasexternals_packages_shape_witness :
  let hash : string * option string -> Z := fun _ => 0 in
  let rfpath pkg rf := "External/" ++ pkg ++ "/" ++ rf in
  let external pkg :=
    if String.eqb pkg "Acts" then
      Some (fun file => if String.eqb file "cmake/CMakeLists.txt"
                        then Some "URL http://cern.ch/sources/Acts-32.0.2.tar.gz"
                        else None)
    else if String.eqb pkg "PyModules" then
      Some (fun file => if String.eqb file "CMakeLists.txt" then Some "# no sources"
                        else if String.eqb file "requirements.txt.in"
                             then Some ("numpy==1.26.4" ++ String Py.nl "")
                             else None)
    else None in
  let result :=
    AtlasExternals.parse_atlasexternals_packages hash rfpath (Some external)
      ["Acts"; "PyModules"; "Gaudi"] [] in
  result.1 !! "Acts" = Some "32.0.2" /\ token "32.0.2" /\ result.1 !! "Gaudi" = None
  /\ result.2
     = [mkDependency "numpy" (Some "1.26.4") "PyModules" "External/PyModules/requirements.txt.in"].
Proof.
  intros hash rfpath external result.
  assert (result.1 !! "Acts" = Some "32.0.2") as H by (by vm_compute).
  split; [exact H|]. split; [|by vm_compute].
  destruct (atlasexternals_packages_shape hash rfpath (Some external)
              ["Acts"; "PyModules"; "Gaudi"] []) as (_ & Htok & _).
  exact (Htok "Acts" "32.0.2" H).
Defined.
